(** * Performance evaluation core of the municipal task tracker

    A shallow embedding of the evaluation and aggregation services
    (advancedEvaluationService, performanceService, actualizarEstadoTareas),
    of the code around them (deliveryService, colorGenerator and the
    evaluation controller) and the properties of their results.

    Modelling conventions.
    - A JavaScript [Date] is its [getTime()] value: an integer number of
      milliseconds, in [Z].
    - A JavaScript number is an IEEE 754 binary64 value.  The model keeps
      the exact value of the double, a rational in [Q], and rounds the
      exact result of every [+], [-], [*] and [/] to the nearest double,
      ties to even ([Double.fl]); comparisons and [Math.round] are exact.
      Equality of numbers is [Qeq], written [==].
    - The exponent range of binary64 is not modelled: the numbers that the
      services compute from counts, ratings and time values lie far from
      overflow and from the subnormal numbers.
    - Counts, ids, ratings and time values are integers in [Z] and enter a
      computation as they are: they are below [2^53] in magnitude, where
      every integer is a double, and so are their sums and differences.
    - [a / b] on numbers is not finite when [b] is zero (JavaScript
      yields [Infinity] or [NaN]); the model makes this visible as the
      outcome [NotFinite], so that a guarded division is proved guarded.
    - [throw new Error(msg)] is the outcome [Throw msg].
    - The Sequelize models are lists of rows; each query used by the
      services is a function on those lists. *)

From Stdlib Require Import ZArith QArith Qround Qpower Lia Lqa String List Sorted.
From Stdlib Require SpecFloat.
From stdpp Require Import base decidable list gmap strings pretty.
Import ListNotations.

Local Open Scope Z_scope.

(** ** Outcomes of a computation *)

Inductive outcome (A : Type) : Type :=
| Ok (a : A)
| Throw (msg : string)
| NotFinite.

Arguments Ok {A} a.
Arguments Throw {A} msg.
Arguments NotFinite {A}.

#[global] Instance outcome_ret : MRet outcome := fun A a => Ok a.

#[global] Instance outcome_bind : MBind outcome := fun A B k c =>
  match c with
  | Ok a => k a
  | Throw msg => Throw msg
  | NotFinite => NotFinite
  end.

(** ** Numbers *)

(** *** Rounding to binary64 *)

Module Double.

(** [2^e], for any integer [e]. *)
Definition pow2 (e : Z) : Q := ((2 # 1) ^ e)%Q.

(** The integer nearest to [y], a tie going to the even one. *)
Definition rne (y : Q) : Z :=
  let f := Qfloor y in
  match (y - inject_Z f ?= 1 # 2)%Q with
  | Lt => f
  | Gt => f + 1
  | Eq => if Z.even f then f else f + 1
  end.

(** The exponent of the unit in the last place of a positive [x]: the [e]
    with [2^52 <= x / 2^e < 2^53]. *)
Definition cexp (x : Q) : Z :=
  let e0 := Z.log2 (Qnum x) - Z.log2 (Zpos (Qden x)) in
  if Qle_bool (pow2 e0) x then e0 - 52 else e0 - 53.

(** A positive number rounded to 53 significant bits. *)
Definition flp (x : Q) : Q := (inject_Z (rne (x / pow2 (cexp x))) * pow2 (cexp x))%Q.

(** The double nearest to [x], a tie going to the even significand. *)
Definition fl (x : Q) : Q :=
  match (x ?= 0)%Q with
  | Eq => x
  | Gt => flp x
  | Lt => (- flp (- x))%Q
  end.

(** The unit roundoff, [2^-53]. *)
Definition u : Q := 1 # 9007199254740992.

(** The value of a finite float of the Standard Library's specification of
    IEEE 754, to compare [fl] with it. *)
Definition SF2Q (f : SpecFloat.spec_float) : Q :=
  match f with
  | SpecFloat.S754_finite s m e =>
      let v := (inject_Z (Zpos m) * pow2 e)%Q in if s then (- v)%Q else v
  | _ => 0%Q
  end.

(** An integer as a binary64 float of that specification. *)
Definition SFofZ (z : Z) : SpecFloat.spec_float :=
  SpecFloat.binary_normalize 53 1024 z 0 false.

End Double.

(** *** The operations of the services *)

(** [a + b], [a - b] and [a * b]. *)
Definition js_add (a b : Q) : Q := Double.fl (a + b).
Definition js_sub (a b : Q) : Q := Double.fl (a - b).
Definition js_mul (a b : Q) : Q := Double.fl (a * b).

(** [a / b] for a divisor that is not zero. *)
Definition js_quot (a b : Q) : Q := Double.fl (a / b).

(** [a / b] for a divisor that is not a literal. *)
Definition js_div (a b : Q) : outcome Q :=
  if Qeq_bool b 0 then NotFinite else Ok (js_quot a b).

(** A decimal literal of the source: the double nearest to it. *)
Definition js_lit (x : Q) : Q := Double.fl x.

(** [Math.round]: the nearest integer, a tie going towards [+∞]. *)
Definition Math_round (x : Q) : Z := Qfloor (x + (1 # 2))%Q.

(** [Math.min] on finite numbers. *)
Definition Math_min (x y : Q) : Q := if Qle_bool x y then x else y.

(** [k / 100] for an integer [k]: the double written with two decimals. *)
Definition centesimas (k : Z) : Q := js_quot (inject_Z k) 100.

(** The idiom [Math.round(x * 100) / 100] of the services. *)
Definition round2 (x : Q) : Q := centesimas (Math_round (js_mul x 100)).

(** Rounding to two decimals, half up, on the exact value: the [round2] of
    the specification. *)
Definition decimal2 (x : Q) : Q := (inject_Z (Math_round (x * 100)) / 100)%Q.

(** How far the product that [Math.round] receives can be from its exact
    value in the computations of the services. *)
Definition tolerancia : Q := 1 # 100000000000.

(** [q] is the binary64 quotient [k / 100] of a whole number [k], and [k]
    lies between the half-up roundings of [x * 100] moved down and up by
    [tolerancia]: the two-decimal rounding of the specification, up to the
    rounding of binary64. *)
Definition cerca_de_decimal2 (x q : Q) : Prop :=
  exists k : Z,
    q = centesimas k /\
    (Math_round (x * 100 - tolerancia)%Q <= k <= Math_round (x * 100 + tolerancia)%Q)%Z.

(** Loops over an array whose body may leave the rationals. *)
Fixpoint foldM {A B : Type} (f : A -> B -> outcome A) (l : list B) (a : A) : outcome A :=
  match l with
  | [] => Ok a
  | x :: l' => a' ← f a x; foldM f l' a'
  end.

(** ** The Sequelize models *)

Inductive EstadoTarea : Type := en_proceso | finalizada.

#[global] Instance EstadoTarea_eq_dec : EqDecision EstadoTarea.
Proof. solve_decision. Defined.

Record Municipio : Type := {
  m_id : Z;
  m_nombre : string
}.

Record Division : Type := {
  d_id : Z;
  d_nombre : string
}.

Record Tarea : Type := {
  t_id : Z;
  t_nombre : string;
  t_divisionId : Z;
  t_fechaInicio : Z;
  t_fechaCulminacion : Z;
  t_estado : EstadoTarea
}.

Record Entrega : Type := {
  e_id : Z;
  e_tareaId : Z;
  e_municipioId : Z;
  e_fechaHoraEntrega : Z;
  e_calificacion : option Z
}.

(** The tables, in row order. *)
Record Store : Type := {
  tabla_municipios : list Municipio;
  tabla_divisiones : list Division;
  tabla_tareas : list Tarea;
  tabla_entregas : list Entrega
}.

(** [ORDER BY]: a stable insertion sort for the given order. *)
Fixpoint insert_by {A : Type} (le : A -> A -> bool) (x : A) (l : list A) : list A :=
  match l with
  | [] => [x]
  | y :: l' => if le x y then x :: l else y :: insert_by le x l'
  end.

Definition order_by {A : Type} (le : A -> A -> bool) (l : list A) : list A :=
  foldr (insert_by le) [] l.

(** [Op.between]: both ends included. *)
Definition between (lo hi x : Z) : bool := (lo <=? x) && (x <=? hi).

(** The three-way date clause shared by the monthly report and the
    evaluation filter: starts in the range, ends in the range, or spans it. *)
Definition date_clause (desde hasta : Z) (t : Tarea) : bool :=
  between desde hasta (t_fechaInicio t)
  || between desde hasta (t_fechaCulminacion t)
  || ((t_fechaInicio t <=? desde) && (t_fechaCulminacion t >=? hasta)).

(** [Municipio.findByPk(id)] *)
Definition Municipio_findByPk (s : Store) (id : Z) : option Municipio :=
  find (fun m => m_id m =? id) (tabla_municipios s).

(** [Municipio.findAll({ order: [['nombre', 'ASC']] })] *)
Definition Municipio_findAll_by_nombre (s : Store) : list Municipio :=
  order_by (fun a b => String.leb (m_nombre a) (m_nombre b)) (tabla_municipios s).

(** [Division.findAll({ order: [['nombre', 'ASC']] })] *)
Definition Division_findAll_by_nombre (s : Store) : list Division :=
  order_by (fun a b => String.leb (d_nombre a) (d_nombre b)) (tabla_divisiones s).

(** The [entregas] association of a task, as an [include] loads it. *)
Definition entregas_de_tarea (s : Store) (t : Tarea) : list Entrega :=
  filter (fun e => e_tareaId e = t_id t) (tabla_entregas s).

(** ** advancedEvaluationService *)

Module AdvancedEvaluation.

Record TaskEvaluation : Type := {
  tareaId : Z;
  tareaNombre : string;
  entregado : bool;
  cantidadEntregas : Z;
  puntualidad : Q;
  calidad : Q;
  primeraEntrega : option Z;
  fechaLimite : Z
}.

Record ComprehensiveEvaluation : Type := {
  municipioId : Z;
  municipioNombre : string;
  totalTareas : Z;
  tareasCompletadas : Z;
  porcentajeCobertura : Q;
  entregasPuntuales : Z;
  entregasTardias : Z;
  porcentajePuntualidad : Q;
  promedioPuntualidad : Q;
  totalEntregas : Z;
  promedioEntregasPorTarea : Q;
  entregasCalificadas : Z;
  promedioCalidad : Q;
  puntuacionFinal : Q;
  detallesTareas : list TaskEvaluation
}.

Record Filtros : Type := {
  f_fechaInicio : option Z;
  f_fechaFin : option Z;
  f_divisionId : option Z
}.

Definition calcularPuntualidad (fechaEntrega fechaInicio fechaLimite : Z) : outcome Q :=
  let tiempoTotal := fechaLimite - fechaInicio in
  let tiempoTranscurrido := fechaEntrega - fechaInicio in
  if tiempoTranscurrido <=? 0 then Ok 100%Q
  else if tiempoTranscurrido >=? tiempoTotal then Ok 0%Q
  else
    r ← js_div (inject_Z tiempoTranscurrido) (inject_Z tiempoTotal);
    let porcentaje := js_sub 100 (js_mul r 100) in
    Ok (round2 porcentaje).

(** The [where] object built from the optional filters.  [divisionId] is
    tested for truthiness, so an id of 0 does not filter; the date clause
    needs both ends. *)
Definition whereClause (filtros : option Filtros) (t : Tarea) : bool :=
  match filtros with
  | None => true
  | Some f =>
      (match f_divisionId f with
       | Some d => if d =? 0 then true else t_divisionId t =? d
       | None => true
       end)
      && (match f_fechaInicio f, f_fechaFin f with
          | Some desde, Some hasta => date_clause desde hasta t
          | _, _ => true
          end)
  end.

(** [Tarea.findAll({ where, include: entregas of the unit (not required),
    order: [['fechaInicio', 'DESC']] })] *)
Definition Tarea_findAll (s : Store) (filtros : option Filtros) (municipioId : Z)
  : list (Tarea * list Entrega) :=
  order_by (fun a b => t_fechaInicio b.1 <=? t_fechaInicio a.1)
    (map (fun t => (t, filter (fun e => e_municipioId e = municipioId) (entregas_de_tarea s t)))
         (filter (fun t => whereClause filtros t) (tabla_tareas s))).

(** The counters declared before the loop over the tasks. *)
Record Totales : Type := {
  c_tareasCompletadas : Z;
  c_entregasPuntuales : Z;
  c_entregasTardias : Z;
  c_totalEntregas : Z;
  c_sumaPuntualidad : Q;
  c_sumaCalidad : Q;
  c_entregasCalificadas : Z;
  c_detallesTareas : list TaskEvaluation
}.

(** The variables declared per task, before the loop over its deliveries. *)
Record PorTarea : Type := {
  puntualidadTarea : Q;
  calidadTarea : Q;
  l_primeraEntrega : option Z;
  calificacionesCount : Z
}.

(** Body of [for (const entrega of entregas)]. *)
Definition paso_entrega (tarea : Tarea) (st : Totales * PorTarea) (entrega : Entrega)
  : outcome (Totales * PorTarea) :=
  let '(c, l) := st in
  let primera :=
    match l_primeraEntrega l with
    | None => Some (e_fechaHoraEntrega entrega)
    | Some p => if e_fechaHoraEntrega entrega <? p
                then Some (e_fechaHoraEntrega entrega) else Some p
    end in
  p ← calcularPuntualidad (e_fechaHoraEntrega entrega)
                          (t_fechaInicio tarea) (t_fechaCulminacion tarea);
  let puntual := e_fechaHoraEntrega entrega <=? t_fechaCulminacion tarea in
  let hay := match e_calificacion entrega with Some _ => 1 | None => 0 end in
  Ok ({| c_tareasCompletadas := c_tareasCompletadas c;
         c_entregasPuntuales := c_entregasPuntuales c + (if puntual then 1 else 0);
         c_entregasTardias := c_entregasTardias c + (if puntual then 0 else 1);
         c_totalEntregas := c_totalEntregas c;
         c_sumaPuntualidad := js_add (c_sumaPuntualidad c) p;
         c_sumaCalidad :=
           match e_calificacion entrega with
           | Some n => js_add (c_sumaCalidad c) (inject_Z n)
           | None => c_sumaCalidad c
           end;
         c_entregasCalificadas := c_entregasCalificadas c + hay;
         c_detallesTareas := c_detallesTareas c |},
      {| puntualidadTarea := js_add (puntualidadTarea l) p;
         calidadTarea :=
           match e_calificacion entrega with
           | Some n => js_add (calidadTarea l) (inject_Z n)
           | None => calidadTarea l
           end;
         l_primeraEntrega := primera;
         calificacionesCount := calificacionesCount l + hay |}).

(** Body of [for (const tarea of tareas)]. *)
Definition paso_tarea (c : Totales) (fila : Tarea * list Entrega) : outcome Totales :=
  let '(tarea, entregas) := fila in
  let cantidadEntregas := Z.of_nat (length entregas) in
  let entregado := 0 <? cantidadEntregas in
  let c1 :=
    if entregado
    then {| c_tareasCompletadas := c_tareasCompletadas c + 1;
            c_entregasPuntuales := c_entregasPuntuales c;
            c_entregasTardias := c_entregasTardias c;
            c_totalEntregas := c_totalEntregas c + cantidadEntregas;
            c_sumaPuntualidad := c_sumaPuntualidad c;
            c_sumaCalidad := c_sumaCalidad c;
            c_entregasCalificadas := c_entregasCalificadas c;
            c_detallesTareas := c_detallesTareas c |}
    else c in
  '(c2, l) ← foldM (paso_entrega tarea) entregas
               (c1, {| puntualidadTarea := 0; calidadTarea := 0;
                       l_primeraEntrega := None; calificacionesCount := 0 |});
  '(puntualidadT, calidadT) ←
    (if 0 <? cantidadEntregas
     then
       p ← js_div (puntualidadTarea l) (inject_Z cantidadEntregas);
       q ← (if 0 <? calificacionesCount l
            then js_div (calidadTarea l) (inject_Z (calificacionesCount l))
            else Ok (calidadTarea l));
       Ok (p, q)
     else Ok (puntualidadTarea l, calidadTarea l));
  Ok {| c_tareasCompletadas := c_tareasCompletadas c2;
        c_entregasPuntuales := c_entregasPuntuales c2;
        c_entregasTardias := c_entregasTardias c2;
        c_totalEntregas := c_totalEntregas c2;
        c_sumaPuntualidad := c_sumaPuntualidad c2;
        c_sumaCalidad := c_sumaCalidad c2;
        c_entregasCalificadas := c_entregasCalificadas c2;
        c_detallesTareas :=
          c_detallesTareas c2 ++
          [{| tareaId := t_id tarea;
              tareaNombre := t_nombre tarea;
              entregado := entregado;
              cantidadEntregas := cantidadEntregas;
              puntualidad := round2 puntualidadT;
              calidad := round2 calidadT;
              primeraEntrega := l_primeraEntrega l;
              fechaLimite := t_fechaCulminacion tarea |}] |}.

Definition sin_contar : Totales :=
  {| c_tareasCompletadas := 0; c_entregasPuntuales := 0; c_entregasTardias := 0;
     c_totalEntregas := 0; c_sumaPuntualidad := 0; c_sumaCalidad := 0;
     c_entregasCalificadas := 0; c_detallesTareas := [] |}.

Definition mensaje_no_encontrado (municipioId : Z) : string :=
  "Municipio con ID " +:+ pretty municipioId +:+ " no encontrado".

Definition getMunicipalityComprehensiveEvaluation
    (s : Store) (municipioId : Z) (filtros : option Filtros)
  : outcome ComprehensiveEvaluation :=
  match Municipio_findByPk s municipioId with
  | None => Throw (mensaje_no_encontrado municipioId)
  | Some municipio =>
      let tareas := Tarea_findAll s filtros municipioId in
      let totalTareas := Z.of_nat (length tareas) in
      c ← foldM paso_tarea tareas sin_contar;
      porcentajeCobertura ←
        (if 0 <? totalTareas
         then r ← js_div (inject_Z (c_tareasCompletadas c)) (inject_Z totalTareas);
              Ok (js_mul r 100)
         else Ok 0%Q);
      porcentajePuntualidad ←
        (if 0 <? c_totalEntregas c
         then r ← js_div (inject_Z (c_entregasPuntuales c)) (inject_Z (c_totalEntregas c));
              Ok (js_mul r 100)
         else Ok 0%Q);
      promedioPuntualidad ←
        (if 0 <? c_totalEntregas c
         then js_div (c_sumaPuntualidad c) (inject_Z (c_totalEntregas c))
         else Ok 0%Q);
      promedioEntregasPorTarea ←
        (if 0 <? c_tareasCompletadas c
         then js_div (inject_Z (c_totalEntregas c)) (inject_Z (c_tareasCompletadas c))
         else Ok 0%Q);
      promedioCalidad ←
        (if 0 <? c_entregasCalificadas c
         then js_div (c_sumaCalidad c) (inject_Z (c_entregasCalificadas c))
         else Ok 0%Q);
      let puntuacionFinal :=
        js_add (js_add (js_add (js_mul porcentajeCobertura (js_lit 0.40))
                               (js_mul promedioPuntualidad (js_lit 0.30)))
                       (js_mul promedioCalidad (js_lit 0.20)))
               (js_mul (Math_min (js_mul promedioEntregasPorTarea 20) 100) (js_lit 0.10)) in
      Ok {| municipioId := municipioId;
            municipioNombre := m_nombre municipio;
            totalTareas := totalTareas;
            tareasCompletadas := c_tareasCompletadas c;
            porcentajeCobertura := round2 porcentajeCobertura;
            entregasPuntuales := c_entregasPuntuales c;
            entregasTardias := c_entregasTardias c;
            porcentajePuntualidad := round2 porcentajePuntualidad;
            promedioPuntualidad := round2 promedioPuntualidad;
            totalEntregas := c_totalEntregas c;
            promedioEntregasPorTarea := round2 promedioEntregasPorTarea;
            entregasCalificadas := c_entregasCalificadas c;
            promedioCalidad := round2 promedioCalidad;
            puntuacionFinal := round2 puntuacionFinal;
            detallesTareas := c_detallesTareas c |}
  end.

End AdvancedEvaluation.

(** ** performanceService: coverage per unit *)

Module Performance.

Record MunicipalityPerformance : Type := {
  municipioId : Z;
  municipioNombre : string;
  totalTareas : Z;
  tareasCompletadas : Z;
  porcentajeCompletado : Q;
  actividadesCompletadas : list string;
  color : string
}.

(** [Entrega.findAll({ where: { municipioId }, include: tarea })]: each
    delivery of the unit with the task it points to, if there is one. *)
Definition Entrega_findAll (s : Store) (municipioId : Z) : list (Entrega * option Tarea) :=
  map (fun e => (e, find (fun t => t_id t =? e_tareaId e) (tabla_tareas s)))
      (filter (fun e => e_municipioId e = municipioId) (tabla_entregas s)).

(** Body of [entregas.forEach]: the [Set] of task ids seen and the names
    pushed so far. *)
Definition paso_actividad (st : gset Z * list string) (entrega : Entrega * option Tarea)
  : gset Z * list string :=
  let '(uniqueTaskIds, actividadesCompletadas) := st in
  match entrega.2 with
  | Some tarea =>
      if decide (t_id tarea ∈ uniqueTaskIds) then st
      else ({[ t_id tarea ]} ∪ uniqueTaskIds, actividadesCompletadas ++ [t_nombre tarea])
  | None => st
  end.

(** [for (let i = ...; i < l.length; i++) { ...; out.push(f(i, l[i])) }] *)
Fixpoint for_indexed {A B : Type} (f : nat -> A -> outcome B) (i : nat) (l : list A)
  : outcome (list B) :=
  match l with
  | [] => Ok []
  | x :: l' => y ← f i x; ys ← for_indexed f (S i) l'; Ok (y :: ys)
  end.

Section Service.

(** [generateColor] of utils/colorGenerator, which [ColorGenerator] below
    models: here any function from the position of the unit to a colour. *)
Variable generateColor : nat -> string.

Definition desempeno (s : Store) (totalTareas : Z) (i : nat) (municipio : Municipio)
  : outcome MunicipalityPerformance :=
  let entregas := Entrega_findAll s (m_id municipio) in
  let '(uniqueTaskIds, actividadesCompletadas) :=
    fold_left paso_actividad entregas (∅, []) in
  let tareasCompletadas := Z.of_nat (size uniqueTaskIds) in
  porcentajeCompletado ←
    (if 0 <? totalTareas
     then r ← js_div (inject_Z tareasCompletadas) (inject_Z totalTareas);
          Ok (centesimas (Math_round (js_mul r 10000)))
     else Ok 0%Q);
  Ok {| municipioId := m_id municipio;
        municipioNombre := m_nombre municipio;
        totalTareas := totalTareas;
        tareasCompletadas := tareasCompletadas;
        porcentajeCompletado := porcentajeCompletado;
        actividadesCompletadas := actividadesCompletadas;
        color := generateColor i |}.

Definition getMunicipalityPerformanceData (s : Store) : outcome (list MunicipalityPerformance) :=
  let municipios := Municipio_findAll_by_nombre s in
  let tareas := tabla_tareas s in
  let totalTareas := Z.of_nat (length tareas) in
  for_indexed (desempeno s totalTareas) 0 municipios.

End Service.

(** The task ids of a list, each kept at its first occurrence. *)
Fixpoint primeras_apariciones (ids : list Z) : list Z :=
  match ids with
  | [] => []
  | x :: l => x :: filter (fun y => y <> x) (primeras_apariciones l)
  end.

(** The name under which the task with a given id is loaded. *)
Definition nombre_de_tarea (s : Store) (id : Z) : string :=
  match find (fun t => t_id t =? id) (tabla_tareas s) with
  | Some t => t_nombre t
  | None => ""
  end.

(** The task ids of the deliveries of a unit, in row order. *)
Definition tareas_entregadas (s : Store) (municipioId : Z) : list Z :=
  map e_tareaId (filter (fun e => e_municipioId e = municipioId) (tabla_entregas s)).

(** The foreign key of [entregas.tareaId]. *)
Definition entregas_referenciadas (s : Store) : Prop :=
  forall e, e ∈ tabla_entregas s -> exists t, t ∈ tabla_tareas s /\ t_id t = e_tareaId e.

End Performance.

(** ** The [Date] constructor *)

Module JsDate.

Definition msPerDay : Z := 86400000.

(** Days from 1970-01-01 to the given day of the proleptic Gregorian
    calendar ([m] from 1 to 12). *)
Definition days_from_civil (y m d : Z) : Z :=
  let y' := if m <=? 2 then y - 1 else y in
  let era := y' / 400 in
  let yoe := y' - era * 400 in
  let mp := if 2 <? m then m - 3 else m + 9 in
  let doy := (153 * mp + 2) / 5 + d - 1 in
  let doe := yoe * 365 + yoe / 4 - yoe / 100 + doy in
  era * 146097 + doe - 719468.

(** ECMAScript [MakeDay]: [month] counts from 0 and may overflow into the
    neighbouring years; [date] may be 0 or negative. *)
Definition MakeDay (year month date : Z) : Z :=
  let ym := year + month / 12 in
  let mn := month mod 12 in
  days_from_civil ym (mn + 1) 1 + date - 1.

Definition MakeTime (hour min sec ms : Z) : Z :=
  hour * 3600000 + min * 60000 + sec * 1000 + ms.

Definition MakeDate (day time : Z) : Z := day * msPerDay + time.

(** [new Date(year, month, date, hours, minutes, seconds, ms)] in a zone
    whose local time is [tza] milliseconds ahead of UTC all year. *)
Definition Date_local (tza : Z) (year month date hours minutes seconds ms : Z) : Z :=
  let yr := if (0 <=? year) && (year <=? 99) then 1900 + year else year in
  MakeDate (MakeDay yr month date) (MakeTime hours minutes seconds ms) - tza.

End JsDate.

(** ** performanceService: the monthly report *)

Module Monthly.

Record DivisionPerformanceData : Type := {
  divisionId : Z;
  divisionNombre : string;
  tareasAsignadas : Z;
  tareasCompletadas : Z;
  porcentaje : Q
}.

Record MunicipalityMonthlyPerformance : Type := {
  municipioId : Z;
  municipioNombre : string;
  divisionData : list DivisionPerformanceData;
  totalTareasAsignadas : Z;
  totalTareasCompletadas : Z;
  porcentajeTotal : Q
}.

Record MonthlyPerformanceData : Type := {
  mes : string;
  municipios : list MunicipalityMonthlyPerformance
}.

Definition startDate (tza year month : Z) : Z :=
  JsDate.Date_local tza year (month - 1) 1 0 0 0 0.

Definition endDate (tza year month : Z) : Z :=
  JsDate.Date_local tza year month 0 23 59 59 0.

(** [Tarea.findAll({ where: { [Op.or]: [...] }, include: [division,
    entregas] })] *)
Definition Tarea_findAll (s : Store) (desde hasta : Z) : list (Tarea * list Entrega) :=
  map (fun t => (t, entregas_de_tarea s t))
      (filter (fun t => date_clause desde hasta t) (tabla_tareas s)).

(** Body of [for (const tarea of tareasDivision)]. *)
Definition contar_completada (municipio : Municipio) (tareasCompletadas : Z)
    (tarea : Tarea * list Entrega) : Z :=
  let hasEntrega := existsb (fun e => e_municipioId e =? m_id municipio) tarea.2 in
  if hasEntrega then tareasCompletadas + 1 else tareasCompletadas.

(** Body of [for (const division of divisiones)]. *)
Definition paso_division (tareas : list (Tarea * list Entrega)) (municipio : Municipio)
    (st : list DivisionPerformanceData * Z * Z) (division : Division)
  : outcome (list DivisionPerformanceData * Z * Z) :=
  let '(divisionData, totalTareasAsignadas, totalTareasCompletadas) := st in
  let tareasDivision := List.filter (fun t => t_divisionId t.1 =? d_id division) tareas in
  let tareasAsignadas := Z.of_nat (length tareasDivision) in
  let tareasCompletadas := fold_left (contar_completada municipio) tareasDivision 0 in
  if 0 <? tareasAsignadas
  then
    r ← js_div (inject_Z tareasCompletadas) (inject_Z tareasAsignadas);
    let porcentaje := js_mul r 100 in
    Ok (divisionData ++
          [{| divisionId := d_id division;
              divisionNombre := d_nombre division;
              tareasAsignadas := tareasAsignadas;
              tareasCompletadas := tareasCompletadas;
              porcentaje := round2 porcentaje |}],
        totalTareasAsignadas + tareasAsignadas,
        totalTareasCompletadas + tareasCompletadas)
  else Ok st.

(** Body of [for (const municipio of municipios)]. *)
Definition desempeno_mensual (tareas : list (Tarea * list Entrega))
    (divisiones : list Division) (municipio : Municipio)
  : outcome MunicipalityMonthlyPerformance :=
  '(divisionData, totalTareasAsignadas, totalTareasCompletadas) ←
    foldM (paso_division tareas municipio) divisiones ([], 0, 0);
  porcentajeTotal ←
    (if 0 <? totalTareasAsignadas
     then r ← js_div (inject_Z totalTareasCompletadas) (inject_Z totalTareasAsignadas);
          Ok (js_mul r 100)
     else Ok 0%Q);
  Ok {| municipioId := m_id municipio;
        municipioNombre := m_nombre municipio;
        divisionData := divisionData;
        totalTareasAsignadas := totalTareasAsignadas;
        totalTareasCompletadas := totalTareasCompletadas;
        porcentajeTotal := round2 porcentajeTotal |}.

(** [s.padStart(2, '0')] *)
Definition padStart2 (s : string) : string :=
  match String.length s with
  | O => "00"
  | S O => "0" +:+ s
  | _ => s
  end.

Definition getMonthlyPerformance (tza : Z) (s : Store) (year month : Z)
  : outcome MonthlyPerformanceData :=
  let tareas := Tarea_findAll s (startDate tza year month) (endDate tza year month) in
  let municipios := Municipio_findAll_by_nombre s in
  let divisiones := Division_findAll_by_nombre s in
  municipiosData ← mapM (desempeno_mensual tareas divisiones) municipios;
  let mesString := pretty year +:+ "-" +:+ padStart2 (pretty month) in
  Ok {| mes := mesString; municipios := municipiosData |}.

(** The sum of a list of counts. *)
Definition suma (l : list Z) : Z := foldr Z.add 0 l.

(** The window of the specification: it ends with the last millisecond of
    the last day of the month. *)
Definition windowStart (tza year month : Z) : Z :=
  JsDate.Date_local tza year (month - 1) 1 0 0 0 0.

Definition windowEnd (tza year month : Z) : Z :=
  JsDate.Date_local tza year month 0 23 59 59 999.

End Monthly.

(** ** actualizarEstadoTareas *)

Module Lifecycle.

(** What the function writes on the console.  The update of the table
    below cannot fail, so the [catch] branch, which only logs the error, is
    never taken. *)
Inductive Salida : Type :=
| HoraActual (ahora : Z)
| Actualizadas (n : Z).

Record Mundo : Type := {
  mundo_tareas : list Tarea;
  consola : list Salida
}.

Definition finalizar (t : Tarea) : Tarea :=
  {| t_id := t_id t; t_nombre := t_nombre t; t_divisionId := t_divisionId t;
     t_fechaInicio := t_fechaInicio t; t_fechaCulminacion := t_fechaCulminacion t;
     t_estado := finalizada |}.

Definition en_proceso_b (t : Tarea) : bool :=
  match t_estado t with en_proceso => true | finalizada => false end.

(** [Tarea.update({ estado: 'finalizada' }, { where })]: the number of
    rows matched and the table after the update. *)
Definition Tarea_update_finalizada (where_ : Tarea -> bool) (tareas : list Tarea)
  : Z * list Tarea :=
  (Z.of_nat (length (List.filter where_ tareas)),
   map (fun t => if where_ t then finalizar t else t) tareas).

(** The earlier copy of the file compares with [Op.lt]. *)
Module Anterior.

Definition actualizarEstadoTareas (ahora : Z) (w : Mundo) : unit * Mundo :=
  let tareasActualizadas :=
    Tarea_update_finalizada
      (fun t => en_proceso_b t && (t_fechaCulminacion t <? ahora)) (mundo_tareas w) in
  (tt, {| mundo_tareas := tareasActualizadas.2;
          consola := if 0 <? tareasActualizadas.1
                     then consola w ++ [Actualizadas tareasActualizadas.1]
                     else consola w |}).

End Anterior.

(** The current copy compares with [Op.lte] and logs the time first. *)
Definition actualizarEstadoTareas (ahora : Z) (w : Mundo) : unit * Mundo :=
  let consola1 := consola w ++ [HoraActual ahora] in
  let tareasActualizadas :=
    Tarea_update_finalizada
      (fun t => en_proceso_b t && (t_fechaCulminacion t <=? ahora)) (mundo_tareas w) in
  (tt, {| mundo_tareas := tareasActualizadas.2;
          consola := if 0 <? tareasActualizadas.1
                     then consola1 ++ [Actualizadas tareasActualizadas.1]
                     else consola1 |}).

(** A task that is due at [ahora]. *)
Definition vencida (ahora : Z) (t : Tarea) : Prop :=
  t_estado t = en_proceso /\ t_fechaCulminacion t <= ahora.

(** The number of tasks the update transitions. *)
Definition transicionadas (ahora : Z) (tareas : list Tarea) : Z :=
  Z.of_nat (length (List.filter
    (fun t => en_proceso_b t && (t_fechaCulminacion t <=? ahora)) tareas)).

End Lifecycle.

(** ** What the counters of the evaluation amount to

    Closed forms over the rows returned by [Tarea_findAll], used to state
    the results of the loops. *)

Module EvaluationTotals.
Import AdvancedEvaluation.

(** The score of a delivery, as a number. *)
Definition puntaje (tarea : Tarea) (entrega : Entrega) : Q :=
  match calcularPuntualidad (e_fechaHoraEntrega entrega)
          (t_fechaInicio tarea) (t_fechaCulminacion tarea) with
  | Ok q => q
  | _ => 0%Q
  end.

(** A running sum, added left to right as [+=] does. *)
Definition suma_desde (a : Q) (l : list Q) : Q := fold_left js_add l a.

(** Every delivery in scope, with its task. *)
Definition entregas_evaluadas (filas : list (Tarea * list Entrega)) : list (Tarea * Entrega) :=
  flat_map (fun fila => map (pair fila.1) fila.2) filas.

Definition n_completadas (filas : list (Tarea * list Entrega)) : Z :=
  Z.of_nat (length (List.filter (fun fila => 0 <? Z.of_nat (length fila.2)) filas)).

Definition n_entregas (filas : list (Tarea * list Entrega)) : Z :=
  Z.of_nat (length (entregas_evaluadas filas)).

Definition calificaciones (filas : list (Tarea * list Entrega)) : list Z :=
  omap (fun par => e_calificacion par.2) (entregas_evaluadas filas).

Definition suma_puntajes (filas : list (Tarea * list Entrega)) : Q :=
  suma_desde 0 (map (fun par => puntaje par.1 par.2) (entregas_evaluadas filas)).

Definition suma_calificaciones (filas : list (Tarea * list Entrega)) : Q :=
  suma_desde 0 (map inject_Z (calificaciones filas)).


(** The unrounded aggregates that enter the final score, as the service
    computes them. *)
Definition cobertura (filas : list (Tarea * list Entrega)) : Q :=
  if 0 <? Z.of_nat (length filas)
  then js_mul (js_quot (inject_Z (n_completadas filas))
                       (inject_Z (Z.of_nat (length filas)))) 100
  else 0%Q.

Definition puntualidad_media (filas : list (Tarea * list Entrega)) : Q :=
  if 0 <? n_entregas filas
  then js_quot (suma_puntajes filas) (inject_Z (n_entregas filas))
  else 0%Q.

Definition calidad_media (filas : list (Tarea * list Entrega)) : Q :=
  if 0 <? Z.of_nat (length (calificaciones filas))
  then js_quot (suma_calificaciones filas)
               (inject_Z (Z.of_nat (length (calificaciones filas))))
  else 0%Q.

Definition entregas_por_tarea (filas : list (Tarea * list Entrega)) : Q :=
  if 0 <? n_completadas filas
  then js_quot (inject_Z (n_entregas filas)) (inject_Z (n_completadas filas))
  else 0%Q.

(** The weighted sum of the four aggregates, added from left to right. *)
Definition ponderada (cob punt cal cant : Q) : Q :=
  js_add (js_add (js_add (js_mul cob (js_lit 0.40)) (js_mul punt (js_lit 0.30)))
                 (js_mul cal (js_lit 0.20)))
         (js_mul (Math_min (js_mul cant 20) 100) (js_lit 0.10)).

(** The same aggregates and the same weighted sum on the exact values, as
    the specification writes them. *)
Definition cobertura_exacta (filas : list (Tarea * list Entrega)) : Q :=
  if 0 <? Z.of_nat (length filas)
  then (inject_Z (n_completadas filas) / inject_Z (Z.of_nat (length filas)) * 100)%Q
  else 0%Q.


End EvaluationTotals.

(** ** Sample stores *)

Module Ejemplos.

(** One unit, three tasks of one division, and a single unrated delivery
    on the first task, handed in at the very start of the task. *)
Definition tres_tareas : Store :=
  {| tabla_municipios := [ {| m_id := 1; m_nombre := "Alfa" |} ];
     tabla_divisiones := [ {| d_id := 1; d_nombre := "Deportes" |} ];
     tabla_tareas :=
       [ {| t_id := 1; t_nombre := "Tarea 1"; t_divisionId := 1;
            t_fechaInicio := 1000; t_fechaCulminacion := 2000; t_estado := en_proceso |};
         {| t_id := 2; t_nombre := "Tarea 2"; t_divisionId := 1;
            t_fechaInicio := 1000; t_fechaCulminacion := 2000; t_estado := en_proceso |};
         {| t_id := 3; t_nombre := "Tarea 3"; t_divisionId := 1;
            t_fechaInicio := 1000; t_fechaCulminacion := 2000; t_estado := en_proceso |} ];
     tabla_entregas :=
       [ {| e_id := 1; e_tareaId := 1; e_municipioId := 1;
            e_fechaHoraEntrega := 1000; e_calificacion := None |} ] |}.

(** One unit and two tasks; the unit delivers the second task, then the
    first, then the second once more. *)
Definition entrega_doble : Store :=
  {| tabla_municipios := [ {| m_id := 1; m_nombre := "Alfa" |} ];
     tabla_divisiones := [ {| d_id := 1; d_nombre := "Deportes" |} ];
     tabla_tareas :=
       [ {| t_id := 1; t_nombre := "Tarea 1"; t_divisionId := 1;
            t_fechaInicio := 1000; t_fechaCulminacion := 2000; t_estado := en_proceso |};
         {| t_id := 2; t_nombre := "Tarea 2"; t_divisionId := 1;
            t_fechaInicio := 1000; t_fechaCulminacion := 2000; t_estado := en_proceso |} ];
     tabla_entregas :=
       [ {| e_id := 1; e_tareaId := 2; e_municipioId := 1;
            e_fechaHoraEntrega := 1500; e_calificacion := Some 80 |};
         {| e_id := 2; e_tareaId := 1; e_municipioId := 1;
            e_fechaHoraEntrega := 1600; e_calificacion := None |};
         {| e_id := 3; e_tareaId := 2; e_municipioId := 1;
            e_fechaHoraEntrega := 1700; e_calificacion := Some 90 |} ] |}.

(** One unit, one division and one task that starts half a second before
    the end of January 2024 (UTC) and ends on 10 February. *)
Definition fin_de_enero : Store :=
  {| tabla_municipios := [ {| m_id := 1; m_nombre := "Alfa" |} ];
     tabla_divisiones := [ {| d_id := 1; d_nombre := "Deportes" |} ];
     tabla_tareas :=
       [ {| t_id := 1; t_nombre := "Tarea 1"; t_divisionId := 1;
            t_fechaInicio := 1706745599500; t_fechaCulminacion := 1707523200000;
            t_estado := en_proceso |} ];
     tabla_entregas := [] |}.


(** One unit and [n] tasks of January 2024, of which the unit delivered
    the first [k], each once, unrated and at the start of the task. *)
Definition tarea_numero (i : nat) : Tarea :=
  {| t_id := Z.of_nat i; t_nombre := "Tarea"; t_divisionId := 1;
     t_fechaInicio := 1704067201000; t_fechaCulminacion := 1704067202000;
     t_estado := en_proceso |}.

Definition entrega_numero (i : nat) : Entrega :=
  {| e_id := Z.of_nat i; e_tareaId := Z.of_nat i; e_municipioId := 1;
     e_fechaHoraEntrega := 1704067201000; e_calificacion := None |}.

Definition entregadas (n k : nat) : Store :=
  {| tabla_municipios := [ {| m_id := 1; m_nombre := "Alfa" |} ];
     tabla_divisiones := [ {| d_id := 1; d_nombre := "Deportes" |} ];
     tabla_tareas := map tarea_numero (seq 1 n);
     tabla_entregas := map entrega_numero (seq 1 k) |}.

(** A task that is in progress and whose deadline is the instant 2000. *)
Definition tarea_al_limite : Tarea :=
  {| t_id := 1; t_nombre := "Tarea 1"; t_divisionId := 1;
     t_fechaInicio := 1000; t_fechaCulminacion := 2000; t_estado := en_proceso |}.

End Ejemplos.

(** ** What the per-task details of the evaluation amount to *)

Module EvaluationDetails.
Import AdvancedEvaluation EvaluationTotals.

(** A delivery handed in at or before the deadline of its task. *)
Definition es_puntual (par : Tarea * Entrega) : bool :=
  e_fechaHoraEntrega par.2 <=? t_fechaCulminacion par.1.

Definition n_puntuales (filas : list (Tarea * list Entrega)) : Z :=
  Z.of_nat (length (List.filter es_puntual (entregas_evaluadas filas))).

Definition n_tardias (filas : list (Tarea * list Entrega)) : Z :=
  Z.of_nat (length (List.filter (fun par => negb (es_puntual par)) (entregas_evaluadas filas))).

(** The earliest instant seen so far, scanning from the left. *)
Definition primera_desde (p : option Z) (ts : list Z) : option Z :=
  fold_left (fun acc t => match acc with
                          | None => Some t
                          | Some p => if t <? p then Some t else Some p
                          end) ts p.

(** The mean of a list of numbers, 0 for the empty list. *)
Definition media (l : list Q) : Q :=
  if 0 <? Z.of_nat (length l)
  then js_quot (suma_desde 0 l) (inject_Z (Z.of_nat (length l)))
  else 0%Q.

(** The detail record of one task in scope. *)
Definition detalle (fila : Tarea * list Entrega) : TaskEvaluation :=
  {| tareaId := t_id fila.1;
     tareaNombre := t_nombre fila.1;
     entregado := 0 <? Z.of_nat (length fila.2);
     cantidadEntregas := Z.of_nat (length fila.2);
     puntualidad := round2 (media (map (puntaje fila.1) fila.2));
     calidad := round2 (media (map inject_Z (omap e_calificacion fila.2)));
     primeraEntrega := primera_desde None (map e_fechaHoraEntrega fila.2);
     fechaLimite := t_fechaCulminacion fila.1 |}.

End EvaluationDetails.

(** ** advancedEvaluationService: all units and rankings *)

Module Ranking.
Import AdvancedEvaluation.

(** [Array.prototype.sort(compareFn)]: a stable sort; an element stays
    before a later one when [compareFn] of the two is not positive. *)
Definition Array_sort {A : Type} (compareFn : A -> A -> Q) (l : list A) : list A :=
  order_by (fun a b => Qle_bool (compareFn a b) 0) l.

Definition getAllMunicipalitiesComprehensiveEvaluation
    (s : Store) (filtros : option Filtros) : outcome (list ComprehensiveEvaluation) :=
  let municipios := Municipio_findAll_by_nombre s in
  evaluaciones ←
    mapM (fun municipio =>
            getMunicipalityComprehensiveEvaluation s (m_id municipio) filtros) municipios;
  Ok (Array_sort (fun a b => js_sub (puntuacionFinal b) (puntuacionFinal a)) evaluaciones).




End Ranking.

(** ** What the entries of the monthly report amount to *)

Module MonthlyBreakdown.
Import Monthly.

(** The task of a row belongs to the division. *)
Definition de_division (d : Division) (fila : Tarea * list Entrega) : bool :=
  t_divisionId fila.1 =? d_id d.

(** The task of a row has a delivery of the unit. *)
Definition entregada_por (m : Municipio) (fila : Tarea * list Entrega) : bool :=
  existsb (fun e => e_municipioId e =? m_id m) fila.2.

Definition asignadas (filas : list (Tarea * list Entrega)) (d : Division) : Z :=
  Z.of_nat (length (List.filter (de_division d) filas)).

Definition completadas (filas : list (Tarea * list Entrega)) (m : Municipio) (d : Division)
  : Z :=
  Z.of_nat (length (List.filter (entregada_por m) (List.filter (de_division d) filas))).

(** The divisions that own at least one task of the month. *)
Definition con_tareas (filas : list (Tarea * list Entrega)) (divs : list Division)
  : list Division :=
  List.filter (fun d => 0 <? asignadas filas d) divs.

(** What an entry of the breakdown says about its division. *)
Definition entrada_de (filas : list (Tarea * list Entrega)) (m : Municipio)
    (d : Division) (e : DivisionPerformanceData) : Prop :=
  divisionId e = d_id d /\
  divisionNombre e = d_nombre d /\
  tareasAsignadas e = asignadas filas d /\
  tareasCompletadas e = completadas filas m d /\
  porcentaje e
  = round2 (js_mul (js_quot (inject_Z (completadas filas m d))
                            (inject_Z (asignadas filas d))) 100).

End MonthlyBreakdown.

(** ** deliveryService *)

Module Delivery.

Record DeliveryCountResult : Type := {
  totalMunicipalities : Z;
  uniqueMunicipalityIds : list Z
}.

(** [where: { tareaId }] on the deliveries. *)
Definition de_tarea (s : Store) (tareaId : Z) : list Entrega :=
  filter (fun e => e_tareaId e = tareaId) (tabla_entregas s).

(** What [group: ['municipioId']] returns of the values it is given: each of
    them in one row.  SQL leaves the order of the groups to the database. *)
Definition agrupa (group_by : list Z -> list Z) : Prop :=
  forall ids, NoDup (group_by ids) /\ forall x, x ∈ group_by ids <-> x ∈ ids.

Section Service.

(** The grouping of the database. *)
Variable group_by : list Z -> list Z.

(** The queries of this service cannot fail on the tables of the model, so
    the [catch] branches, which log and throw again, are never taken. *)
Definition countUniqueMunicipalitiesForTask (s : Store) (tareaId : Z)
  : DeliveryCountResult :=
  let entregas := group_by (map e_municipioId (de_tarea s tareaId)) in
  let uniqueMunicipalityIds := map (fun e : Z => e) entregas in
  {| totalMunicipalities := Z.of_nat (length uniqueMunicipalityIds);
     uniqueMunicipalityIds := uniqueMunicipalityIds |}.

End Service.

(** Each delivery of the task with the unit its [municipioId] names, if
    there is one ([include] is a left join). *)
Definition getDeliveriesForTask (s : Store) (tareaId : Z)
  : list (Entrega * option Municipio) :=
  map (fun e => (e, Municipio_findByPk s (e_municipioId e))) (de_tarea s tareaId).

Definition getSortedDeliveriesForTask (s : Store) (tareaId : Z)
  : list (Entrega * option Municipio) :=
  order_by (fun a b => e_fechaHoraEntrega a.1 <=? e_fechaHoraEntrega b.1)
    (getDeliveriesForTask s tareaId).

End Delivery.

(** ** colorGenerator *)

Module ColorGenerator.

Definition CHART_COLORS : list string :=
  [ "#3B82F6"; "#10B981"; "#F59E0B"; "#EF4444"; "#8B5CF6";
    "#EC4899"; "#14B8A6"; "#F97316"; "#6366F1"; "#84CC16";
    "#06B6D4"; "#F43F5E"; "#A855F7"; "#22C55E"; "#FBBF24" ].

(** [CHART_COLORS[index % CHART_COLORS.length]] for an array index; the
    position is within the array, so the default is never returned. *)
Definition generateColor (index : nat) : string :=
  nth (index mod length CHART_COLORS) CHART_COLORS "".

End ColorGenerator.

(** ** evaluacionController: calcularDesempeno *)

Module EvaluacionController.
Import Ranking.

Record Desempeno : Type := {
  municipio : string;
  tareasCumplidas : Z;
  totalTareas : Z;
  totalEntregas : Z;
  porcentaje : Z
}.

(** [Tarea.findAll({ where: { divisionId, [Op.or]: [...] }, include:
    entregas })] *)
Definition Tarea_findAll (s : Store) (divisionId desde hasta : Z)
  : list (Tarea * list Entrega) :=
  map (fun t => (t, entregas_de_tarea s t))
      (filter (fun t => t_divisionId t = divisionId /\ date_clause desde hasta t)
              (tabla_tareas s)).

(** Body of [tareas.forEach]. *)
Definition paso_tarea (municipio : Municipio) (st : Z * Z) (tarea : Tarea * list Entrega)
  : Z * Z :=
  let '(tareasCumplidas, totalEntregas) := st in
  let entregas := tarea.2 in
  let entregasMunicipio :=
    List.filter (fun entrega => e_municipioId entrega =? m_id municipio) entregas in
  if 0 <? Z.of_nat (length entregasMunicipio)
  then (tareasCumplidas + 1, totalEntregas + Z.of_nat (length entregasMunicipio))
  else st.

(** Body of [municipios.map]. *)
Definition desempeno (tareas : list (Tarea * list Entrega)) (municipio : Municipio)
  : outcome Desempeno :=
  let totalTareas := Z.of_nat (length tareas) in
  let '(tareasCumplidas, totalEntregas) :=
    fold_left (paso_tarea municipio) tareas (0, 0) in
  porcentaje ←
    (if 0 <? totalTareas
     then r ← js_div (inject_Z tareasCumplidas) (inject_Z totalTareas);
          Ok (Math_round (js_mul r 100))
     else Ok 0);
  Ok {| municipio := m_nombre municipio;
        tareasCumplidas := tareasCumplidas;
        totalTareas := totalTareas;
        totalEntregas := totalEntregas;
        porcentaje := porcentaje |}.

(** The rows [desempenoPorMunicipio] that [calcularDesempeno] renders for
    the numbers parsed from the query, in the zone [tza]. *)
Definition desempenoPorMunicipio (tza : Z) (s : Store) (anioNum mesNum divisionId : Z)
  : outcome (list Desempeno) :=
  let fechaInicio := JsDate.Date_local tza anioNum (mesNum - 1) 1 0 0 0 0 in
  let fechaFin := JsDate.Date_local tza anioNum mesNum 0 23 59 59 0 in
  let tareas := Tarea_findAll s divisionId fechaInicio fechaFin in
  let municipios := Municipio_findAll_by_nombre s in
  desempenoPorMunicipio ← mapM (desempeno tareas) municipios;
  Ok (Array_sort (fun a b => js_sub (inject_Z (porcentaje b)) (inject_Z (porcentaje a)))
                 desempenoPorMunicipio).

(** The deliveries of a unit on a row. *)
Definition entregas_de (m : Municipio) (fila : Tarea * list Entrega) : list Entrega :=
  List.filter (fun e => e_municipioId e =? m_id m) fila.2.

(** The tasks of the rows the unit has delivered, and its deliveries on
    the rows. *)
Definition cumplidas (tareas : list (Tarea * list Entrega)) (m : Municipio) : Z :=
  Z.of_nat (length (List.filter (MonthlyBreakdown.entregada_por m) tareas)).

Definition entregas_contadas (tareas : list (Tarea * list Entrega)) (m : Municipio) : Z :=
  Z.of_nat (length (flat_map (entregas_de m) tareas)).

(** What a row of the page says about its unit. *)
Definition fila_de (tareas : list (Tarea * list Entrega)) (m : Municipio) (r : Desempeno)
  : Prop :=
  municipio r = m_nombre m /\
  totalTareas r = Z.of_nat (length tareas) /\
  tareasCumplidas r = cumplidas tareas m /\
  totalEntregas r = entregas_contadas tareas m /\
  porcentaje r
  = if 0 <? Z.of_nat (length tareas)
    then Math_round (js_mul (js_quot (inject_Z (cumplidas tareas m))
                                     (inject_Z (Z.of_nat (length tareas)))) 100)
    else 0.

(** The filters that [showEvaluacionAvanzada], [showEvaluacionMunicipio]
    and [showRanking] build from the query.  A parameter of the query is
    absent or empty, [None], or a numeral, given by its [parseInt]. *)
Definition construir_filtros (tza : Z) (mes anio divisionId : option Z)
  : option AdvancedEvaluation.Filtros :=
  let fechas :=
    match mes, anio with
    | Some mesNum, Some anioNum =>
        Some (JsDate.Date_local tza anioNum (mesNum - 1) 1 0 0 0 0,
              JsDate.Date_local tza anioNum mesNum 0 23 59 59 0)
    | _, _ => None
    end in
  match fechas, divisionId with
  | None, None => None
  | _, _ =>
      Some {| AdvancedEvaluation.f_fechaInicio := fst <$> fechas;
              AdvancedEvaluation.f_fechaFin := snd <$> fechas;
              AdvancedEvaluation.f_divisionId := divisionId |}
  end.

End EvaluacionController.

(** * Properties *)

(** ** Rounding to binary64 *)

Section DoubleFacts.
Import Double.
Local Open Scope Q_scope.

Lemma pow2_pos (e : Z) : 0 < pow2 e.
Proof. apply Qpower_0_lt. reflexivity. Qed.

Lemma pow2_plus (a b : Z) : pow2 (a + b) == pow2 a * pow2 b.
Proof. apply Qpower_plus. discriminate. Qed.

Lemma pow2_le (a b : Z) : (a <= b)%Z -> pow2 a <= pow2 b.
Proof. intros H. apply Qpower_le_compat_l; [exact H | discriminate]. Qed.

Lemma pow2_lt (a b : Z) : (a < b)%Z -> pow2 a < pow2 b.
Proof. intros H. apply Qpower_lt_compat_l; [exact H | reflexivity]. Qed.

Lemma pow2_lt_inv (a b : Z) : pow2 a < pow2 b -> (a < b)%Z.
Proof. intros H. apply (Qpower_lt_compat_l_inv (2 # 1)); [exact H | reflexivity]. Qed.

Lemma pow2_Z (e : Z) : (0 <= e)%Z -> pow2 e == inject_Z (2 ^ e).
Proof. intros H. unfold pow2. rewrite Zpower_Qpower by exact H. reflexivity. Qed.

Lemma pow2_succ (e : Z) : pow2 (e + 1) == 2 * pow2 e.
Proof. rewrite pow2_plus. change (pow2 1) with 2. ring. Qed.

Lemma pow2_minus (a b : Z) : pow2 (a - b) == pow2 a / pow2 b.
Proof.
  assert (H : pow2 a == pow2 (a - b) * pow2 b).
  { rewrite <- pow2_plus. replace (a - b + b)%Z with a by ring. reflexivity. }
  rewrite H. field. pose proof (pow2_pos b). lra.
Qed.

(** ** Rounding to an integer, ties to even *)

Lemma rne_cases (y : Q) :
  (rne y = Qfloor y /\ y - inject_Z (Qfloor y) <= 1 # 2) \/
  (rne y = (Qfloor y + 1)%Z /\ 1 # 2 <= y - inject_Z (Qfloor y)).
Proof.
  unfold rne. cbv zeta.
  destruct (y - inject_Z (Qfloor y) ?= 1 # 2) eqn:E.
  - apply Qeq_alt in E. destruct (Z.even (Qfloor y)); [left | right]; split;
      try reflexivity; rewrite E; apply Qle_refl.
  - apply Qlt_alt in E. left. split; [reflexivity | apply Qlt_le_weak; exact E].
  - apply Qgt_alt in E. right. split; [reflexivity | apply Qlt_le_weak; exact E].
Qed.

Lemma rne_error (y : Q) : y - (1 # 2) <= inject_Z (rne y) <= y + (1 # 2).
Proof.
  pose proof (Qfloor_le y) as H1. pose proof (Qlt_floor y) as H2.
  rewrite inject_Z_plus in H2. change (inject_Z 1%Z) with 1 in H2.
  destruct (rne_cases y) as [[-> H]|[-> H]].
  - lra.
  - rewrite inject_Z_plus. change (inject_Z 1%Z) with 1. lra.
Qed.

Lemma rne_comp (y y' : Q) : y == y' -> rne y = rne y'.
Proof.
  intros H. unfold rne. cbv zeta. rewrite (Qfloor_comp _ _ H).
  assert (E : y - inject_Z (Qfloor y') == y' - inject_Z (Qfloor y')) by (rewrite H; reflexivity).
  rewrite (Qcompare_comp _ _ E _ _ (Qeq_refl (1 # 2))). reflexivity.
Qed.

Lemma rne_Z (k : Z) : rne (inject_Z k) = k.
Proof.
  unfold rne. cbv zeta. rewrite Qfloor_Z.
  destruct (inject_Z k - inject_Z k ?= 1 # 2) eqn:C; [| reflexivity |].
  - apply Qeq_alt in C. exfalso. lra.
  - apply Qgt_alt in C. exfalso. lra.
Qed.

Lemma rne_le (y y' : Q) : y <= y' -> (rne y <= rne y')%Z.
Proof.
  intros H. pose proof (Qfloor_resp_le _ _ H) as Hf.
  destruct (Z.eq_dec (Qfloor y) (Qfloor y')) as [E|E].
  - unfold rne. cbv zeta. rewrite E.
    destruct (y - inject_Z (Qfloor y') ?= 1 # 2) eqn:C1;
      destruct (y' - inject_Z (Qfloor y') ?= 1 # 2) eqn:C2;
      try (destruct (Z.even (Qfloor y')));
      first [ lia
            | exfalso;
              first [apply Qeq_alt in C1 | apply Qlt_alt in C1 | apply Qgt_alt in C1];
              first [apply Qeq_alt in C2 | apply Qlt_alt in C2 | apply Qgt_alt in C2];
              lra ].
  - destruct (rne_cases y) as [[-> _]|[-> _]];
      destruct (rne_cases y') as [[-> _]|[-> _]]; lia.
Qed.

Lemma rne_bounds (a b : Z) (y : Q) :
  inject_Z a <= y <= inject_Z b -> (a <= rne y <= b)%Z.
Proof.
  intros [H1 H2]. rewrite <- (rne_Z a), <- (rne_Z b).
  split; apply rne_le; assumption.
Qed.

(** ** The exponent of the last place *)

Lemma cexp_spec (x : Q) : 0 < x -> pow2 (cexp x + 52) <= x < pow2 (cexp x + 53).
Proof.
  intros Hx. destruct x as [n d]. unfold cexp. cbn [Qnum Qden].
  assert (Hn : (0 < n)%Z) by (unfold Qlt in Hx; cbn in Hx; lia).
  set (a := Z.log2 n). set (b := Z.log2 (Z.pos d)).
  assert (Ha : (0 <= a)%Z) by apply Z.log2_nonneg.
  assert (Hb : (0 <= b)%Z) by apply Z.log2_nonneg.
  destruct (Z.log2_spec n Hn) as [Ha1 Ha2]. fold a in Ha1, Ha2.
  destruct (Z.log2_spec (Z.pos d) (Pos2Z.is_pos d)) as [Hb1 Hb2]. fold b in Hb1, Hb2.
  pose proof (pow2_pos a) as PA. pose proof (pow2_pos b) as PB.
  assert (A1 : pow2 a <= inject_Z n) by (rewrite pow2_Z by lia; rewrite <- Zle_Qle; exact Ha1).
  assert (A2 : inject_Z n < 2 * pow2 a).
  { rewrite <- pow2_succ, pow2_Z by lia. rewrite <- Zlt_Qlt.
    replace (a + 1)%Z with (Z.succ a) by lia. exact Ha2. }
  assert (B1 : pow2 b <= inject_Z (Z.pos d)) by (rewrite pow2_Z by lia; rewrite <- Zle_Qle; exact Hb1).
  assert (B2 : inject_Z (Z.pos d) < 2 * pow2 b).
  { rewrite <- pow2_succ, pow2_Z by lia. rewrite <- Zlt_Qlt.
    replace (b + 1)%Z with (Z.succ b) by lia. exact Hb2. }
  assert (EP : pow2 (a - b) * pow2 b == pow2 a).
  { rewrite <- pow2_plus. replace (a - b + b)%Z with a by ring. reflexivity. }
  assert (EX : (n # d) * inject_Z (Z.pos d) == inject_Z n).
  { rewrite (Qmake_Qdiv n d). field. intros H. rewrite H in B1. lra. }
  pose proof (pow2_pos (a - b)) as PP.
  set (x := n # d) in *. set (P := pow2 (a - b)) in *.
  set (A := pow2 a) in *. set (B := pow2 b) in *.
  set (N := inject_Z n) in *. set (D := inject_Z (Z.pos d)) in *.
  destruct (Qle_bool P x) eqn:C.
  - apply Qle_bool_iff in C.
    replace (a - b - 52 + 52)%Z with (a - b)%Z by ring.
    replace (a - b - 52 + 53)%Z with (a - b + 1)%Z by ring.
    rewrite pow2_succ. fold P. split; [exact C|]. nra.
  - assert (C' : x < P).
    { apply Qnot_le_lt. intros H. apply Qle_bool_iff in H. congruence. }
    replace (a - b - 53 + 53)%Z with (a - b)%Z by ring.
    replace (a - b - 53 + 52)%Z with (a - b - 1)%Z by ring.
    fold P. split; [|exact C'].
    assert (E1 : pow2 (a - b - 1) * 2 == P).
    { unfold P. replace (a - b)%Z with (a - b - 1 + 1)%Z at 2 by ring.
      rewrite pow2_succ. ring. }
    nra.
Qed.

Lemma cexp_unique (x : Q) (e : Z) :
  pow2 (e + 52) <= x < pow2 (e + 53) -> cexp x = e.
Proof.
  intros [H1 H2].
  assert (Hx : 0 < x) by (pose proof (pow2_pos (e + 52)); lra).
  destruct (cexp_spec x Hx) as [C1 C2].
  assert (L1 : pow2 (e + 52) < pow2 (cexp x + 53)) by lra.
  assert (L2 : pow2 (cexp x + 52) < pow2 (e + 53)) by lra.
  apply pow2_lt_inv in L1, L2. lia.
Qed.

Lemma cexp_comp (x y : Q) : 0 < x -> x == y -> cexp x = cexp y.
Proof.
  intros Hx E. symmetry. apply cexp_unique. rewrite <- E. apply cexp_spec. exact Hx.
Qed.

Lemma cexp_le (x y : Q) : 0 < x -> x <= y -> (cexp x <= cexp y)%Z.
Proof.
  intros Hx H. destruct (cexp_spec x Hx) as [X1 X2].
  destruct (cexp_spec y) as [Y1 Y2]; [lra|].
  assert (L : pow2 (cexp x + 52) < pow2 (cexp y + 53)) by lra.
  apply pow2_lt_inv in L. lia.
Qed.

(** ** Rounding to binary64 *)

Lemma scaled_bounds (x : Q) :
  0 < x -> pow2 52 <= x / pow2 (cexp x) < pow2 53.
Proof.
  intros Hx. destruct (cexp_spec x Hx) as [H1 H2].
  rewrite pow2_plus in H1, H2. pose proof (pow2_pos (cexp x)) as P.
  split.
  - apply Qle_shift_div_l; [exact P|]. lra.
  - apply Qlt_shift_div_r; [exact P|]. lra.
Qed.

Lemma mantissa_bounds (x : Q) :
  0 < x -> (2 ^ 52 <= rne (x / pow2 (cexp x)) <= 2 ^ 53)%Z.
Proof.
  intros Hx. destruct (scaled_bounds x Hx) as [H1 H2].
  apply rne_bounds. rewrite <- !pow2_Z by lia. split; lra.
Qed.

Lemma flp_pos (x : Q) : 0 < x -> 0 < flp x.
Proof.
  intros Hx. unfold flp. pose proof (mantissa_bounds x Hx) as [H _].
  pose proof (pow2_pos (cexp x)).
  assert (0 < inject_Z (rne (x / pow2 (cexp x)))).
  { change 0 with (inject_Z 0%Z). rewrite <- Zlt_Qlt. lia. }
  nra.
Qed.

Lemma flp_comp (x y : Q) : 0 < x -> x == y -> flp x = flp y.
Proof.
  intros Hx E. unfold flp. rewrite <- (cexp_comp x y Hx E).
  rewrite (rne_comp (x / pow2 (cexp x)) (y / pow2 (cexp x))); [reflexivity|].
  unfold Qdiv. apply Qmult_comp; [exact E | reflexivity].
Qed.

Lemma flp_le (x y : Q) : 0 < x -> x <= y -> flp x <= flp y.
Proof.
  intros Hx H. assert (Hy : 0 < y) by lra.
  pose proof (cexp_le x y Hx H) as HE.
  pose proof (pow2_pos (cexp x)) as Px. pose proof (pow2_pos (cexp y)) as Py.
  unfold flp. destruct (Z.eq_dec (cexp x) (cexp y)) as [E|E].
  - rewrite <- E. apply Qmult_le_compat_r; [|lra].
    rewrite <- Zle_Qle. apply rne_le.
    apply Qmult_le_compat_r; [exact H|]. apply Qlt_le_weak, Qinv_lt_0_compat, Px.
  - pose proof (mantissa_bounds x Hx) as [_ Mx].
    pose proof (mantissa_bounds y Hy) as [My _].
    rewrite Zle_Qle in Mx, My. rewrite <- !pow2_Z in Mx, My by lia.
    assert (L : pow2 (cexp x + 53) <= pow2 (cexp y + 52)) by (apply pow2_le; lia).
    rewrite !pow2_plus in L.
    set (mx := inject_Z (rne (x / pow2 (cexp x)))) in *.
    set (my := inject_Z (rne (y / pow2 (cexp y)))) in *.
    apply Qle_trans with (pow2 (cexp x) * pow2 53); [nra|].
    apply Qle_trans with (pow2 (cexp y) * pow2 52); [exact L|]. nra.
Qed.

Lemma flp_error (x : Q) :
  0 < x -> x * (1 - pow2 (-53)) <= flp x <= x * (1 + pow2 (-53)).
Proof.
  intros Hx. unfold flp. pose proof (pow2_pos (cexp x)) as P.
  pose proof (rne_error (x / pow2 (cexp x))) as [R1 R2].
  destruct (scaled_bounds x Hx) as [S1 _].
  assert (Ex : x / pow2 (cexp x) * pow2 (cexp x) == x) by (field; lra).
  set (y := x / pow2 (cexp x)) in *. set (m := inject_Z (rne y)) in *.
  set (p := pow2 (cexp x)) in *.
  assert (U : pow2 (-53) * pow2 52 == 1 # 2) by reflexivity.
  set (u := pow2 (-53)) in *. set (t := pow2 52) in *.
  assert (Hu : 0 < u) by apply pow2_pos.
  assert (Hyu : (1 # 2) <= y * u) by nra.
  split; rewrite <- Ex; nra.
Qed.

Lemma fl_pos (x : Q) : 0 < x -> fl x = flp x.
Proof.
  intros H. unfold fl. destruct (x ?= 0) eqn:C; [| |reflexivity].
  - apply Qeq_alt in C. exfalso. lra.
  - apply Qlt_alt in C. exfalso. lra.
Qed.

Lemma fl_neg (x : Q) : x < 0 -> fl x = - flp (- x).
Proof.
  intros H. unfold fl. destruct (x ?= 0) eqn:C; [|reflexivity|].
  - apply Qeq_alt in C. exfalso. lra.
  - apply Qgt_alt in C. exfalso. lra.
Qed.

Lemma fl_zero (x : Q) : x == 0 -> fl x = x.
Proof.
  intros H. unfold fl. destruct (x ?= 0) eqn:C; [reflexivity| |].
  - apply Qlt_alt in C. exfalso. lra.
  - apply Qgt_alt in C. exfalso. lra.
Qed.

Lemma fl_comp (x y : Q) : x == y -> fl x == fl y.
Proof.
  intros E. destruct (Q_dec x 0) as [[H|H]|H].
  - rewrite (fl_neg x H), (fl_neg y) by lra.
    rewrite (flp_comp (- x) (- y)); [reflexivity | lra | rewrite E; reflexivity].
  - rewrite (fl_pos x H), (fl_pos y) by lra.
    rewrite (flp_comp x y H E). reflexivity.
  - rewrite (fl_zero x H), (fl_zero y) by lra. exact E.
Qed.

#[global] Instance fl_Proper : Proper (Qeq ==> Qeq) fl.
Proof. intros x y E. apply fl_comp, E. Qed.

Lemma fl_opp (x : Q) : fl (- x) == - fl x.
Proof.
  destruct (Q_dec x 0) as [[H|H]|H].
  - rewrite (fl_neg x H), (fl_pos (- x)) by lra. ring.
  - rewrite (fl_pos x H), (fl_neg (- x)) by lra.
    rewrite (flp_comp (- - x) x); [reflexivity | lra | ring].
  - rewrite (fl_zero x H), (fl_zero (- x)) by lra. reflexivity.
Qed.

Lemma fl_le (x y : Q) : x <= y -> fl x <= fl y.
Proof.
  intros H.
  destruct (Q_dec x 0) as [[Hx|Hx]|Hx]; destruct (Q_dec y 0) as [[Hy|Hy]|Hy];
    try (exfalso; lra).
  - rewrite (fl_neg x Hx), (fl_neg y Hy).
    assert (flp (- y) <= flp (- x)) by (apply flp_le; lra). lra.
  - rewrite (fl_neg x Hx), (fl_pos y Hy).
    pose proof (flp_pos (- x)). pose proof (flp_pos y Hy). lra.
  - rewrite (fl_neg x Hx), (fl_zero y Hy). pose proof (flp_pos (- x)). lra.
  - rewrite (fl_pos x Hx), (fl_pos y Hy). apply flp_le; assumption.
  - rewrite (fl_zero x Hx), (fl_pos y Hy). pose proof (flp_pos y Hy). lra.
  - rewrite (fl_zero x Hx), (fl_zero y Hy). exact H.
Qed.

Lemma fl_error (x : Q) :
  0 <= x -> x * (1 - pow2 (-53)) <= fl x <= x * (1 + pow2 (-53)).
Proof.
  intros H. destruct (Qle_lt_or_eq _ _ H) as [Hx|Hx].
  - rewrite (fl_pos x Hx). apply flp_error, Hx.
  - rewrite (fl_zero x) by (symmetry; exact Hx). rewrite <- Hx. split; lra.
Qed.

Lemma fl_Z (k : Z) : (0 <= k < 2 ^ 53)%Z -> fl (inject_Z k) == inject_Z k.
Proof.
  intros [H0 H1]. destruct (Z.eq_dec k 0%Z) as [->|Hk]; [reflexivity|].
  assert (Hx : 0 < inject_Z k) by (change 0 with (inject_Z 0%Z); rewrite <- Zlt_Qlt; lia).
  rewrite (fl_pos _ Hx). unfold flp.
  destruct (cexp_spec _ Hx) as [C1 _].
  assert (HE : (cexp (inject_Z k) <= 0)%Z).
  { assert (L : pow2 (cexp (inject_Z k) + 52) < pow2 53).
    { eapply Qle_lt_trans; [exact C1|]. rewrite pow2_Z by lia. rewrite <- Zlt_Qlt. exact H1. }
    apply pow2_lt_inv in L. lia. }
  set (e := cexp (inject_Z k)) in *.
  assert (Ey : inject_Z k / pow2 e == inject_Z (k * 2 ^ (- e))).
  { rewrite inject_Z_mult, <- pow2_Z by lia.
    replace (- e)%Z with (0 - e)%Z by ring. rewrite pow2_minus.
    change (pow2 0) with 1. field. pose proof (pow2_pos e). lra. }
  rewrite (rne_comp _ _ Ey), rne_Z, <- Ey. field. pose proof (pow2_pos e). lra.
Qed.


End DoubleFacts.

(** ** The operations of the services *)

Section JsArithmetic.
Import Double.
Local Open Scope Q_scope.

Lemma u_pow2 : pow2 (-53) == u.
Proof. reflexivity. Qed.

Lemma fl_error_u (x : Q) : 0 <= x -> x * (1 - u) <= fl x <= x * (1 + u).
Proof. intros H. rewrite <- u_pow2. apply fl_error, H. Qed.

(** The absolute error on a number between 0 and [M]. *)
Lemma fl_near (M x : Q) : 0 <= x <= M -> x - M * u <= fl x <= x + M * u.
Proof.
  intros [H0 H1]. pose proof (fl_error_u x H0) as [E1 E2].
  assert (0 < u) by reflexivity. split; nra.
Qed.

Lemma fl_le_0 (x : Q) : fl x <= 0 <-> x <= 0.
Proof.
  split; intros H.
  - apply Qnot_lt_le. intros Hx. rewrite (fl_pos x Hx) in H.
    pose proof (flp_pos x Hx). lra.
  - apply (fl_le x 0) in H. exact H.
Qed.

Lemma fl_bounds (a b : Z) (x : Q) :
  (0 <= a)%Z -> (b < 2 ^ 53)%Z -> inject_Z a <= x <= inject_Z b ->
  inject_Z a <= fl x <= inject_Z b.
Proof.
  intros Ha Hb [H1 H2].
  assert (Hab : (a <= b)%Z) by (rewrite Zle_Qle; lra).
  rewrite <- (fl_Z a), <- (fl_Z b) by lia. split; apply fl_le; assumption.
Qed.

Lemma Math_round_le (x y : Q) : x <= y -> (Math_round x <= Math_round y)%Z.
Proof. intros H. unfold Math_round. apply Qfloor_resp_le. lra. Qed.

Lemma Math_round_comp (x y : Q) : x == y -> Math_round x = Math_round y.
Proof. intros H. unfold Math_round. apply Qfloor_comp. rewrite H. reflexivity. Qed.

Lemma Math_round_Z (k : Z) : Math_round (inject_Z k) = k.
Proof.
  unfold Math_round.
  assert (L : (k <= Qfloor (inject_Z k + (1 # 2)))%Z).
  { rewrite <- (Qfloor_Z k) at 1. apply Qfloor_resp_le. lra. }
  assert (U : (Qfloor (inject_Z k + (1 # 2)) < k + 1)%Z).
  { rewrite Zlt_Qlt. eapply Qle_lt_trans; [apply Qfloor_le|].
    rewrite inject_Z_plus. change (inject_Z 1%Z) with 1. lra. }
  lia.
Qed.

Lemma Math_round_spec (x : Q) :
  x - (1 # 2) < inject_Z (Math_round x) <= x + (1 # 2).
Proof.
  unfold Math_round. pose proof (Qfloor_le (x + (1 # 2))) as H1.
  pose proof (Qlt_floor (x + (1 # 2))) as H2.
  rewrite inject_Z_plus in H2. change (inject_Z 1%Z) with 1 in H2. split; lra.
Qed.

Lemma Math_round_bounds (a b : Z) (x : Q) :
  inject_Z a <= x <= inject_Z b -> (a <= Math_round x <= b)%Z.
Proof.
  intros [H1 H2]. rewrite <- (Math_round_Z a), <- (Math_round_Z b).
  split; apply Math_round_le; assumption.
Qed.

(** [Math.round] of a number close to an integer is that integer. *)
Lemma Math_round_unique (k : Z) (x : Q) :
  inject_Z k - (1 # 2) <= x < inject_Z k + (1 # 2) -> Math_round x = k.
Proof.
  intros [H1 H2]. pose proof (Math_round_spec x) as [S1 S2].
  assert (L : (k - 1 < Math_round x)%Z).
  { rewrite Zlt_Qlt. unfold Z.sub. rewrite inject_Z_plus, inject_Z_opp.
    change (inject_Z 1%Z) with 1. lra. }
  assert (U : (Math_round x < k + 1)%Z).
  { rewrite Zlt_Qlt, inject_Z_plus. change (inject_Z 1%Z) with 1. lra. }
  lia.
Qed.

(** [Math.round] of a computed product lies between the roundings of the
    exact product moved down and up by the error of the computation. *)
Lemma Math_round_near (t X b : Q) :
  X - t <= b <= X + t ->
  (Math_round (X - t) <= Math_round b <= Math_round (X + t))%Z.
Proof. intros [H1 H2]. split; apply Math_round_le; assumption. Qed.

Lemma js_quot_comp (a a' b b' : Q) : a == a' -> b == b' -> js_quot a b == js_quot a' b'.
Proof. intros Ha Hb. unfold js_quot. apply fl_comp. rewrite Ha, Hb. reflexivity. Qed.

Lemma js_mul_comp (a a' b b' : Q) : a == a' -> b == b' -> js_mul a b == js_mul a' b'.
Proof. intros Ha Hb. unfold js_mul. apply fl_comp. rewrite Ha, Hb. reflexivity. Qed.

Lemma js_add_comp (a a' b b' : Q) : a == a' -> b == b' -> js_add a b == js_add a' b'.
Proof. intros Ha Hb. unfold js_add. apply fl_comp. rewrite Ha, Hb. reflexivity. Qed.

(** A quotient of a part by the whole is between 0 and 1. *)
Lemma js_quot_unit (a b : Q) : 0 <= a <= b -> 0 < b -> 0 <= js_quot a b <= 1.
Proof.
  intros [H0 H1] Hb. unfold js_quot.
  change 0 with (inject_Z 0%Z). change 1 with (inject_Z 1%Z).
  apply fl_bounds; [lia | reflexivity |].
  change (inject_Z 0%Z) with 0. change (inject_Z 1%Z) with 1. split.
  - apply Qle_shift_div_l; [exact Hb | lra].
  - apply Qle_shift_div_r; [exact Hb | lra].
Qed.

Lemma js_mul_bounds (m : Z) (x : Q) :
  (0 <= m < 2 ^ 53)%Z -> 0 <= x <= 1 -> 0 <= js_mul x (inject_Z m) <= inject_Z m.
Proof.
  intros Hm [H0 H1]. unfold js_mul. change 0 with (inject_Z 0%Z) at 1.
  apply fl_bounds; [lia | lia |]. change (inject_Z 0%Z) with 0.
  assert (0 <= inject_Z m) by (change 0 with (inject_Z 0%Z); rewrite <- Zle_Qle; lia).
  split; nra.
Qed.

(** A percentage on its way into the rounding idiom. *)
Lemma js_mul_bounds_100 (p : Q) :
  0 <= p <= 100 -> inject_Z 0 <= js_mul p 100 <= inject_Z 10000.
Proof.
  intros [H0 H1]. unfold js_mul. apply fl_bounds; [lia | reflexivity |].
  change (inject_Z 0%Z) with 0. change (inject_Z 10000%Z) with 10000. split; lra.
Qed.

(** *** Hundredths *)


Lemma centesimas_near (k : Z) :
  (0 <= k)%Z ->
  inject_Z k / 100 * (1 - u) <= centesimas k <= inject_Z k / 100 * (1 + u).
Proof.
  intros H. unfold centesimas, js_quot. apply fl_error_u.
  apply Qle_shift_div_l; [reflexivity|].
  change 0 with (inject_Z 0%Z) at 1. rewrite Qmult_0_l.
  change 0 with (inject_Z 0%Z). rewrite <- Zle_Qle. exact H.
Qed.

Lemma centesimas_lt (a b : Z) :
  (0 <= a < b)%Z -> (b <= 2 ^ 50)%Z -> centesimas a < centesimas b.
Proof.
  intros [H0 H1] Hb.
  pose proof (centesimas_near a H0) as [_ A]. pose proof (centesimas_near b) as [B _]; [lia|].
  assert (Ha : 0 <= inject_Z a) by (change 0 with (inject_Z 0%Z); rewrite <- Zle_Qle; lia).
  assert (Hab : inject_Z a + 1 <= inject_Z b).
  { change 1 with (inject_Z 1%Z). rewrite <- inject_Z_plus, <- Zle_Qle. lia. }
  assert (Hb' : inject_Z b <= inject_Z (2 ^ 50)) by (rewrite <- Zle_Qle; exact Hb).
  change (inject_Z (2 ^ 50)) with (1125899906842624 # 1) in Hb'.
  unfold u in *. set (A' := inject_Z a) in *. set (B' := inject_Z b) in *.
  unfold Qdiv in A, B. change (/ 100) with (1 # 100) in A, B. lra.
Qed.

Lemma centesimas_bounds (k : Z) :
  (0 <= k <= 10000)%Z -> 0 <= centesimas k <= 100.
Proof.
  intros [H0 H1]. unfold centesimas, js_quot.
  change 0 with (inject_Z 0%Z) at 1. change 100 with (inject_Z 100%Z) at 2.
  apply fl_bounds; [lia | reflexivity |].
  change (inject_Z 0%Z) with 0. change (inject_Z 100%Z) with 100. split.
  - apply Qle_shift_div_l; [reflexivity|]. rewrite Qmult_0_l.
    change 0 with (inject_Z 0%Z). rewrite <- Zle_Qle. exact H0.
  - apply Qle_shift_div_r; [reflexivity|].
    change (100 * 100) with (inject_Z 10000%Z). rewrite <- Zle_Qle. exact H1.
Qed.


(** *** The rounding idiom *)


Lemma round2_comp (x y : Q) : x == y -> round2 x = round2 y.
Proof.
  intros H. unfold round2. f_equal. apply Math_round_comp, js_mul_comp; [exact H | reflexivity].
Qed.

Lemma round2_zero (x : Q) : x == 0 -> round2 x == 0.
Proof. intros H. rewrite (round2_comp x 0 H). reflexivity. Qed.




End JsArithmetic.

Section Tolerance.
Import Double.
Local Open Scope Q_scope.

Lemma Math_round_succ (x : Q) : Math_round (x + 1) = (Math_round x + 1)%Z.
Proof.
  apply Math_round_unique. pose proof (Math_round_spec x) as [S1 S2].
  rewrite inject_Z_plus. change (inject_Z 1%Z) with 1. split; lra.
Qed.

Lemma Math_round_pred (x : Q) : Math_round (x - 1) = (Math_round x - 1)%Z.
Proof.
  pose proof (Math_round_succ (x - 1)) as H.
  rewrite (Math_round_comp (x - 1 + 1) x) in H by ring. lia.
Qed.

(** The rounding of a product that is off by less than [tolerancia] is the
    half-up rounding of the exact product or one of its two neighbours. *)
Lemma Math_round_cerca (X : Q) (k : Z) :
  (Math_round (X - tolerancia) <= k <= Math_round (X + tolerancia))%Z ->
  (Math_round X - 1 <= k <= Math_round X + 1)%Z.
Proof.
  intros [H1 H2].
  assert (L : (Math_round (X - 1) <= Math_round (X - tolerancia))%Z)
    by (apply Math_round_le; unfold tolerancia; lra).
  assert (U : (Math_round (X + tolerancia) <= Math_round (X + 1))%Z)
    by (apply Math_round_le; unfold tolerancia; lra).
  rewrite Math_round_pred in L. rewrite Math_round_succ in U. lia.
Qed.

(** The quotient of a part by the whole. *)
Lemma js_quot_near (a b : Q) :
  0 <= a <= b -> 0 < b ->
  a / b - u <= js_quot a b <= a / b + u /\ 0 <= js_quot a b <= 1.
Proof.
  intros Hab Hb. split; [|apply js_quot_unit; assumption].
  unfold js_quot.
  assert (H : 0 <= a / b <= 1).
  { destruct Hab. split; [apply Qle_shift_div_l | apply Qle_shift_div_r]; lra. }
  pose proof (fl_near 1 _ H). lra.
Qed.

Lemma js_mul_near (m : Z) (B x : Q) :
  (0 <= m)%Z -> 0 <= x <= B ->
  x * inject_Z m - B * inject_Z m * u <= js_mul x (inject_Z m)
  <= x * inject_Z m + B * inject_Z m * u.
Proof.
  intros Hm [H0 H1]. unfold js_mul.
  assert (HM : 0 <= inject_Z m) by (change 0 with (inject_Z 0%Z); rewrite <- Zle_Qle; lia).
  assert (H : 0 <= x * inject_Z m <= B * inject_Z m) by (split; nra).
  pose proof (fl_near _ _ H). lra.
Qed.


(** A ratio as a percentage: [(c / t) * 100]. *)
Lemma porcentaje_near (c t : Z) :
  (0 <= c <= t)%Z -> (0 < t)%Z ->
  (inject_Z c / inject_Z t * 100 - 200 * u
   <= js_mul (js_quot (inject_Z c) (inject_Z t)) 100
   <= inject_Z c / inject_Z t * 100 + 200 * u) /\
  0 <= js_mul (js_quot (inject_Z c) (inject_Z t)) 100 <= 100.
Proof.
  intros Hc Ht.
  assert (Hab : 0 <= inject_Z c <= inject_Z t).
  { change 0 with (inject_Z 0%Z). rewrite <- !Zle_Qle. exact Hc. }
  assert (Hb : 0 < inject_Z t) by (change 0 with (inject_Z 0%Z); rewrite <- Zlt_Qlt; exact Ht).
  destruct (js_quot_near _ _ Hab Hb) as [[Q1 Q2] R].
  pose proof (js_mul_near 100 1 _ ltac:(lia) R) as [M1 M2].
  pose proof (js_mul_bounds 100 _ ltac:(lia) R) as B.
  change (inject_Z 100%Z) with 100 in M1, M2, B. split; [|exact B].
  set (q := inject_Z c / inject_Z t) in *.
  set (r := js_quot (inject_Z c) (inject_Z t)) in *.
  set (b := js_mul r 100) in *. unfold u, tolerancia in *. split; lra.
Qed.


(** What [cerca_de_decimal2] gives: at most one hundredth away from the
    half-up rounding, and equal to it unless the exact value is within
    [tolerancia] of a tie. *)
Lemma cerca_de_decimal2_spec (x q : Q) :
  cerca_de_decimal2 x q ->
  exists k : Z,
    q = centesimas k /\
    (Math_round (x * 100) - 1 <= k <= Math_round (x * 100) + 1)%Z /\
    (Math_round (x * 100 - tolerancia) = Math_round (x * 100 + tolerancia) ->
     k = Math_round (x * 100)).
Proof.
  intros (k & Hq & Hk). exists k. split; [exact Hq|].
  split; [apply Math_round_cerca; exact Hk|].
  intros Heq. rewrite <- Heq in Hk.
  assert (Hmid : (Math_round (x * 100 - tolerancia) <= Math_round (x * 100)
                  <= Math_round (x * 100 + tolerancia))%Z).
  { split; apply Math_round_le; unfold tolerancia; lra. }
  lia.
Qed.


End Tolerance.

(** ** Guarded divisions *)

Lemma js_div_ok (a b : Q) : ~ (b == 0)%Q -> js_div a b = Ok (js_quot a b).
Proof.
  intros Hb. unfold js_div.
  destruct (Qeq_bool b 0) eqn:E; [|reflexivity].
  apply Qeq_bool_iff in E. contradiction.
Qed.

Lemma js_div_Z_ok (a : Q) (n : Z) : n <> 0 -> js_div a (inject_Z n) = Ok (js_quot a (inject_Z n)).
Proof.
  intros Hn. apply js_div_ok. unfold Qeq. simpl. lia.
Qed.

(** ** Punctuality of one delivery *)

Section Punctuality.
Import AdvancedEvaluation.

Lemma calcularPuntualidad_between (fechaEntrega fechaInicio fechaLimite : Z) :
  fechaInicio < fechaEntrega -> fechaEntrega < fechaLimite ->
  calcularPuntualidad fechaEntrega fechaInicio fechaLimite
  = Ok (round2 (js_sub 100 (js_mul (js_quot (inject_Z (fechaEntrega - fechaInicio))
                                            (inject_Z (fechaLimite - fechaInicio))) 100))).
Proof.
  intros H1 H2. unfold calcularPuntualidad.
  destruct (Z.leb_spec (fechaEntrega - fechaInicio) 0); [lia|].
  destruct (Z.geb_spec (fechaEntrega - fechaInicio) (fechaLimite - fechaInicio)); [lia|].
  rewrite js_div_Z_ok by lia. reflexivity.
Qed.

(** The percentage [100 - (e / w) * 100] between start and deadline, and
    the product [porcentaje * 100] that [Math.round] receives. *)
Lemma porcentaje_puntual_near (e w : Z) :
  0 < e -> e < w ->
  let porcentaje := js_sub 100 (js_mul (js_quot (inject_Z e) (inject_Z w)) 100) in
  (0 <= porcentaje <= 100)%Q /\
  ((100 - inject_Z e / inject_Z w * 100) * 100 - tolerancia
   <= js_mul porcentaje 100
   <= (100 - inject_Z e / inject_Z w * 100) * 100 + tolerancia)%Q.
Proof.
  intros He Hw. cbv zeta.
  destruct (porcentaje_near e w ltac:(lia) ltac:(lia)) as [[A1 A2] [A3 A4]].
  set (a := js_mul (js_quot (inject_Z e) (inject_Z w)) 100) in *.
  assert (Hp : (0 <= 100 - a <= 100)%Q) by (split; lra).
  pose proof (fl_near 100 _ Hp) as [P1 P2]. fold (js_sub 100 a) in P1, P2.
  assert (Bp : (0 <= js_sub 100 a <= 100)%Q).
  { unfold js_sub. change 0%Q with (inject_Z 0). change 100%Q with (inject_Z 100) at 3.
    apply fl_bounds; [lia | reflexivity |].
    change (inject_Z 0) with 0%Q. change (inject_Z 100) with 100%Q. exact Hp. }
  split; [exact Bp|].
  pose proof (js_mul_near 100 100 _ ltac:(lia) Bp) as [M1 M2].
  change (inject_Z 100) with 100%Q in M1, M2.
  set (q := (inject_Z e / inject_Z w)%Q) in *. set (p := js_sub 100 a) in *.
  set (b := js_mul p 100) in *. unfold Double.u, tolerancia in *. split; lra.
Qed.


(** C2 (as stated, refuted). 651060 ms into a task of one hour the exact
    percentage is 81.915, which rounds half up to 81.92, and the function
    returns 81.91: the product that [Math.round] receives is
    8191.4999999999991.  Likewise 83 ms into a task of 160 ms the exact
    percentage is 48.125 and the function returns 48.12. *)
Lemma calcularPuntualidad_not_half_up :
  calcularPuntualidad 651060 0 3600000 = Ok (centesimas 8191) /\
  (100 - inject_Z 651060 / inject_Z 3600000 * 100 == 81.915)%Q /\
  (decimal2 (100 - inject_Z 651060 / inject_Z 3600000 * 100) == 81.92)%Q /\
  (js_mul (js_sub 100 (js_mul (js_quot 651060 3600000) 100)) 100 < 8191.5)%Q /\
  calcularPuntualidad 83 0 160 = Ok (centesimas 4812) /\
  (decimal2 (100 - inject_Z 83 / inject_Z 160 * 100) == 48.13)%Q /\
  (centesimas 8191 < centesimas 8192)%Q /\
  ~ (forall e i l,
       0 < e - i -> e - i < l - i ->
       exists q, calcularPuntualidad e i l = Ok q /\
                 (q == round2 (100 - inject_Z (e - i) / inject_Z (l - i) * 100))%Q).
Proof.
  assert (E1 : calcularPuntualidad 651060 0 3600000 = Ok (centesimas 8191))
    by (vm_compute; reflexivity).
  assert (L : (centesimas 8191 < centesimas 8192)%Q) by (apply centesimas_lt; lia).
  split; [exact E1|].
  split; [apply Qeq_bool_eq; vm_compute; reflexivity|].
  split; [apply Qeq_bool_eq; vm_compute; reflexivity|].
  split; [vm_compute; reflexivity|].
  split; [vm_compute; reflexivity|].
  split; [apply Qeq_bool_eq; vm_compute; reflexivity|].
  split; [exact L|].
  intros H. destruct (H 651060 0 3600000 ltac:(lia) ltac:(lia)) as (q & Hq & E).
  rewrite E1 in Hq. injection Hq as <-.
  assert (E2 : round2 (100 - inject_Z (651060 - 0) / inject_Z (3600000 - 0) * 100)
               = centesimas 8192) by (vm_compute; reflexivity).
  rewrite E2 in E. rewrite E in L. revert L. apply Qlt_irrefl.
Qed.



Lemma calcularPuntualidad_returns (fechaEntrega fechaInicio fechaLimite : Z) :
  exists q, calcularPuntualidad fechaEntrega fechaInicio fechaLimite = Ok q.
Proof.
  unfold calcularPuntualidad.
  destruct (Z.leb_spec (fechaEntrega - fechaInicio) 0); [eauto|].
  destruct (Z.geb_spec (fechaEntrega - fechaInicio) (fechaLimite - fechaInicio)); [eauto|].
  rewrite js_div_Z_ok by lia. simpl. eauto.
Qed.

(** C10. No division by zero: the function returns a finite number on every
    input, and for an empty window (deadline = start) the score is 100 for a
    delivery at or before the start and 0 for every later one, both decided
    before the division is reached. *)
Theorem calcularPuntualidad_total (fechaEntrega fechaInicio fechaLimite : Z) :
  (exists q, calcularPuntualidad fechaEntrega fechaInicio fechaLimite = Ok q) /\
  calcularPuntualidad fechaEntrega fechaInicio fechaLimite <> NotFinite /\
  (fechaLimite = fechaInicio ->
     calcularPuntualidad fechaEntrega fechaInicio fechaLimite
     = Ok (if fechaEntrega <=? fechaInicio then 100 else 0)%Q).
Proof.
  split; [|split].
  - apply calcularPuntualidad_returns.
  - destruct (calcularPuntualidad_returns fechaEntrega fechaInicio fechaLimite) as [q ->].
    discriminate.
  - intros ->. unfold calcularPuntualidad.
    rewrite Z.sub_diag.
    destruct (Z.leb_spec (fechaEntrega - fechaInicio) 0);
      destruct (Z.leb_spec fechaEntrega fechaInicio); try lia; try reflexivity.
    destruct (Z.geb_spec (fechaEntrega - fechaInicio) 0); [reflexivity | lia].
Qed.

Lemma calcularPuntualidad_total_witness :
  (exists q, calcularPuntualidad 1500 1000 2000 = Ok q) /\
  calcularPuntualidad 5 7 7 = Ok 100%Q /\
  calcularPuntualidad 9 7 7 = Ok 0%Q.
Proof.
  split; [|split].
  - apply (proj1 (calcularPuntualidad_total 1500 1000 2000)).
  - apply (proj2 (proj2 (calcularPuntualidad_total 5 7 7))). reflexivity.
  - apply (proj2 (proj2 (calcularPuntualidad_total 9 7 7))). reflexivity.
Defined.




End Punctuality.

(** ** The loops of the evaluation *)

Section EvaluationLoops.
Import AdvancedEvaluation EvaluationTotals.

Lemma calcularPuntualidad_puntaje (tarea : Tarea) (entrega : Entrega) :
  calcularPuntualidad (e_fechaHoraEntrega entrega)
    (t_fechaInicio tarea) (t_fechaCulminacion tarea) = Ok (puntaje tarea entrega).
Proof.
  unfold puntaje.
  destruct (calcularPuntualidad_returns (e_fechaHoraEntrega entrega)
              (t_fechaInicio tarea) (t_fechaCulminacion tarea)) as [q ->].
  reflexivity.
Qed.

Lemma paso_entrega_ok (tarea : Tarea) (c : Totales) (l : PorTarea) (e : Entrega) :
  exists c' l',
    paso_entrega tarea (c, l) e = Ok (c', l') /\
    c_tareasCompletadas c' = c_tareasCompletadas c /\
    c_totalEntregas c' = c_totalEntregas c /\
    c_sumaPuntualidad c' = js_add (c_sumaPuntualidad c) (puntaje tarea e) /\
    c_sumaCalidad c'
    = suma_desde (c_sumaCalidad c) (map inject_Z (option_list (e_calificacion e))) /\
    c_entregasCalificadas c'
    = c_entregasCalificadas c + Z.of_nat (length (option_list (e_calificacion e))) /\
    calificacionesCount l'
    = calificacionesCount l + Z.of_nat (length (option_list (e_calificacion e))).
Proof.
  unfold paso_entrega. rewrite calcularPuntualidad_puntaje. cbn [mbind outcome_bind].
  do 2 eexists. split; [reflexivity|]. cbn.
  destruct (e_calificacion e); cbn; rewrite ?Z.add_0_r; repeat split; reflexivity.
Qed.

Lemma foldM_paso_entrega (tarea : Tarea) (es : list Entrega) :
  forall (c : Totales) (l : PorTarea),
  exists c' l',
    foldM (paso_entrega tarea) es (c, l) = Ok (c', l') /\
    c_tareasCompletadas c' = c_tareasCompletadas c /\
    c_totalEntregas c' = c_totalEntregas c /\
    c_sumaPuntualidad c'
    = suma_desde (c_sumaPuntualidad c)
        (map (fun par => puntaje par.1 par.2) (map (pair tarea) es)) /\
    c_sumaCalidad c'
    = suma_desde (c_sumaCalidad c)
        (map inject_Z (omap (fun par => e_calificacion par.2) (map (pair tarea) es))) /\
    c_entregasCalificadas c'
    = c_entregasCalificadas c
      + Z.of_nat (length (omap (fun par => e_calificacion par.2) (map (pair tarea) es))) /\
    calificacionesCount l'
    = calificacionesCount l
      + Z.of_nat (length (omap (fun par => e_calificacion par.2) (map (pair tarea) es))).
Proof.
  induction es as [|e es IH]; intros c l.
  - exists c, l. simpl. rewrite !Z.add_0_r. repeat split; reflexivity.
  - cbn [foldM].
    destruct (paso_entrega_ok tarea c l e) as (c1 & l1 & -> & E1 & E2 & E3 & E4 & E5 & E6).
    cbn [mbind outcome_bind].
    destruct (IH c1 l1) as (c' & l' & -> & H1 & H2 & H3 & H4 & H5 & H6).
    exists c', l'. split; [reflexivity|].
    rewrite H1, H2, H3, H4, H5, H6, E1, E2, E3, E4, E5, E6.
    cbn [map omap list_omap fst snd].
    destruct (e_calificacion e) as [n|];
      cbn [map length suma_desde fold_left option_list];
      repeat split; try reflexivity;
      cbv [option_list option_rect]; cbn [length]; lia.
Qed.

Lemma paso_tarea_ok (c : Totales) (fila : Tarea * list Entrega) :
  exists c',
    paso_tarea c fila = Ok c' /\
    c_tareasCompletadas c'
    = c_tareasCompletadas c + (if 0 <? Z.of_nat (length fila.2) then 1 else 0) /\
    c_totalEntregas c' = c_totalEntregas c + Z.of_nat (length fila.2) /\
    c_sumaPuntualidad c'
    = suma_desde (c_sumaPuntualidad c)
        (map (fun par => puntaje par.1 par.2) (map (pair fila.1) fila.2)) /\
    c_sumaCalidad c'
    = suma_desde (c_sumaCalidad c)
        (map inject_Z (omap (fun par => e_calificacion par.2) (map (pair fila.1) fila.2))) /\
    c_entregasCalificadas c'
    = c_entregasCalificadas c
      + Z.of_nat (length (omap (fun par => e_calificacion par.2) (map (pair fila.1) fila.2))).
Proof.
  destruct fila as [tarea es]. unfold paso_tarea. cbn [fst snd].
  match goal with |- context [foldM _ es (?c1, ?l1)] =>
    destruct (foldM_paso_entrega tarea es c1 l1)
      as (c2 & l2 & -> & H1 & H2 & H3 & H4 & H5 & H6) end.
  cbn [mbind outcome_bind].
  assert (Hdiv : exists pq,
    (if 0 <? Z.of_nat (length es)
     then
       p ← js_div (puntualidadTarea l2) (inject_Z (Z.of_nat (length es)));
       q ← (if 0 <? calificacionesCount l2
            then js_div (calidadTarea l2) (inject_Z (calificacionesCount l2))
            else Ok (calidadTarea l2));
       Ok (p, q)
     else Ok (puntualidadTarea l2, calidadTarea l2)) = Ok pq).
  { destruct (Z.ltb_spec 0 (Z.of_nat (length es))); [|eauto].
    rewrite (js_div_Z_ok _ (Z.of_nat (length es))) by lia. cbn [mbind outcome_bind].
    destruct (Z.ltb_spec 0 (calificacionesCount l2)); [|eauto].
    rewrite js_div_Z_ok by lia. cbn [mbind outcome_bind]. eauto. }
  destruct Hdiv as [[p q] ->]. cbn [mbind outcome_bind].
  eexists. split; [reflexivity|].
  cbn [c_tareasCompletadas c_totalEntregas c_sumaPuntualidad c_sumaCalidad
       c_entregasCalificadas].
  rewrite H1, H2, H3, H4, H5.
  destruct (Z.ltb_spec 0 (Z.of_nat (length es))); cbn; repeat split; try reflexivity; lia.
Qed.

Lemma foldM_paso_tarea (filas : list (Tarea * list Entrega)) :
  forall c : Totales,
  exists c',
    foldM paso_tarea filas c = Ok c' /\
    c_tareasCompletadas c' = c_tareasCompletadas c + n_completadas filas /\
    c_totalEntregas c' = c_totalEntregas c + n_entregas filas /\
    c_sumaPuntualidad c'
    = suma_desde (c_sumaPuntualidad c)
        (map (fun par => puntaje par.1 par.2) (entregas_evaluadas filas)) /\
    c_sumaCalidad c'
    = suma_desde (c_sumaCalidad c) (map inject_Z (calificaciones filas)) /\
    c_entregasCalificadas c'
    = c_entregasCalificadas c + Z.of_nat (length (calificaciones filas)).
Proof.
  unfold n_completadas, n_entregas, calificaciones, entregas_evaluadas.
  induction filas as [|fila filas IH]; intros c.
  - exists c. cbn. rewrite !Z.add_0_r. repeat split; reflexivity.
  - cbn [foldM].
    destruct (paso_tarea_ok c fila) as (c1 & -> & E1 & E2 & E3 & E4 & E5).
    cbn [mbind outcome_bind].
    destruct (IH c1) as (c' & -> & H1 & H2 & H3 & H4 & H5).
    exists c'. split; [reflexivity|].
    rewrite H1, H2, H3, H4, H5, E1, E2, E3, E4, E5.
    cbn [flat_map List.filter].
    rewrite !omap_app, !map_app, !length_app, !length_map.
    unfold suma_desde. rewrite !fold_left_app.
    destruct (0 <? Z.of_nat (length fila.2)); cbn [length];
      repeat split; try reflexivity; lia.
Qed.

(** The guarded quotients of the final metrics. *)
Lemma cociente_guardado (a : Q) (n : Z) :
  (if 0 <? n then js_div a (inject_Z n) else Ok 0%Q)
  = Ok (if 0 <? n then js_quot a (inject_Z n) else 0%Q).
Proof.
  destruct (Z.ltb_spec 0 n); [|reflexivity]. apply js_div_Z_ok. lia.
Qed.

Lemma porcentaje_guardado (a : Q) (n : Z) :
  (if 0 <? n then r ← js_div a (inject_Z n); Ok (js_mul r 100) else Ok 0%Q)
  = Ok (if 0 <? n then js_mul (js_quot a (inject_Z n)) 100 else 0%Q).
Proof.
  destruct (Z.ltb_spec 0 n); [|reflexivity]. rewrite js_div_Z_ok by lia. reflexivity.
Qed.

(** The evaluation of an existing unit returns, and its fields are the
    closed forms over the rows in scope. *)
Lemma evaluation_returns (s : Store) (id : Z) (filtros : option Filtros) (m : Municipio) :
  Municipio_findByPk s id = Some m ->
  exists ev,
    getMunicipalityComprehensiveEvaluation s id filtros = Ok ev /\
    totalTareas ev = Z.of_nat (length (Tarea_findAll s filtros id)) /\
    tareasCompletadas ev = n_completadas (Tarea_findAll s filtros id) /\
    totalEntregas ev = n_entregas (Tarea_findAll s filtros id) /\
    entregasCalificadas ev
    = Z.of_nat (length (calificaciones (Tarea_findAll s filtros id))) /\
    porcentajeCobertura ev = round2 (cobertura (Tarea_findAll s filtros id)) /\
    promedioPuntualidad ev = round2 (puntualidad_media (Tarea_findAll s filtros id)) /\
    promedioCalidad ev = round2 (calidad_media (Tarea_findAll s filtros id)) /\
    promedioEntregasPorTarea ev
    = round2 (entregas_por_tarea (Tarea_findAll s filtros id)) /\
    puntuacionFinal ev
    = round2 (ponderada (cobertura (Tarea_findAll s filtros id))
                        (puntualidad_media (Tarea_findAll s filtros id))
                        (calidad_media (Tarea_findAll s filtros id))
                        (entregas_por_tarea (Tarea_findAll s filtros id))) /\
    porcentajePuntualidad ev
    = round2 (if 0 <? n_entregas (Tarea_findAll s filtros id)
              then js_mul (js_quot (inject_Z (entregasPuntuales ev))
                                   (inject_Z (n_entregas (Tarea_findAll s filtros id)))) 100
              else 0%Q).
Proof.
  intros Hm. unfold getMunicipalityComprehensiveEvaluation. rewrite Hm.
  set (filas := Tarea_findAll s filtros id).
  destruct (foldM_paso_tarea filas sin_contar) as (c & -> & H1 & H2 & H3 & H4 & H5).
  cbn [mbind outcome_bind].
  rewrite !porcentaje_guardado, !cociente_guardado. cbn [mbind outcome_bind].
  eexists. split; [reflexivity|].
  cbn [totalTareas tareasCompletadas totalEntregas entregasCalificadas porcentajeCobertura
       promedioPuntualidad promedioCalidad promedioEntregasPorTarea puntuacionFinal
       porcentajePuntualidad entregasPuntuales].
  unfold cobertura, puntualidad_media, calidad_media, entregas_por_tarea,
    suma_puntajes, suma_calificaciones, ponderada.
  rewrite H1, H2, H3, H4, H5. cbn [sin_contar c_tareasCompletadas c_totalEntregas
    c_sumaPuntualidad c_sumaCalidad c_entregasCalificadas].
  rewrite !Z.add_0_l.
  repeat split; reflexivity.
Qed.

(** [ORDER BY] only rearranges the rows. *)
Lemma insert_by_Permutation {A : Type} (le : A -> A -> bool) (x : A) (l : list A) :
  insert_by le x l ≡ₚ x :: l.
Proof.
  induction l as [|y l IH]; cbn; [reflexivity|].
  destruct (le x y); [reflexivity|].
  rewrite IH. apply Permutation_swap.
Qed.

Lemma order_by_Permutation {A : Type} (le : A -> A -> bool) (l : list A) :
  order_by le l ≡ₚ l.
Proof.
  induction l as [|x l IH]; cbn; [reflexivity|].
  rewrite insert_by_Permutation. apply Permutation_skip, IH.
Qed.

(** Every row in scope carries deliveries of the unit only. *)
Lemma Tarea_findAll_entregas (s : Store) (filtros : option Filtros) (id : Z) :
  Forall (fun fila => Forall (fun e => e ∈ tabla_entregas s /\ e_municipioId e = id) fila.2)
         (Tarea_findAll s filtros id).
Proof.
  unfold Tarea_findAll. rewrite order_by_Permutation.
  apply Forall_forall. intros fila Hin.
  apply list_elem_of_fmap in Hin. destruct Hin as (t & -> & _). cbn.
  apply Forall_forall. intros e He.
  apply list_elem_of_filter in He. destruct He as [He1 He2].
  unfold entregas_de_tarea in He2. apply list_elem_of_filter in He2.
  split; [apply He2 | exact He1].
Qed.

Lemma sin_entregas_totales (filas : list (Tarea * list Entrega)) :
  Forall (fun fila => fila.2 = []) filas ->
  n_completadas filas = 0 /\ entregas_evaluadas filas = [].
Proof.
  unfold n_completadas.
  induction 1 as [|fila filas Hf _ [IH1 IH2]]; [split; reflexivity|].
  cbn [List.filter entregas_evaluadas flat_map]. rewrite Hf. cbn.
  split; [exact IH1 | exact IH2].
Qed.

Lemma sin_calificaciones (filas : list (Tarea * list Entrega)) :
  Forall (fun fila => Forall (fun e => e_calificacion e = None) fila.2) filas ->
  calificaciones filas = [].
Proof.
  unfold calificaciones.
  induction 1 as [|fila filas Hf _ IH]; [reflexivity|].
  cbn [entregas_evaluadas flat_map]. rewrite omap_app.
  fold (entregas_evaluadas filas). rewrite IH, app_nil_r.
  clear IH. induction Hf as [|e es He _ IHes]; [reflexivity|].
  cbn. rewrite He. exact IHes.
Qed.

End EvaluationLoops.

(** ** The composite score and the failure semantics of the evaluation *)

Section EvaluationResults.
Import AdvancedEvaluation EvaluationTotals.

Lemma Math_min_comp (x x' y : Q) : (x == x')%Q -> (Math_min x y == Math_min x' y)%Q.
Proof.
  intros H. unfold Math_min.
  destruct (Qle_bool x y) eqn:E1; destruct (Qle_bool x' y) eqn:E2; try exact H;
    try reflexivity.
  - apply Qle_bool_iff in E1. rewrite H in E1. apply Qle_bool_iff in E1. congruence.
  - apply Qle_bool_iff in E2. rewrite <- H in E2. apply Qle_bool_iff in E2. congruence.
Qed.

Lemma ponderada_comp (a a' b b' c c' d d' : Q) :
  (a == a')%Q -> (b == b')%Q -> (c == c')%Q -> (d == d')%Q ->
  (ponderada a b c d == ponderada a' b' c' d')%Q.
Proof.
  intros Ha Hb Hc Hd. unfold ponderada.
  repeat first [ apply js_add_comp | apply js_mul_comp | apply Math_min_comp
               | reflexivity | assumption ].
Qed.

(** A part of nothing, as a percentage. *)
Lemma js_mul_quot_zero (b : Q) : (js_mul (js_quot (inject_Z 0) b) 100 == 0)%Q.
Proof.
  assert (E : (js_quot (inject_Z 0) b == 0)%Q).
  { unfold js_quot. rewrite fl_zero; unfold Qdiv; apply Qmult_0_l. }
  rewrite (js_mul_comp _ 0 100 100 E (Qeq_refl _)). reflexivity.
Qed.



Lemma Municipio_findByPk_None (s : Store) (id : Z) :
  Municipio_findByPk s id = None <-> (forall m, m ∈ tabla_municipios s -> m_id m <> id).
Proof.
  unfold Municipio_findByPk. split.
  - intros H m Hm. apply list_elem_of_In in Hm.
    apply (find_none _ _ H) in Hm. lia.
  - intros H. destruct (find _ _) as [m|] eqn:E; [|reflexivity].
    apply find_some in E. destruct E as [E1 E2].
    apply list_elem_of_In in E1. apply H in E1. lia.
Qed.

(** C9 (as stated, refuted). The unit of the sample store exists and none
    of its deliveries is rated; the evaluation returns, with quality 0, but
    coverage 33.33, punctuality 100, quantity 1 and score 45.33. *)
Lemma unrated_deliveries_not_all_zero :
  exists ev,
    Forall (fun e => e_calificacion e = None) (tabla_entregas Ejemplos.tres_tareas) /\
    getMunicipalityComprehensiveEvaluation Ejemplos.tres_tareas 1 None = Ok ev /\
    (promedioCalidad ev == 0)%Q /\
    ~ (porcentajeCobertura ev == 0)%Q /\
    ~ (promedioPuntualidad ev == 0)%Q /\
    ~ (promedioEntregasPorTarea ev == 0)%Q /\
    ~ (puntuacionFinal ev == 0)%Q.
Proof.
  eexists. split; [repeat constructor|].
  split; [vm_compute; reflexivity|].
  repeat split; try (vm_compute; reflexivity); vm_compute; discriminate.
Qed.

(** C9 (amended). The evaluation throws exactly when no unit has the given
    id, and then the message is "Municipio con ID <id> no encontrado".  For
    an existing unit it returns: with an empty scope, or with no delivery of
    the unit, coverage, both punctuality metrics, quality, quantity and the
    score are all 0; with deliveries of which none is rated, quality is 0. *)
Theorem evaluation_failure_semantics (s : Store) (id : Z) (filtros : option Filtros) :
  ((forall m, m ∈ tabla_municipios s -> m_id m <> id) ->
     getMunicipalityComprehensiveEvaluation s id filtros
     = Throw ("Municipio con ID " +:+ pretty id +:+ " no encontrado")) /\
  ((exists msg, getMunicipalityComprehensiveEvaluation s id filtros = Throw msg) ->
     forall m, m ∈ tabla_municipios s -> m_id m <> id) /\
  ((exists m, m ∈ tabla_municipios s /\ m_id m = id) ->
     exists ev,
       getMunicipalityComprehensiveEvaluation s id filtros = Ok ev /\
       (Tarea_findAll s filtros id = []
        \/ Forall (fun e => e_municipioId e <> id) (tabla_entregas s) ->
          (porcentajeCobertura ev == 0)%Q /\
          (porcentajePuntualidad ev == 0)%Q /\
          (promedioPuntualidad ev == 0)%Q /\
          (promedioCalidad ev == 0)%Q /\
          (promedioEntregasPorTarea ev == 0)%Q /\
          (puntuacionFinal ev == 0)%Q) /\
       (Forall (fun e => e_municipioId e = id -> e_calificacion e = None) (tabla_entregas s) ->
          (promedioCalidad ev == 0)%Q)).
Proof.
  split; [|split].
  - intros Hno. apply Municipio_findByPk_None in Hno.
    unfold getMunicipalityComprehensiveEvaluation. rewrite Hno. reflexivity.
  - intros [msg Hmsg]. apply Municipio_findByPk_None.
    destruct (Municipio_findByPk s id) as [m|] eqn:E; [|reflexivity].
    destruct (evaluation_returns s id filtros m E) as (ev & Hev & _).
    rewrite Hev in Hmsg. discriminate.
  - intros (m0 & Hin & Hid).
    destruct (Municipio_findByPk s id) as [m|] eqn:E.
    2:{ exfalso. exact (proj1 (Municipio_findByPk_None s id) E m0 Hin Hid). }
    destruct (evaluation_returns s id filtros m E)
      as (ev & Hev & _ & _ & _ & _ & Hcob & Hpun & Hcal & Hcant & Hfin & Hpp).
    exists ev. split; [exact Hev|]. split.
    + intros Hsin.
      assert (Hfilas : Forall (fun fila => fila.2 = []) (Tarea_findAll s filtros id)).
      { destruct Hsin as [-> | Hsin]; [constructor|].
        eapply Forall_impl; [apply Tarea_findAll_entregas|].
        intros [t es] Hes. cbn in *. destruct es as [|e es]; [reflexivity|].
        apply Forall_cons in Hes. destruct Hes as [[He1 He2] _].
        rewrite Forall_forall in Hsin. apply Hsin in He1. contradiction. }
      destruct (sin_entregas_totales _ Hfilas) as [Hn Hnil].
      assert (Hcob0 : (cobertura (Tarea_findAll s filtros id) == 0)%Q).
      { unfold cobertura. rewrite Hn.
        destruct (0 <? Z.of_nat (length (Tarea_findAll s filtros id))); [|reflexivity].
        apply js_mul_quot_zero. }
      assert (Hpun0 : puntualidad_media (Tarea_findAll s filtros id) = 0%Q).
      { unfold puntualidad_media, n_entregas. rewrite Hnil. reflexivity. }
      assert (Hcal0 : calidad_media (Tarea_findAll s filtros id) = 0%Q).
      { unfold calidad_media, calificaciones. rewrite Hnil. reflexivity. }
      assert (Hcant0 : entregas_por_tarea (Tarea_findAll s filtros id) = 0%Q).
      { unfold entregas_por_tarea. rewrite Hn. reflexivity. }
      rewrite Hcob, Hpp, Hpun, Hcal, Hcant, Hfin, Hpun0, Hcal0, Hcant0.
      unfold n_entregas. rewrite Hnil. cbn [length Z.of_nat Z.ltb Z.compare].
      repeat split; try (apply round2_zero; first [exact Hcob0 | reflexivity]).
      apply round2_zero.
      rewrite (ponderada_comp _ 0 _ 0 _ 0 _ 0 Hcob0 (Qeq_refl _) (Qeq_refl _) (Qeq_refl _)).
      reflexivity.
    + intros Hsin.
      assert (Hc : calificaciones (Tarea_findAll s filtros id) = []).
      { apply sin_calificaciones.
        eapply Forall_impl; [apply Tarea_findAll_entregas|].
        intros fila Hes. eapply Forall_impl; [exact Hes|].
        intros e [He1 He2]. rewrite Forall_forall in Hsin.
        exact (Hsin e He1 He2). }
      rewrite Hcal. unfold calidad_media. rewrite Hc. reflexivity.
Qed.

Lemma evaluation_failure_semantics_witness :
  getMunicipalityComprehensiveEvaluation Ejemplos.tres_tareas 7 None
  = Throw "Municipio con ID 7 no encontrado" /\
  exists ev,
    getMunicipalityComprehensiveEvaluation Ejemplos.tres_tareas 1 None = Ok ev /\
    (promedioCalidad ev == 0)%Q.
Proof.
  split.
  - apply (proj1 (evaluation_failure_semantics Ejemplos.tres_tareas 7 None)).
    intros m Hm. unfold Ejemplos.tres_tareas in Hm. cbn in Hm.
    apply list_elem_of_In in Hm. destruct Hm as [<- | []]. cbn. lia.
  - destruct (proj2 (proj2 (evaluation_failure_semantics Ejemplos.tres_tareas 1 None)))
      as (ev & Hev & _ & Hq).
    + exists {| m_id := 1; m_nombre := "Alfa" |}. split; [|reflexivity].
      apply list_elem_of_In. left. reflexivity.
    + exists ev. split; [exact Hev|]. apply Hq. repeat constructor.
Defined.

End EvaluationResults.

(** ** The coverage report *)

Section Coverage.
Import Performance.

Lemma primeras_apariciones_elem (ids : list Z) (x : Z) :
  x ∈ primeras_apariciones ids <-> x ∈ ids.
Proof.
  induction ids as [|y ids IH]; [reflexivity|].
  cbn [primeras_apariciones]. rewrite !elem_of_cons, list_elem_of_filter, IH.
  destruct (decide (x = y)); tauto.
Qed.

Lemma primeras_apariciones_NoDup (ids : list Z) : NoDup (primeras_apariciones ids).
Proof.
  induction ids as [|y ids IH]; [constructor|].
  cbn [primeras_apariciones]. constructor.
  - rewrite list_elem_of_filter. tauto.
  - apply NoDup_filter, IH.
Qed.

Lemma primeras_apariciones_size (ids : list Z) :
  length (primeras_apariciones ids) = size (list_to_set ids : gset Z).
Proof.
  rewrite <- (size_list_to_set (C:=gset Z)) by apply primeras_apariciones_NoDup.
  f_equal. apply set_eq. intros x.
  rewrite !elem_of_list_to_set. apply primeras_apariciones_elem.
Qed.

(** The [forEach] over the deliveries of a unit keeps each task once, at
    its first delivery. *)
Lemma fold_paso_actividad (nom : Z -> string) (filas : list (Entrega * option Tarea)) :
  Forall (fun fila => forall t, fila.2 = Some t -> t_nombre t = nom (t_id t)) filas ->
  forall (vistos : gset Z) (nombres : list string),
    fold_left paso_actividad filas (vistos, nombres)
    = (vistos ∪ list_to_set (omap (fun fila => t_id <$> fila.2) filas),
       nombres ++ map nom (filter (fun x => x ∉ vistos)
                             (primeras_apariciones (omap (fun fila => t_id <$> fila.2) filas)))).
Proof.
  induction 1 as [|[e [t|]] filas Hnom _ IH]; intros vistos nombres.
  - cbn. rewrite app_nil_r. f_equal. set_solver.
  - cbn [fold_left paso_actividad snd omap list_omap fmap option_fmap option_map
         primeras_apariciones].
    specialize (Hnom t eq_refl). cbn [snd] in Hnom.
    destruct (decide (t_id t ∈ vistos)) as [Hin|Hin].
    + rewrite IH. rewrite filter_cons_False by tauto.
      rewrite list_filter_filter_l by (intros x Hx ->; contradiction).
      f_equal. rewrite list_to_set_cons. set_solver.
    + rewrite IH. rewrite filter_cons_True by exact Hin.
      rewrite list_filter_filter. cbn [map]. rewrite <- app_assoc. cbn [app].
      rewrite Hnom. f_equal.
      * rewrite list_to_set_cons. set_solver.
      * do 3 f_equal. apply list_filter_iff. intros x. set_solver.
  - cbn [fold_left paso_actividad snd omap list_omap fmap option_fmap option_map].
    apply IH.
Qed.

Lemma Entrega_findAll_nombres (s : Store) (id : Z) :
  Forall (fun fila => forall t, fila.2 = Some t -> t_nombre t = nombre_de_tarea s (t_id t))
         (Entrega_findAll s id).
Proof.
  apply Forall_forall. intros fila Hfila.
  apply list_elem_of_fmap in Hfila. destruct Hfila as (e & -> & _).
  cbn [snd]. intros t Ht. unfold nombre_de_tarea.
  assert (Hid : t_id t = e_tareaId e).
  { apply find_some in Ht. lia. }
  rewrite Hid, Ht. reflexivity.
Qed.

Lemma Entrega_findAll_ids_known (s : Store) (id x : Z) :
  x ∈ omap (fun fila => t_id <$> fila.2) (Entrega_findAll s id) ->
  x ∈ map t_id (tabla_tareas s).
Proof.
  intros Hx. apply list_elem_of_omap in Hx. destruct Hx as (fila & Hfila & Hx).
  apply list_elem_of_fmap in Hfila. destruct Hfila as (e & -> & _). cbn [snd] in Hx.
  destruct (find _ _) as [t|] eqn:Ht; [|discriminate].
  injection Hx as <-. apply find_some in Ht. destruct Ht as [Ht _].
  apply list_elem_of_fmap. exists t. split; [reflexivity|]. apply list_elem_of_In, Ht.
Qed.

Lemma Entrega_findAll_ids (s : Store) (id : Z) :
  entregas_referenciadas s ->
  omap (fun fila => t_id <$> fila.2) (Entrega_findAll s id) = tareas_entregadas s id.
Proof.
  intros Hfk. unfold Entrega_findAll, tareas_entregadas.
  assert (Hsub : forall e, e ∈ filter (fun e => e_municipioId e = id) (tabla_entregas s) ->
                           e ∈ tabla_entregas s).
  { intros e He. apply list_elem_of_filter in He. tauto. }
  induction (filter (fun e => e_municipioId e = id) (tabla_entregas s)) as [|e es IH];
    [reflexivity|].
  cbn [map omap list_omap snd].
  destruct (Hfk e) as (t & Ht & Hid); [apply Hsub; left|].
  destruct (find _ _) as [t'|] eqn:Hfind.
  - apply find_some in Hfind. cbn [fmap option_fmap option_map].
    f_equal; [lia|]. apply IH. intros e' He'. apply Hsub. right. exact He'.
  - exfalso. apply list_elem_of_In in Ht.
    apply (find_none _ _ Hfind) in Ht. lia.
Qed.

(** [for_indexed] returns as soon as its body always does, and relates
    each element to its result. *)
Lemma for_indexed_Forall2 {A B : Type} (f : nat -> A -> outcome B) (P : A -> B -> Prop) :
  (forall i x, exists y, f i x = Ok y /\ P x y) ->
  forall l i, exists ys, for_indexed f i l = Ok ys /\ Forall2 P l ys.
Proof.
  intros Hf. induction l as [|x l IH]; intros i.
  - exists []. split; [reflexivity | constructor].
  - cbn [for_indexed]. destruct (Hf i x) as (y & -> & Hy).
    destruct (IH (S i)) as (ys & -> & Hys).
    exists (y :: ys). split; [reflexivity | constructor; assumption].
Qed.

Lemma filter_all {A : Type} (P : A -> Prop) `{!forall x, Decision (P x)} (l : list A) :
  (forall x, P x) -> filter P l = l.
Proof.
  intros HP. induction l as [|x l IH]; [reflexivity|].
  rewrite filter_cons_True by apply HP. rewrite IH. reflexivity.
Qed.

(** One entry of the coverage report. *)
Lemma desempeno_returns (generateColor : nat -> string) (s : Store) (i : nat) (m : Municipio) :
  exists u,
    desempeno generateColor s (Z.of_nat (length (tabla_tareas s))) i m = Ok u /\
    municipioId u = m_id m /\
    totalTareas u = Z.of_nat (length (tabla_tareas s)) /\
    tareasCompletadas u
    = Z.of_nat (size (list_to_set (omap (fun fila => t_id <$> fila.2)
                                        (Entrega_findAll s (m_id m))) : gset Z)) /\
    actividadesCompletadas u
    = map (nombre_de_tarea s)
          (primeras_apariciones (omap (fun fila => t_id <$> fila.2)
                                      (Entrega_findAll s (m_id m)))) /\
    porcentajeCompletado u
    = (if 0 <? totalTareas u
       then centesimas (Math_round (js_mul (js_quot (inject_Z (tareasCompletadas u))
                                                    (inject_Z (totalTareas u))) 10000))
       else 0%Q).
Proof.
  unfold desempeno.
  rewrite (fold_paso_actividad (nombre_de_tarea s)) by apply Entrega_findAll_nombres.
  rewrite filter_all by set_solver. cbn [app].
  rewrite union_empty_l_L.
  destruct (Z.ltb_spec 0 (Z.of_nat (length (tabla_tareas s)))) as [Hpos|Hzero].
  - rewrite js_div_Z_ok by lia. cbn [mbind outcome_bind].
    eexists. split; [reflexivity|]. cbn.
    destruct (Z.ltb_spec 0 (Z.of_nat (length (tabla_tareas s)))); [|lia].
    repeat split; reflexivity.
  - cbn [mbind outcome_bind].
    eexists. split; [reflexivity|]. cbn.
    destruct (Z.ltb_spec 0 (Z.of_nat (length (tabla_tareas s)))); [lia|].
    repeat split; reflexivity.
Qed.

Lemma completadas_le_total (s : Store) (id : Z) :
  Z.of_nat (size (list_to_set (omap (fun fila => t_id <$> fila.2)
                                    (Entrega_findAll s id)) : gset Z))
  <= Z.of_nat (length (tabla_tareas s)).
Proof.
  apply inj_le.
  rewrite <- (length_map t_id (tabla_tareas s)).
  rewrite <- primeras_apariciones_size.
  transitivity (size (list_to_set (map t_id (tabla_tareas s)) : gset Z)).
  - rewrite primeras_apariciones_size. apply subseteq_size.
    intros x. rewrite !elem_of_list_to_set. apply Entrega_findAll_ids_known.
  - rewrite <- primeras_apariciones_size.
    clear. induction (map t_id (tabla_tareas s)) as [|y l IH]; [reflexivity|].
    cbn [primeras_apariciones length].
    pose proof (length_filter (fun z => z <> y) (primeras_apariciones l)). lia.
Qed.

Lemma Forall2_right {A B : Type} (Q : B -> Prop) (l : list A) (ys : list B) :
  Forall2 (fun _ y => Q y) l ys -> Forall Q ys.
Proof. induction 1; constructor; assumption. Qed.


(** C3 (as stated, refuted). With 57 of 800 tasks delivered the exact
    percentage is 7.125, whose rounding half-up to hundredths is 7.13; the
    quotient 57/800 and its product by 10000 are rounded to binary64, the
    product is below 712.5, and the report gives 7.12. *)
Lemma porcentajeCompletado_not_half_up :
  exists u,
    getMunicipalityPerformanceData (fun _ => "#3B82F6") (Ejemplos.entregadas 800 57)
    = Ok [u] /\
    totalTareas u = 800 /\
    tareasCompletadas u = 57 /\
    (inject_Z (tareasCompletadas u) / inject_Z (totalTareas u) * 100 == 7.125)%Q /\
    (decimal2 (inject_Z (tareasCompletadas u) / inject_Z (totalTareas u) * 100) == 7.13)%Q /\
    (js_mul (js_quot (inject_Z 57) (inject_Z 800)) 10000 < 712.5)%Q /\
    porcentajeCompletado u = centesimas 712 /\
    (centesimas 712 < centesimas 713)%Q /\
    (porcentajeCompletado u < 7.125)%Q /\
    ~ (porcentajeCompletado u
       == decimal2 (inject_Z (tareasCompletadas u) / inject_Z (totalTareas u) * 100))%Q.
Proof.
  eexists.
  split; [vm_compute; reflexivity|].
  split; [reflexivity|].
  split; [reflexivity|].
  split; [apply Qeq_bool_eq; vm_compute; reflexivity|].
  split; [apply Qeq_bool_eq; vm_compute; reflexivity|].
  split; [vm_compute; reflexivity|].
  split; [vm_compute; reflexivity|].
  split; [apply centesimas_lt; lia|].
  split; [vm_compute; reflexivity|].
  intros H. apply Qeq_bool_iff in H. vm_compute in H. discriminate.
Qed.



(** C4. Under the foreign key of the deliveries, tareasCompletadas of a
    unit is the number of distinct task ids among its deliveries, and
    actividadesCompletadas holds one name per such task, in the order in
    which the tasks are first delivered, however many deliveries a task
    has; so tareasCompletadas <= totalTareas. *)
Theorem tareasCompletadas_distinct (generateColor : nat -> string) (s : Store) :
  entregas_referenciadas s ->
  exists report,
    getMunicipalityPerformanceData generateColor s = Ok report /\
    Forall2 (fun m u =>
      municipioId u = m_id m /\
      tareasCompletadas u
      = Z.of_nat (size (list_to_set (tareas_entregadas s (m_id m)) : gset Z)) /\
      actividadesCompletadas u
      = map (nombre_de_tarea s) (primeras_apariciones (tareas_entregadas s (m_id m))) /\
      Z.of_nat (length (actividadesCompletadas u)) = tareasCompletadas u /\
      tareasCompletadas u <= totalTareas u)
      (Municipio_findAll_by_nombre s) report.
Proof.
  intros Hfk. unfold getMunicipalityPerformanceData.
  apply for_indexed_Forall2. intros i m.
  destruct (desempeno_returns generateColor s i m)
    as (u & Hu & Hid & Htot & Hcomp & Hact & _).
  exists u. split; [exact Hu|].
  pose proof (completadas_le_total s (m_id m)) as Hle.
  rewrite (Entrega_findAll_ids s (m_id m) Hfk) in Hcomp, Hact, Hle.
  split; [exact Hid|]. split; [exact Hcomp|]. split; [exact Hact|]. split.
  - rewrite Hact, Hcomp, length_map, primeras_apariciones_size. reflexivity.
  - rewrite Hcomp, Htot. exact Hle.
Qed.

Lemma tareasCompletadas_distinct_witness :
  exists report,
    getMunicipalityPerformanceData (fun _ => "#3B82F6") Ejemplos.entrega_doble = Ok report /\
    Forall2 (fun m u =>
      municipioId u = m_id m /\
      tareasCompletadas u
      = Z.of_nat (size (list_to_set (tareas_entregadas Ejemplos.entrega_doble (m_id m))
                        : gset Z)) /\
      actividadesCompletadas u
      = map (nombre_de_tarea Ejemplos.entrega_doble)
            (primeras_apariciones (tareas_entregadas Ejemplos.entrega_doble (m_id m))) /\
      Z.of_nat (length (actividadesCompletadas u)) = tareasCompletadas u /\
      tareasCompletadas u <= totalTareas u)
      (Municipio_findAll_by_nombre Ejemplos.entrega_doble) report.
Proof.
  apply (tareasCompletadas_distinct (fun _ => "#3B82F6") Ejemplos.entrega_doble).
  intros e He. unfold Ejemplos.entrega_doble in *. cbn in He.
  repeat (apply elem_of_cons in He; destruct He as [-> | He]);
    [exists {| t_id := 2; t_nombre := "Tarea 2"; t_divisionId := 1;
              t_fechaInicio := 1000; t_fechaCulminacion := 2000; t_estado := en_proceso |}
    |exists {| t_id := 1; t_nombre := "Tarea 1"; t_divisionId := 1;
              t_fechaInicio := 1000; t_fechaCulminacion := 2000; t_estado := en_proceso |}
    |exists {| t_id := 2; t_nombre := "Tarea 2"; t_divisionId := 1;
              t_fechaInicio := 1000; t_fechaCulminacion := 2000; t_estado := en_proceso |}
    |inversion He];
    (split; [cbn; set_solver | reflexivity]).
Defined.

(** The report of the second sample store: the task delivered twice is
    counted and named once, tasks appearing in the order of their first
    delivery. *)
Example entrega_doble_report :
  getMunicipalityPerformanceData (fun _ => "#3B82F6") Ejemplos.entrega_doble
  = Ok [ {| municipioId := 1; municipioNombre := "Alfa"; totalTareas := 2;
            tareasCompletadas := 2; porcentajeCompletado := centesimas 10000;
            actividadesCompletadas := ["Tarea 2"; "Tarea 1"]; color := "#3B82F6" |} ].
Proof. vm_compute. reflexivity. Qed.

End Coverage.

(** ** The monthly report *)

Section MonthlyReport.
Import Monthly.

Lemma mapM_Forall2 {A B : Type} (f : A -> outcome B) (P : A -> B -> Prop) :
  (forall x, exists y, f x = Ok y /\ P x y) ->
  forall l, exists ys, mapM f l = Ok ys /\ Forall2 P l ys.
Proof.
  intros Hf. induction l as [|x l IH].
  - exists []. split; [reflexivity | constructor].
  - cbn [mapM]. destruct (Hf x) as (y & -> & Hy). destruct IH as (ys & -> & Hys).
    exists (y :: ys). split; [reflexivity | constructor; assumption].
Qed.

Lemma suma_app (l1 l2 : list Z) : suma (l1 ++ l2) = suma l1 + suma l2.
Proof. unfold suma. induction l1 as [|x l1 IH]; cbn; [reflexivity | rewrite IH; lia]. Qed.

Lemma paso_division_ok (filas : list (Tarea * list Entrega)) (m : Municipio)
    (dd : list DivisionPerformanceData) (a c : Z) (d : Division) :
  exists nuevos,
    paso_division filas m (dd, a, c) d
    = Ok (dd ++ nuevos,
          a + suma (map tareasAsignadas nuevos),
          c + suma (map tareasCompletadas nuevos)) /\
    Forall (fun d => 0 < tareasAsignadas d) nuevos.
Proof.
  unfold paso_division.
  destruct (Z.ltb_spec 0 (Z.of_nat (length
              (List.filter (fun t => t_divisionId t.1 =? d_id d) filas)))) as [Hpos|Hzero].
  - rewrite js_div_Z_ok by lia. cbn [mbind outcome_bind].
    match goal with |- context [dd ++ [?e]] => exists [e] end. split.
    + cbn [map suma foldr tareasAsignadas tareasCompletadas]. rewrite !Z.add_0_r.
      reflexivity.
    + constructor; [exact Hpos | constructor].
  - exists []. cbn. rewrite app_nil_r, !Z.add_0_r. split; [reflexivity | constructor].
Qed.

(** The loop over the divisions appends one entry per division that owns
    tasks of the month and adds the counts of exactly those entries. *)
Lemma foldM_paso_division (filas : list (Tarea * list Entrega)) (m : Municipio)
    (divs : list Division) :
  forall (dd : list DivisionPerformanceData) (a c : Z),
  exists nuevos,
    foldM (paso_division filas m) divs (dd, a, c)
    = Ok (dd ++ nuevos,
          a + suma (map tareasAsignadas nuevos),
          c + suma (map tareasCompletadas nuevos)) /\
    Forall (fun d => 0 < tareasAsignadas d) nuevos.
Proof.
  induction divs as [|d divs IH]; intros dd a c.
  - exists []. cbn. rewrite app_nil_r, !Z.add_0_r. split; [reflexivity | constructor].
  - cbn [foldM].
    destruct (paso_division_ok filas m dd a c d) as (n1 & -> & H1).
    cbn [mbind outcome_bind].
    destruct (IH (dd ++ n1) (a + suma (map tareasAsignadas n1))
                 (c + suma (map tareasCompletadas n1))) as (n2 & -> & H2).
    exists (n1 ++ n2). split.
    + rewrite !map_app, !suma_app, <- app_assoc. do 2 f_equal; [f_equal|]; lia.
    + apply Forall_app. split; assumption.
Qed.

Lemma desempeno_mensual_returns (filas : list (Tarea * list Entrega))
    (divs : list Division) (m : Municipio) :
  exists u,
    desempeno_mensual filas divs m = Ok u /\
    municipioId u = m_id m /\
    totalTareasAsignadas u = suma (map tareasAsignadas (divisionData u)) /\
    totalTareasCompletadas u = suma (map tareasCompletadas (divisionData u)) /\
    Forall (fun d => 0 < tareasAsignadas d) (divisionData u).
Proof.
  unfold desempeno_mensual.
  destruct (foldM_paso_division filas m divs [] 0 0) as (nuevos & -> & Hall).
  cbn [mbind outcome_bind app]. rewrite !Z.add_0_l.
  destruct (Z.ltb_spec 0 (suma (map tareasAsignadas nuevos))).
  - rewrite js_div_Z_ok by lia. cbn [mbind outcome_bind].
    eexists. split; [reflexivity|]. cbn. repeat split; try reflexivity. exact Hall.
  - cbn [mbind outcome_bind].
    eexists. split; [reflexivity|]. cbn. repeat split; try reflexivity. exact Hall.
Qed.

(** C5. In every monthly report, the totals of a unit are the sums of the
    counts of its divisionData entries, and every entry has tareasAsignadas
    > 0. *)
Theorem monthly_totals_are_sums (tza : Z) (s : Store) (year month : Z) :
  exists r,
    getMonthlyPerformance tza s year month = Ok r /\
    length (municipios r) = length (tabla_municipios s) /\
    Forall (fun u =>
      totalTareasAsignadas u = suma (map tareasAsignadas (divisionData u)) /\
      totalTareasCompletadas u = suma (map tareasCompletadas (divisionData u)) /\
      Forall (fun d => 0 < tareasAsignadas d) (divisionData u)) (municipios r).
Proof.
  unfold getMonthlyPerformance.
  destruct (mapM_Forall2
    (desempeno_mensual
       (Tarea_findAll s (startDate tza year month) (endDate tza year month))
       (Division_findAll_by_nombre s))
    (fun (m : Municipio) u =>
       totalTareasAsignadas u = suma (map tareasAsignadas (divisionData u)) /\
       totalTareasCompletadas u = suma (map tareasCompletadas (divisionData u)) /\
       Forall (fun d => 0 < tareasAsignadas d) (divisionData u)))
    with (l := Municipio_findAll_by_nombre s) as (us & Hus & Hall).
  { intros m. destruct (desempeno_mensual_returns
      (Tarea_findAll s (startDate tza year month) (endDate tza year month))
      (Division_findAll_by_nombre s) m) as (u & Hu & _ & H).
    exists u. split; [exact Hu | exact H]. }
  rewrite Hus. cbn [mbind outcome_bind].
  eexists. split; [reflexivity|]. cbn [municipios]. split.
  - apply Forall2_length in Hall. rewrite <- Hall.
    unfold Municipio_findAll_by_nombre. apply Permutation_length, order_by_Permutation.
  - eapply Forall2_right. exact Hall.
Qed.

Lemma monthly_totals_are_sums_witness :
  exists r,
    getMonthlyPerformance 0 Ejemplos.entrega_doble 1970 1 = Ok r /\
    length (municipios r) = length (tabla_municipios Ejemplos.entrega_doble) /\
    Forall (fun u =>
      totalTareasAsignadas u = suma (map tareasAsignadas (divisionData u)) /\
      totalTareasCompletadas u = suma (map tareasCompletadas (divisionData u)) /\
      Forall (fun d => 0 < tareasAsignadas d) (divisionData u)) (municipios r).
Proof. exact (monthly_totals_are_sums 0 Ejemplos.entrega_doble 1970 1). Defined.

(** The window of the source: it ends 999 ms before the window of the
    specification does. *)
Lemma endDate_windowEnd (tza year month : Z) :
  endDate tza year month = windowEnd tza year month - 999.
Proof.
  unfold endDate, windowEnd, JsDate.Date_local, JsDate.MakeDate, JsDate.MakeTime. lia.
Qed.

Lemma startDate_windowStart (tza year month : Z) :
  startDate tza year month = windowStart tza year month.
Proof. reflexivity. Qed.

(** The tasks of the month, as the source selects them. *)
Lemma monthly_universe (tza : Z) (s : Store) (year month : Z) (t : Tarea) :
  t ∈ map fst (Tarea_findAll s (startDate tza year month) (endDate tza year month))
  <-> t ∈ tabla_tareas s /\
      (windowStart tza year month <= t_fechaInicio t <= windowEnd tza year month - 999
       \/ windowStart tza year month <= t_fechaCulminacion t <= windowEnd tza year month - 999
       \/ (t_fechaInicio t <= windowStart tza year month
           /\ windowEnd tza year month - 999 <= t_fechaCulminacion t)).
Proof.
  unfold Tarea_findAll. rewrite <- endDate_windowEnd.
  change (windowStart tza year month) with (startDate tza year month).
  rewrite map_map. cbn [fst]. rewrite map_id.
  rewrite list_elem_of_filter. unfold date_clause, between.
  rewrite !Is_true_true, !orb_true_iff, !andb_true_iff.
  rewrite !Z.leb_le, Z.geb_leb, Z.leb_le. tauto.
Qed.

(** C6 (failing input). January 2024, UTC: the task starts on 31 January
    at 23:59:59.500, inside the window that ends at 23:59:59.999, and yet
    the report counts no task for the month. *)
Theorem monthly_window_last_second :
  windowStart 0 2024 1 = 1704067200000 /\
  windowEnd 0 2024 1 = 1706745599999 /\
  endDate 0 2024 1 = 1706745599000 /\
  Forall (fun t => windowStart 0 2024 1 <= t_fechaInicio t <= windowEnd 0 2024 1)
         (tabla_tareas Ejemplos.fin_de_enero) /\
  Tarea_findAll Ejemplos.fin_de_enero (startDate 0 2024 1) (endDate 0 2024 1) = [] /\
  getMonthlyPerformance 0 Ejemplos.fin_de_enero 2024 1
  = Ok {| mes := "2024-01";
          municipios :=
            [ {| municipioId := 1; municipioNombre := "Alfa"; divisionData := [];
                 totalTareasAsignadas := 0; totalTareasCompletadas := 0;
                 porcentajeTotal := 0 # 100 |} ] |}.
Proof.
  split; [vm_compute; reflexivity|].
  split; [vm_compute; reflexivity|].
  split; [vm_compute; reflexivity|].
  split; [|split; vm_compute; reflexivity].
  constructor; [|constructor].
  split; vm_compute; discriminate.
Qed.

End MonthlyReport.

(** ** The task lifecycle updater *)

Section LifecycleUpdater.
Import Lifecycle.

Lemma vencida_b (ahora : Z) (t : Tarea) :
  en_proceso_b t && (t_fechaCulminacion t <=? ahora) = true <-> vencida ahora t.
Proof.
  unfold vencida, en_proceso_b. rewrite andb_true_iff, Z.leb_le.
  destruct (t_estado t); split; intros [H1 H2]; split; congruence || assumption.
Qed.

Lemma transicionadas_finalizadas (ahora : Z) (tareas : list Tarea) :
  Forall (fun t => ~ vencida ahora t) tareas -> transicionadas ahora tareas = 0.
Proof.
  unfold transicionadas. induction 1 as [|t tareas Ht _ IH]; [reflexivity|].
  cbn [List.filter].
  destruct (en_proceso_b t && (t_fechaCulminacion t <=? ahora)) eqn:E.
  - apply vencida_b in E. contradiction.
  - exact IH.
Qed.

(** C8 (as stated, refuted). The function returns no value: with one due
    task and with no task at all the returned value is the same, while the
    numbers of transitioned tasks are 1 and 0; so no reading of the
    returned value gives the number of tasks transitioned. *)
Lemma actualizarEstadoTareas_returns_no_count :
  let w1 := {| mundo_tareas := [Ejemplos.tarea_al_limite]; consola := [] |} in
  let w0 := {| mundo_tareas := []; consola := [] |} in
  (actualizarEstadoTareas 2000 w1).1 = (actualizarEstadoTareas 2000 w0).1 /\
  transicionadas 2000 (mundo_tareas w1) = 1 /\
  transicionadas 2000 (mundo_tareas w0) = 0 /\
  ~ (exists cuenta : unit -> Z,
       forall ahora w,
         cuenta (actualizarEstadoTareas ahora w).1 = transicionadas ahora (mundo_tareas w)).
Proof.
  cbv zeta. repeat split.
  intros [cuenta H].
  pose proof (H 2000 {| mundo_tareas := [Ejemplos.tarea_al_limite]; consola := [] |}) as H1.
  pose proof (H 2000 {| mundo_tareas := []; consola := [] |}) as H0.
  cbn in H1, H0. rewrite H1 in H0. discriminate.
Qed.

(** C8 (amended). The current version turns exactly the tasks in progress
    whose deadline is at or before now into finished ones and leaves every
    other task as it is; the number of tasks transitioned is not returned
    (the function returns no value) but written on the console, when it is
    positive; tasks already finished are never due, and a re-run at the same
    or an earlier instant transitions no task and changes nothing. *)
Theorem actualizarEstadoTareas_transitions (ahora : Z) (w : Mundo) :
  let w' := (actualizarEstadoTareas ahora w).2 in
  Forall2 (fun t t' =>
             (vencida ahora t -> t' = finalizar t) /\
             (~ vencida ahora t -> t' = t))
          (mundo_tareas w) (mundo_tareas w') /\
  (actualizarEstadoTareas ahora w).1 = tt /\
  consola w'
  = consola w ++ [HoraActual ahora] ++
    (if 0 <? transicionadas ahora (mundo_tareas w)
     then [Actualizadas (transicionadas ahora (mundo_tareas w))] else []) /\
  transicionadas ahora (mundo_tareas w)
  = Z.of_nat (length (filter (fun tt' => t_estado tt'.1 <> t_estado tt'.2)
                             (zip (mundo_tareas w) (mundo_tareas w')))) /\
  (forall ahora' t, t_estado t = finalizada -> ~ vencida ahora' t) /\
  (forall ahora', ahora' <= ahora ->
     transicionadas ahora' (mundo_tareas w') = 0 /\
     mundo_tareas (actualizarEstadoTareas ahora' w').2 = mundo_tareas w').
Proof.
  cbv zeta. unfold actualizarEstadoTareas, Tarea_update_finalizada.
  cbn [fst snd mundo_tareas consola].
  fold (transicionadas ahora (mundo_tareas w)).
  assert (Hno : forall ahora', ahora' <= ahora ->
            Forall (fun t => ~ vencida ahora' t)
              (map (fun t => if en_proceso_b t && (t_fechaCulminacion t <=? ahora)
                             then finalizar t else t) (mundo_tareas w))).
  { intros ahora' Hle. apply Forall_forall. intros t' Ht'.
    apply list_elem_of_fmap in Ht'. destruct Ht' as (t & -> & _).
    destruct (en_proceso_b t && (t_fechaCulminacion t <=? ahora)) eqn:E.
    - unfold vencida, finalizar. cbn. intros [? _]. discriminate.
    - intros [H1 H2]. assert (Hv : vencida ahora t) by (split; [exact H1 | lia]).
      apply vencida_b in Hv. congruence. }
  split; [|split; [|split; [|split; [|split]]]].
  - clear Hno. induction (mundo_tareas w) as [|t ts IH]; [constructor|].
    cbn [map]. constructor; [|exact IH].
    destruct (en_proceso_b t && (t_fechaCulminacion t <=? ahora)) eqn:E.
    + split; [reflexivity|]. intros Hn. apply vencida_b in E. contradiction.
    + split; [|reflexivity]. intros Hv. apply vencida_b in Hv. congruence.
  - reflexivity.
  - destruct (0 <? transicionadas ahora (mundo_tareas w));
      rewrite <- ?app_assoc; reflexivity.
  - clear Hno. unfold transicionadas. f_equal.
    induction (mundo_tareas w) as [|t ts IH]; [reflexivity|].
    cbn [map zip zip_with List.filter].
    destruct (en_proceso_b t && (t_fechaCulminacion t <=? ahora)) eqn:E.
    + rewrite filter_cons_True.
      * cbn [length]. rewrite IH. reflexivity.
      * cbn. apply vencida_b in E. destruct E as [-> _]. discriminate.
    + rewrite filter_cons_False by (cbn; tauto). exact IH.
  - intros ahora' t Hfin [Hv _]. congruence.
  - intros ahora' Hle. split.
    + apply transicionadas_finalizadas, Hno, Hle.
    + specialize (Hno ahora' Hle).
      induction Hno as [|t ts Ht _ IH]; [reflexivity|].
      cbn [map]. rewrite IH.
      destruct (en_proceso_b t && (t_fechaCulminacion t <=? ahora')) eqn:E;
        [|reflexivity].
      apply vencida_b in E. contradiction.
Qed.

Lemma actualizarEstadoTareas_transitions_witness :
  let w := {| mundo_tareas := [Ejemplos.tarea_al_limite]; consola := [] |} in
  mundo_tareas (actualizarEstadoTareas 2000 w).2 = [finalizar Ejemplos.tarea_al_limite] /\
  consola (actualizarEstadoTareas 2000 w).2 = [HoraActual 2000; Actualizadas 1] /\
  transicionadas 2000 (mundo_tareas (actualizarEstadoTareas 2000 w).2) = 0.
Proof.
  cbv zeta.
  destruct (actualizarEstadoTareas_transitions 2000
              {| mundo_tareas := [Ejemplos.tarea_al_limite]; consola := [] |})
    as (_ & _ & Hc & _ & _ & Hre).
  split; [reflexivity|]. split; [exact Hc|].
  apply (Hre 2000). lia.
Defined.

(** The earlier copy leaves a task whose deadline is exactly now in
    progress; the current one finishes it. *)
Lemma anterior_skips_exact_deadline :
  let w := {| mundo_tareas := [Ejemplos.tarea_al_limite]; consola := [] |} in
  mundo_tareas (Anterior.actualizarEstadoTareas 2000 w).2 = [Ejemplos.tarea_al_limite] /\
  mundo_tareas (actualizarEstadoTareas 2000 w).2 = [finalizar Ejemplos.tarea_al_limite].
Proof. split; reflexivity. Qed.

End LifecycleUpdater.

(** * Further properties of the services *)

(** ** The range of the punctuality score *)

Section PunctualityRange.
Import AdvancedEvaluation EvaluationTotals.

Lemma calcularPuntualidad_hundredths (fechaEntrega fechaInicio fechaLimite : Z) :
  exists k,
    0 <= k <= 10000 /\
    exists q, calcularPuntualidad fechaEntrega fechaInicio fechaLimite = Ok q /\
              (q == centesimas k)%Q.
Proof.
  destruct (Z.le_gt_cases (fechaEntrega - fechaInicio) 0) as [H0|H0].
  - exists 10000. split; [lia|]. exists 100%Q. split; [|reflexivity].
    unfold calcularPuntualidad.
    destruct (Z.leb_spec (fechaEntrega - fechaInicio) 0); [reflexivity | lia].
  - destruct (Z.le_gt_cases (fechaLimite - fechaInicio) (fechaEntrega - fechaInicio))
      as [H1|H1].
    + exists 0. split; [lia|]. exists 0%Q. split; [|reflexivity].
      unfold calcularPuntualidad.
      destruct (Z.leb_spec (fechaEntrega - fechaInicio) 0); [lia|].
      destruct (Z.geb_spec (fechaEntrega - fechaInicio) (fechaLimite - fechaInicio));
        [reflexivity | lia].
    + eexists. split; [|eexists; split;
        [apply calcularPuntualidad_between; lia | unfold round2; reflexivity]].
      apply (Math_round_bounds 0 10000), js_mul_bounds_100.
      apply (porcentaje_puntual_near (fechaEntrega - fechaInicio)
                                     (fechaLimite - fechaInicio)); lia.
Qed.


(** X1. Whatever the three instants, the score of a delivery is the
    binary64 quotient k/100 of a whole number k of hundredths between 0
    and 10000: it lies between 0 and 100, within a relative 2^-53 of
    k/100. *)
Theorem calcularPuntualidad_range (fechaEntrega fechaInicio fechaLimite : Z) :
  exists q k,
    calcularPuntualidad fechaEntrega fechaInicio fechaLimite = Ok q /\
    (q == centesimas k)%Q /\
    0 <= k <= 10000 /\
    (0 <= q <= 100)%Q /\
    (inject_Z k / 100 * (1 - Double.u) <= q <= inject_Z k / 100 * (1 + Double.u))%Q.
Proof.
  destruct (calcularPuntualidad_hundredths fechaEntrega fechaInicio fechaLimite)
    as (k & Hk & q & Hq & Hqk).
  exists q, k. split; [exact Hq|]. split; [exact Hqk|]. split; [exact Hk|].
  rewrite Hqk. split; [apply centesimas_bounds, Hk | apply centesimas_near; lia].
Qed.

End PunctualityRange.

(** ** The date clause and the filters of the evaluation *)

Section Filters.
Import AdvancedEvaluation.

Lemma date_clause_true (desde hasta : Z) (t : Tarea) :
  t_fechaInicio t <= t_fechaCulminacion t -> desde <= hasta ->
  (date_clause desde hasta t = true
   <-> t_fechaInicio t <= hasta /\ desde <= t_fechaCulminacion t).
Proof.
  intros Ht Hr. unfold date_clause, between.
  rewrite !orb_true_iff, !andb_true_iff, !Z.leb_le, Z.geb_leb, Z.leb_le. lia.
Qed.

(** X2. For a task whose deadline is not before its start and a range
    whose end is not before its beginning, the three-way clause selects
    exactly the tasks whose interval meets the range; this is the universe
    of the monthly report and the scope of an evaluation filtered by
    dates. *)
Theorem date_clause_overlap (s : Store) (desde hasta : Z) (t : Tarea) :
  t_fechaInicio t <= t_fechaCulminacion t -> desde <= hasta ->
  (t ∈ map fst (Monthly.Tarea_findAll s desde hasta)
   <-> t ∈ tabla_tareas s /\ t_fechaInicio t <= hasta /\ desde <= t_fechaCulminacion t) /\
  (forall id,
     t ∈ map fst (Tarea_findAll s (Some {| f_fechaInicio := Some desde;
                                           f_fechaFin := Some hasta;
                                           f_divisionId := None |}) id)
     <-> t ∈ tabla_tareas s /\ t_fechaInicio t <= hasta /\ desde <= t_fechaCulminacion t).
Proof.
  intros Ht Hr. split.
  - unfold Monthly.Tarea_findAll. rewrite map_map. cbn [fst]. rewrite map_id.
    rewrite list_elem_of_filter, Is_true_true, (date_clause_true _ _ _ Ht Hr). tauto.
  - intros id. unfold Tarea_findAll. rewrite order_by_Permutation.
    rewrite map_map. cbn [fst]. rewrite map_id.
    rewrite list_elem_of_filter. unfold whereClause. cbn.
    rewrite Is_true_true, (date_clause_true _ _ _ Ht Hr). tauto.
Qed.

Lemma date_clause_overlap_witness :
  Ejemplos.tarea_al_limite ∈ map fst (Monthly.Tarea_findAll Ejemplos.tres_tareas 1500 3000)
  <-> Ejemplos.tarea_al_limite ∈ tabla_tareas Ejemplos.tres_tareas
      /\ t_fechaInicio Ejemplos.tarea_al_limite <= 3000
      /\ 1500 <= t_fechaCulminacion Ejemplos.tarea_al_limite.
Proof.
  apply (proj1 (date_clause_overlap Ejemplos.tres_tareas 1500 3000 Ejemplos.tarea_al_limite
                  ltac:(cbn; lia) ltac:(lia))).
Defined.

Lemma evaluation_same_scope (s : Store) (id : Z) (f1 f2 : option Filtros) :
  (forall t, whereClause f1 t = whereClause f2 t) ->
  getMunicipalityComprehensiveEvaluation s id f1
  = getMunicipalityComprehensiveEvaluation s id f2.
Proof.
  intros H.
  assert (E : Tarea_findAll s f1 id = Tarea_findAll s f2 id).
  { unfold Tarea_findAll. do 2 f_equal. apply list_filter_iff. intros t. rewrite H. tauto. }
  unfold getMunicipalityComprehensiveEvaluation. rewrite E. reflexivity.
Qed.

(** X3. The filters are tested for truthiness: a division id of 0 does
    not restrict the scope, a range with only one end given does not
    restrict it either, and a filter object with no usable field evaluates
    like no filter at all. *)
Theorem filtros_ignored (s : Store) (id : Z) (desde hasta : option Z) (d : option Z)
    (a : Z) :
  getMunicipalityComprehensiveEvaluation s id
    (Some {| f_fechaInicio := desde; f_fechaFin := hasta; f_divisionId := Some 0 |})
  = getMunicipalityComprehensiveEvaluation s id
      (Some {| f_fechaInicio := desde; f_fechaFin := hasta; f_divisionId := None |}) /\
  getMunicipalityComprehensiveEvaluation s id
    (Some {| f_fechaInicio := Some a; f_fechaFin := None; f_divisionId := d |})
  = getMunicipalityComprehensiveEvaluation s id
      (Some {| f_fechaInicio := None; f_fechaFin := None; f_divisionId := d |}) /\
  getMunicipalityComprehensiveEvaluation s id
    (Some {| f_fechaInicio := None; f_fechaFin := Some a; f_divisionId := d |})
  = getMunicipalityComprehensiveEvaluation s id
      (Some {| f_fechaInicio := None; f_fechaFin := None; f_divisionId := d |}) /\
  getMunicipalityComprehensiveEvaluation s id
    (Some {| f_fechaInicio := None; f_fechaFin := None; f_divisionId := None |})
  = getMunicipalityComprehensiveEvaluation s id None.
Proof.
  split; [|split; [|split]]; apply evaluation_same_scope; intros t; reflexivity.
Qed.

End Filters.

(** ** On-time counts and per-task details of the evaluation *)

Section EvaluationDetailsProperties.
Import AdvancedEvaluation EvaluationTotals EvaluationDetails.

Lemma paso_entrega_detalle (tarea : Tarea) (c : Totales) (l : PorTarea) (e : Entrega) :
  exists c' l',
    paso_entrega tarea (c, l) e = Ok (c', l') /\
    c_entregasPuntuales c'
    = c_entregasPuntuales c + (if es_puntual (tarea, e) then 1 else 0) /\
    c_entregasTardias c'
    = c_entregasTardias c + (if es_puntual (tarea, e) then 0 else 1) /\
    c_detallesTareas c' = c_detallesTareas c /\
    puntualidadTarea l' = js_add (puntualidadTarea l) (puntaje tarea e) /\
    calidadTarea l'
    = suma_desde (calidadTarea l) (map inject_Z (option_list (e_calificacion e))) /\
    l_primeraEntrega l' = primera_desde (l_primeraEntrega l) [e_fechaHoraEntrega e] /\
    calificacionesCount l'
    = calificacionesCount l + Z.of_nat (length (option_list (e_calificacion e))).
Proof.
  unfold paso_entrega. rewrite calcularPuntualidad_puntaje. cbn [mbind outcome_bind].
  do 2 eexists. split; [reflexivity|]. cbn.
  destruct (e_calificacion e); cbn; rewrite ?Z.add_0_r; repeat split; reflexivity.
Qed.

Lemma foldM_paso_entrega_detalle (tarea : Tarea) (es : list Entrega) :
  forall (c : Totales) (l : PorTarea),
  exists c' l',
    foldM (paso_entrega tarea) es (c, l) = Ok (c', l') /\
    c_entregasPuntuales c'
    = c_entregasPuntuales c
      + Z.of_nat (length (List.filter es_puntual (map (pair tarea) es))) /\
    c_entregasTardias c'
    = c_entregasTardias c
      + Z.of_nat (length (List.filter (fun par => negb (es_puntual par))
                                      (map (pair tarea) es))) /\
    c_detallesTareas c' = c_detallesTareas c /\
    puntualidadTarea l' = suma_desde (puntualidadTarea l) (map (puntaje tarea) es) /\
    calidadTarea l'
    = suma_desde (calidadTarea l) (map inject_Z (omap e_calificacion es)) /\
    l_primeraEntrega l' = primera_desde (l_primeraEntrega l) (map e_fechaHoraEntrega es) /\
    calificacionesCount l'
    = calificacionesCount l + Z.of_nat (length (omap e_calificacion es)).
Proof.
  induction es as [|e es IH]; intros c l.
  - exists c, l. cbn. rewrite !Z.add_0_r. repeat split; reflexivity.
  - cbn [foldM].
    destruct (paso_entrega_detalle tarea c l e)
      as (c1 & l1 & -> & E1 & E2 & E3 & E4 & E5 & E6 & E7).
    cbn [mbind outcome_bind].
    destruct (IH c1 l1) as (c' & l' & -> & H1 & H2 & H3 & H4 & H5 & H6 & H7).
    exists c', l'. split; [reflexivity|].
    rewrite H1, H2, H3, H4, H5, H6, H7, E1, E2, E3, E4, E5, E6, E7.
    cbn [map omap list_omap List.filter].
    destruct (es_puntual (tarea, e)); destruct (e_calificacion e) as [n|];
      cbv [option_list option_rect]; cbn [negb map length suma_desde fold_left primera_desde];
      repeat split; try reflexivity; lia.
Qed.

Lemma paso_tarea_detalle (c : Totales) (fila : Tarea * list Entrega) :
  exists c',
    paso_tarea c fila = Ok c' /\
    c_entregasPuntuales c'
    = c_entregasPuntuales c
      + Z.of_nat (length (List.filter es_puntual (map (pair fila.1) fila.2))) /\
    c_entregasTardias c'
    = c_entregasTardias c
      + Z.of_nat (length (List.filter (fun par => negb (es_puntual par))
                                      (map (pair fila.1) fila.2))) /\
    c_detallesTareas c' = c_detallesTareas c ++ [detalle fila].
Proof.
  destruct fila as [tarea es]. unfold paso_tarea. cbn [fst snd].
  match goal with |- context [foldM _ es (?c1, ?l1)] =>
    destruct (foldM_paso_entrega_detalle tarea es c1 l1)
      as (c2 & l2 & -> & H1 & H2 & H3 & H4 & H5 & H6 & H7) end.
  cbn [mbind outcome_bind].
  cbn [puntualidadTarea calidadTarea l_primeraEntrega calificacionesCount] in H4, H5, H6, H7.
  rewrite Z.add_0_l in H7.
  assert (Hpun : c_entregasPuntuales
                   (if 0 <? Z.of_nat (length es)
                    then {| c_tareasCompletadas := c_tareasCompletadas c + 1;
                            c_entregasPuntuales := c_entregasPuntuales c;
                            c_entregasTardias := c_entregasTardias c;
                            c_totalEntregas := c_totalEntregas c + Z.of_nat (length es);
                            c_sumaPuntualidad := c_sumaPuntualidad c;
                            c_sumaCalidad := c_sumaCalidad c;
                            c_entregasCalificadas := c_entregasCalificadas c;
                            c_detallesTareas := c_detallesTareas c |}
                    else c) = c_entregasPuntuales c)
    by (destruct (0 <? Z.of_nat (length es)); reflexivity).
  assert (Htar : c_entregasTardias
                   (if 0 <? Z.of_nat (length es)
                    then {| c_tareasCompletadas := c_tareasCompletadas c + 1;
                            c_entregasPuntuales := c_entregasPuntuales c;
                            c_entregasTardias := c_entregasTardias c;
                            c_totalEntregas := c_totalEntregas c + Z.of_nat (length es);
                            c_sumaPuntualidad := c_sumaPuntualidad c;
                            c_sumaCalidad := c_sumaCalidad c;
                            c_entregasCalificadas := c_entregasCalificadas c;
                            c_detallesTareas := c_detallesTareas c |}
                    else c) = c_entregasTardias c)
    by (destruct (0 <? Z.of_nat (length es)); reflexivity).
  assert (Hdet : c_detallesTareas
                   (if 0 <? Z.of_nat (length es)
                    then {| c_tareasCompletadas := c_tareasCompletadas c + 1;
                            c_entregasPuntuales := c_entregasPuntuales c;
                            c_entregasTardias := c_entregasTardias c;
                            c_totalEntregas := c_totalEntregas c + Z.of_nat (length es);
                            c_sumaPuntualidad := c_sumaPuntualidad c;
                            c_sumaCalidad := c_sumaCalidad c;
                            c_entregasCalificadas := c_entregasCalificadas c;
                            c_detallesTareas := c_detallesTareas c |}
                    else c) = c_detallesTareas c)
    by (destruct (0 <? Z.of_nat (length es)); reflexivity).
  rewrite Hpun in H1. rewrite Htar in H2. rewrite Hdet in H3.
  unfold detalle, round2, media. cbn [fst snd].
  rewrite !length_map, H7.
  destruct (Z.ltb_spec 0 (Z.of_nat (length es))) as [Hpos|Hzero].
  - rewrite (js_div_Z_ok _ (Z.of_nat (length es))) by lia. cbn [mbind outcome_bind].
    destruct (Z.ltb_spec 0 (Z.of_nat (length (omap e_calificacion es)))) as [Hq|Hq].
    + rewrite js_div_Z_ok by lia. cbn [mbind outcome_bind].
      eexists. split; [reflexivity|].
      cbn [c_entregasPuntuales c_entregasTardias c_detallesTareas].
      rewrite H1, H2, H3, H4, H5, H6. repeat split; reflexivity.
    + cbn [mbind outcome_bind].
      eexists. split; [reflexivity|].
      cbn [c_entregasPuntuales c_entregasTardias c_detallesTareas].
      rewrite H1, H2, H3, H4, H5, H6.
      assert (Hnil : omap e_calificacion es = [])
        by (destruct (omap e_calificacion es); [reflexivity | cbn in Hq; lia]).
      rewrite Hnil. repeat split; reflexivity.
  - cbn [mbind outcome_bind].
    eexists. split; [reflexivity|].
    cbn [c_entregasPuntuales c_entregasTardias c_detallesTareas].
    rewrite H1, H2, H3, H4, H5, H6.
    assert (Hnil : es = []) by (destruct es; [reflexivity | cbn in Hzero; lia]).
    rewrite Hnil. repeat split; reflexivity.
Qed.

Lemma foldM_paso_tarea_detalle (filas : list (Tarea * list Entrega)) :
  forall c : Totales,
  exists c',
    foldM paso_tarea filas c = Ok c' /\
    c_entregasPuntuales c' = c_entregasPuntuales c + n_puntuales filas /\
    c_entregasTardias c' = c_entregasTardias c + n_tardias filas /\
    c_detallesTareas c' = c_detallesTareas c ++ map detalle filas.
Proof.
  unfold n_puntuales, n_tardias, entregas_evaluadas.
  induction filas as [|fila filas IH]; intros c.
  - exists c. cbn. rewrite !Z.add_0_r, app_nil_r. repeat split; reflexivity.
  - cbn [foldM].
    destruct (paso_tarea_detalle c fila) as (c1 & -> & E1 & E2 & E3).
    cbn [mbind outcome_bind].
    destruct (IH c1) as (c' & -> & H1 & H2 & H3).
    exists c'. split; [reflexivity|].
    rewrite H1, H2, H3, E1, E2, E3.
    cbn [flat_map map]. rewrite !List.filter_app, !length_app, <- app_assoc.
    repeat split; try reflexivity; lia.
Qed.

Lemma evaluation_details_returns (s : Store) (id : Z) (filtros : option Filtros)
    (m : Municipio) :
  Municipio_findByPk s id = Some m ->
  exists ev,
    getMunicipalityComprehensiveEvaluation s id filtros = Ok ev /\
    municipioId ev = id /\
    municipioNombre ev = m_nombre m /\
    entregasPuntuales ev = n_puntuales (Tarea_findAll s filtros id) /\
    entregasTardias ev = n_tardias (Tarea_findAll s filtros id) /\
    detallesTareas ev = map detalle (Tarea_findAll s filtros id).
Proof.
  intros Hm. unfold getMunicipalityComprehensiveEvaluation. rewrite Hm.
  set (filas := Tarea_findAll s filtros id).
  destruct (foldM_paso_tarea_detalle filas sin_contar) as (c & -> & H1 & H2 & H3).
  cbn [mbind outcome_bind].
  rewrite !porcentaje_guardado, !cociente_guardado. cbn [mbind outcome_bind].
  eexists. split; [reflexivity|].
  cbn [municipioId municipioNombre entregasPuntuales entregasTardias detallesTareas].
  rewrite H1, H2, H3. repeat split; reflexivity.
Qed.

Lemma filter_negb_length {A : Type} (f : A -> bool) (l : list A) :
  (length (List.filter f l) + length (List.filter (fun x => negb (f x)) l))%nat = length l.
Proof.
  induction l as [|x l IH]; [reflexivity|].
  cbn [List.filter]. destruct (f x); cbn [negb length]; lia.
Qed.

(** X4. A delivery counts as on time exactly when it is handed in at or
    before the deadline of its task, the deadline instant included, and as
    late otherwise; every delivery in scope is one or the other. *)
Theorem entregas_puntuales_tardias
    (s : Store) (id : Z) (filtros : option Filtros) (m : Municipio) :
  Municipio_findByPk s id = Some m ->
  exists ev,
    getMunicipalityComprehensiveEvaluation s id filtros = Ok ev /\
    entregasPuntuales ev
    = Z.of_nat (length (filter (fun par => e_fechaHoraEntrega par.2 <= t_fechaCulminacion par.1)
                               (entregas_evaluadas (Tarea_findAll s filtros id)))) /\
    entregasTardias ev
    = Z.of_nat (length (filter (fun par => t_fechaCulminacion par.1 < e_fechaHoraEntrega par.2)
                               (entregas_evaluadas (Tarea_findAll s filtros id)))) /\
    entregasPuntuales ev + entregasTardias ev = totalEntregas ev.
Proof.
  intros Hm.
  destruct (evaluation_details_returns s id filtros m Hm)
    as (ev & Hev & _ & _ & Hp & Ht & _).
  destruct (evaluation_returns s id filtros m Hm)
    as (ev' & Hev' & _ & _ & Htot & _).
  rewrite Hev in Hev'. injection Hev' as <-.
  exists ev. split; [exact Hev|].
  assert (E1 : forall l : list (Tarea * Entrega),
            List.filter es_puntual l
            = filter (fun par => e_fechaHoraEntrega par.2 <= t_fechaCulminacion par.1) l).
  { induction l as [|par l IH]; [reflexivity|].
    cbn [List.filter]. unfold es_puntual at 1.
    destruct (Z.leb_spec (e_fechaHoraEntrega par.2) (t_fechaCulminacion par.1)).
    - rewrite filter_cons_True by assumption. rewrite IH. reflexivity.
    - rewrite filter_cons_False by lia. exact IH. }
  assert (E2 : forall l : list (Tarea * Entrega),
            List.filter (fun par => negb (es_puntual par)) l
            = filter (fun par => t_fechaCulminacion par.1 < e_fechaHoraEntrega par.2) l).
  { induction l as [|par l IH]; [reflexivity|].
    cbn [List.filter]. unfold es_puntual at 1.
    destruct (Z.leb_spec (e_fechaHoraEntrega par.2) (t_fechaCulminacion par.1));
      cbn [negb].
    - rewrite filter_cons_False by lia. exact IH.
    - rewrite filter_cons_True by assumption. rewrite IH. reflexivity. }
  split; [rewrite Hp; unfold n_puntuales; rewrite E1; reflexivity|].
  split; [rewrite Ht; unfold n_tardias; rewrite E2; reflexivity|].
  rewrite Hp, Ht, Htot. unfold n_puntuales, n_tardias, n_entregas.
  rewrite <- Nat2Z.inj_add, filter_negb_length. reflexivity.
Qed.

Lemma entregas_puntuales_tardias_witness :
  exists ev,
    getMunicipalityComprehensiveEvaluation Ejemplos.entrega_doble 1 None = Ok ev /\
    entregasPuntuales ev
    = Z.of_nat (length (filter (fun par => e_fechaHoraEntrega par.2 <= t_fechaCulminacion par.1)
                               (entregas_evaluadas
                                  (Tarea_findAll Ejemplos.entrega_doble None 1)))) /\
    entregasTardias ev
    = Z.of_nat (length (filter (fun par => t_fechaCulminacion par.1 < e_fechaHoraEntrega par.2)
                               (entregas_evaluadas
                                  (Tarea_findAll Ejemplos.entrega_doble None 1)))) /\
    entregasPuntuales ev + entregasTardias ev = totalEntregas ev.
Proof.
  apply (entregas_puntuales_tardias Ejemplos.entrega_doble 1 None
           {| m_id := 1; m_nombre := "Alfa" |}).
  reflexivity.
Defined.

Lemma primera_desde_Some (ts : list Z) :
  forall p, exists m,
    primera_desde (Some p) ts = Some m /\
    m <= p /\ (m = p \/ m ∈ ts) /\ (forall t, t ∈ ts -> m <= t).
Proof.
  induction ts as [|t ts IH]; intros p.
  - exists p. cbn. split; [reflexivity|]. split; [lia|]. split; [left; reflexivity|].
    intros t Ht. inversion Ht.
  - cbn [primera_desde fold_left]. destruct (Z.ltb_spec t p) as [Hlt|Hge].
    + destruct (IH t) as (m & Hm & Hle & Hin & Hall). exists m.
      split; [exact Hm|]. split; [lia|]. split.
      * right. destruct Hin as [-> | Hin]; [left | right; exact Hin].
      * intros t' Ht'. apply elem_of_cons in Ht'. destruct Ht' as [-> | Ht'];
          [exact Hle | apply Hall, Ht'].
    + destruct (IH p) as (m & Hm & Hle & Hin & Hall). exists m.
      split; [exact Hm|]. split; [exact Hle|]. split.
      * destruct Hin as [-> | Hin]; [left; reflexivity | right; right; exact Hin].
      * intros t' Ht'. apply elem_of_cons in Ht'. destruct Ht' as [-> | Ht'];
          [lia | apply Hall, Ht'].
Qed.

Lemma primera_desde_None (ts : list Z) :
  match primera_desde None ts with
  | None => ts = []
  | Some m => m ∈ ts /\ forall t, t ∈ ts -> m <= t
  end.
Proof.
  destruct ts as [|t ts]; [reflexivity|].
  cbn [primera_desde fold_left].
  destruct (primera_desde_Some ts t) as (m & Hm & Hle & Hin & Hall).
  unfold primera_desde in Hm. rewrite Hm. split.
  - destruct Hin as [-> | Hin]; [left | right; exact Hin].
  - intros t' Ht'. apply elem_of_cons in Ht'. destruct Ht' as [-> | Ht'];
      [exact Hle | apply Hall, Ht'].
Qed.

(** X5. The evaluation carries one detail record per task in scope, in the
    order of the scope: it names the task and its deadline, counts the
    deliveries of the unit on it, is marked delivered exactly when there is
    one, and its first delivery is the earliest of them (absent exactly when
    there is none). *)
Theorem detallesTareas_per_task
    (s : Store) (id : Z) (filtros : option Filtros) (m : Municipio) :
  Municipio_findByPk s id = Some m ->
  exists ev,
    getMunicipalityComprehensiveEvaluation s id filtros = Ok ev /\
    Forall2 (fun fila d =>
      tareaId d = t_id fila.1 /\
      tareaNombre d = t_nombre fila.1 /\
      fechaLimite d = t_fechaCulminacion fila.1 /\
      cantidadEntregas d = Z.of_nat (length fila.2) /\
      (entregado d = true <-> fila.2 <> []) /\
      (primeraEntrega d = None <-> fila.2 = []) /\
      (forall t, primeraEntrega d = Some t ->
         (exists e, e ∈ fila.2 /\ e_fechaHoraEntrega e = t) /\
         (forall e, e ∈ fila.2 -> t <= e_fechaHoraEntrega e)))
      (Tarea_findAll s filtros id) (detallesTareas ev).
Proof.
  intros Hm.
  destruct (evaluation_details_returns s id filtros m Hm)
    as (ev & Hev & _ & _ & _ & _ & Hd).
  exists ev. split; [exact Hev|]. rewrite Hd. clear Hd Hev.
  induction (Tarea_findAll s filtros id) as [|fila filas IH]; [constructor|].
  cbn [map]. constructor; [|exact IH]. clear IH.
  unfold detalle. cbn [tareaId tareaNombre fechaLimite cantidadEntregas entregado
                       primeraEntrega].
  repeat split; try reflexivity.
  - intros H Hnil. rewrite Hnil in H. discriminate.
  - intros H. destruct fila.2; [contradiction | reflexivity].
  - intros H. pose proof (primera_desde_None (map e_fechaHoraEntrega fila.2)) as Hp.
    rewrite H in Hp. destruct fila.2; [reflexivity | discriminate].
  - intros ->. reflexivity.
  - pose proof (primera_desde_None (map e_fechaHoraEntrega fila.2)) as Hp.
    rewrite H in Hp. destruct Hp as [Hin _].
    apply list_elem_of_fmap in Hin. destruct Hin as (e & -> & He). exists e. tauto.
  - intros e He. pose proof (primera_desde_None (map e_fechaHoraEntrega fila.2)) as Hp.
    rewrite H in Hp. destruct Hp as [_ Hall]. apply Hall.
    apply list_elem_of_fmap. exists e. tauto.
Qed.

Lemma detallesTareas_per_task_witness :
  exists ev,
    getMunicipalityComprehensiveEvaluation Ejemplos.entrega_doble 1 None = Ok ev /\
    Forall2 (fun fila d =>
      tareaId d = t_id fila.1 /\
      tareaNombre d = t_nombre fila.1 /\
      fechaLimite d = t_fechaCulminacion fila.1 /\
      cantidadEntregas d = Z.of_nat (length fila.2) /\
      (entregado d = true <-> fila.2 <> []) /\
      (primeraEntrega d = None <-> fila.2 = []) /\
      (forall t, primeraEntrega d = Some t ->
         (exists e, e ∈ fila.2 /\ e_fechaHoraEntrega e = t) /\
         (forall e, e ∈ fila.2 -> t <= e_fechaHoraEntrega e)))
      (Tarea_findAll Ejemplos.entrega_doble None 1) (detallesTareas ev).
Proof.
  apply (detallesTareas_per_task Ejemplos.entrega_doble 1 None
           {| m_id := 1; m_nombre := "Alfa" |}).
  reflexivity.
Defined.

End EvaluationDetailsProperties.

(** ** Bounds of the metrics of the evaluation *)

Section EvaluationBounds.
Import AdvancedEvaluation EvaluationTotals EvaluationDetails.

Lemma inject_Z_of_nat_succ (n : nat) :
  (inject_Z (Z.of_nat (S n)) == inject_Z (Z.of_nat n) + 1)%Q.
Proof. rewrite Nat2Z.inj_succ. unfold Z.succ. rewrite inject_Z_plus. reflexivity. Qed.


(** A running sum of numbers between 0 and [m] stays below the number of
    terms times [m] as long as that bound is an integer that binary64
    holds exactly. *)
Lemma suma_desde_bounds (m : Z) (l : list Q) :
  0 <= m ->
  Forall (fun x => (0 <= x <= inject_Z m)%Q) l ->
  forall (k : Z) (a : Q),
    0 <= k -> k + m * Z.of_nat (length l) < 2 ^ 53 ->
    (0 <= a <= inject_Z k)%Q ->
    (0 <= suma_desde a l <= inject_Z (k + m * Z.of_nat (length l)))%Q.
Proof.
  intros Hm. induction 1 as [|x l Hx _ IH]; intros k a Hk Hsize Ha.
  - cbn [suma_desde fold_left length]. rewrite Z.mul_0_r, Z.add_0_r. exact Ha.
  - cbn [suma_desde fold_left]. cbn [length] in *.
    assert (Hn : 0 <= m * Z.of_nat (length l)) by lia.
    replace (k + m * Z.of_nat (S (length l))) with ((k + m) + m * Z.of_nat (length l)) in *
      by lia.
    apply (IH (k + m)); [lia | exact Hsize |].
    unfold js_add. change 0%Q with (inject_Z 0).
    apply fl_bounds; [lia | lia |].
    rewrite inject_Z_plus. change (inject_Z 0) with 0%Q. lra.
Qed.

Lemma cociente_bounds (a M : Q) (n : Z) :
  0 < n -> (0 <= a <= M * inject_Z n)%Q -> (0 <= a / inject_Z n <= M)%Q.
Proof.
  intros Hn [H0 H1].
  assert (Hpos : (0 < inject_Z n)%Q) by (unfold Qlt; simpl; lia).
  split.
  - apply Qle_shift_div_l; [exact Hpos | lra].
  - apply Qle_shift_div_r; [exact Hpos | exact H1].
Qed.


Lemma js_quot_bounds (a : Q) (m n : Z) :
  0 <= m < 2 ^ 53 -> 0 < n -> (0 <= a <= inject_Z (m * n))%Q ->
  (0 <= js_quot a (inject_Z n) <= inject_Z m)%Q.
Proof.
  intros Hm Hn Ha. rewrite inject_Z_mult in Ha.
  pose proof (cociente_bounds a (inject_Z m) n Hn Ha) as Hq.
  unfold js_quot. change 0%Q with (inject_Z 0).
  apply fl_bounds; [lia | lia | exact Hq].
Qed.

(** The mean of the list, as the per-task details compute it. *)
Lemma media_bounds (m : Z) (l : list Q) :
  0 <= m -> m * Z.of_nat (length l) < 2 ^ 53 ->
  Forall (fun x => (0 <= x <= inject_Z m)%Q) l -> (0 <= media l <= inject_Z m)%Q.
Proof.
  intros Hm Hsize Hl. unfold media.
  destruct (Z.ltb_spec 0 (Z.of_nat (length l))) as [Hpos|Hzero].
  - apply js_quot_bounds; [nia | exact Hpos |].
    pose proof (suma_desde_bounds m l Hm Hl 0 0%Q) as Hs.
    rewrite Z.add_0_l in Hs. apply Hs; [lia | exact Hsize | split; apply Qle_refl].
  - split; [lra|]. change 0%Q with (inject_Z 0). rewrite <- Zle_Qle. exact Hm.
Qed.






















End EvaluationBounds.

(** ** The final score and the weighted sum of the returned metrics *)

Section FinalScore.
Import AdvancedEvaluation EvaluationTotals.









End FinalScore.

(** ** Sorting *)

Section Sorting.

Lemma insert_by_HdRel {A : Type} (le : A -> A -> bool) (a x : A) (l : list A) :
  le a x = true -> HdRel (fun u v => le u v = true) a l ->
  HdRel (fun u v => le u v = true) a (insert_by le x l).
Proof.
  intros Hax Hal. destruct l as [|y l]; cbn [insert_by]; [constructor; exact Hax|].
  destruct (le x y); constructor; [exact Hax|].
  inversion Hal; assumption.
Qed.

Lemma insert_by_Sorted {A : Type} (le : A -> A -> bool) (x : A) (l : list A) :
  (forall u v, le u v = false -> le v u = true) ->
  Sorted (fun u v => le u v = true) l ->
  Sorted (fun u v => le u v = true) (insert_by le x l).
Proof.
  intros Htotal. induction 1 as [|y l Hl IH Hhd]; cbn [insert_by].
  - repeat constructor.
  - destruct (le x y) eqn:E.
    + constructor; [constructor; assumption | constructor; exact E].
    + constructor; [exact IH|]. apply insert_by_HdRel; [apply Htotal, E | exact Hhd].
Qed.

(** [ORDER BY] and [Array.prototype.sort] return their rows in order, for
    an order in which any two rows compare one way or the other. *)
Lemma order_by_Sorted {A : Type} (le : A -> A -> bool) (l : list A) :
  (forall u v, le u v = false -> le v u = true) ->
  Sorted (fun u v => le u v = true) (order_by le l).
Proof.
  intros Htotal. induction l as [|x l IH]; cbn; [constructor|].
  apply insert_by_Sorted; assumption.
Qed.


Lemma Sorted_map {A B : Type} (f : A -> B) (R : B -> B -> Prop) (l : list A) :
  Sorted (fun u v => R (f u) (f v)) l -> Sorted R (map f l).
Proof.
  induction 1 as [|x l Hl IH Hhd]; cbn; constructor; [exact IH|].
  destruct Hhd; cbn; constructor; assumption.
Qed.

Lemma Sorted_impl {A : Type} (R S : A -> A -> Prop) (l : list A) :
  (forall u v, R u v -> S u v) -> Sorted R l -> Sorted S l.
Proof.
  intros HRS. induction 1 as [|x l Hl IH Hhd]; constructor; [exact IH|].
  destruct Hhd; constructor; auto.
Qed.

End Sorting.

(** ** The evaluation of all units and the rankings *)

Section Rankings.
Import AdvancedEvaluation EvaluationTotals Ranking.

Lemma mapM_Forall2_in {A B : Type} (f : A -> outcome B) (P : A -> B -> Prop) (l : list A) :
  (forall x, x ∈ l -> exists y, f x = Ok y /\ P x y) ->
  exists ys, mapM f l = Ok ys /\ Forall2 P l ys.
Proof.
  induction l as [|x l IH]; intros Hf.
  - exists []. split; [reflexivity | constructor].
  - cbn [mapM]. destruct (Hf x) as (y & -> & Hy); [left|].
    destruct IH as (ys & -> & Hys); [intros x' Hx'; apply Hf; right; exact Hx'|].
    exists (y :: ys). split; [reflexivity | constructor; assumption].
Qed.

Lemma Municipio_findByPk_listed (s : Store) (m : Municipio) :
  m ∈ tabla_municipios s -> exists m', Municipio_findByPk s (m_id m) = Some m'.
Proof.
  intros Hm. destruct (Municipio_findByPk s (m_id m)) as [m'|] eqn:E; [eauto|].
  exfalso. exact (proj1 (Municipio_findByPk_None s (m_id m)) E m Hm eq_refl).
Qed.

(** The sign of a binary64 difference is the sign of the exact one. *)
Lemma js_sub_le_0 (x y : Q) : Qle_bool (js_sub y x) 0 = true <-> (y <= x)%Q.
Proof.
  rewrite Qle_bool_iff. unfold js_sub. rewrite fl_le_0. split; intros H; lra.
Qed.

Lemma Qle_bool_total (x y : Q) :
  Qle_bool (js_sub y x) 0 = false -> Qle_bool (js_sub x y) 0 = true.
Proof.
  intros H. apply js_sub_le_0.
  destruct (Qlt_le_dec x y) as [Hlt|Hle]; [lra|].
  apply js_sub_le_0 in Hle. congruence.
Qed.

Lemma Array_sort_descending {A : Type} (key : A -> Q) (l : list A) :
  StronglySorted (fun a b => (key b <= key a)%Q)
                 (Array_sort (fun a b => js_sub (key b) (key a)) l).
Proof.
  apply Sorted_StronglySorted.
  - intros a b c Hab Hbc. eapply Qle_trans; eassumption.
  - eapply Sorted_impl; [|apply order_by_Sorted].
    + intros u v H. cbn beta in H. apply js_sub_le_0 in H. exact H.
    + intros u v. apply Qle_bool_total.
Qed.

Lemma getAll_returns (s : Store) (filtros : option Filtros) :
  exists evs porUnidad,
    getAllMunicipalitiesComprehensiveEvaluation s filtros = Ok evs /\
    Forall2 (fun m ev =>
               getMunicipalityComprehensiveEvaluation s (m_id m) filtros = Ok ev /\
               municipioId ev = m_id m)
            (Municipio_findAll_by_nombre s) porUnidad /\
    evs ≡ₚ porUnidad /\
    length evs = length (tabla_municipios s) /\
    StronglySorted (fun a b => (puntuacionFinal b <= puntuacionFinal a)%Q) evs.
Proof.
  unfold getAllMunicipalitiesComprehensiveEvaluation.
  destruct (mapM_Forall2_in
              (fun municipio =>
                 getMunicipalityComprehensiveEvaluation s (m_id municipio) filtros)
              (fun m ev =>
                 getMunicipalityComprehensiveEvaluation s (m_id m) filtros = Ok ev /\
                 municipioId ev = m_id m)
              (Municipio_findAll_by_nombre s)) as (ys & Hys & Hall).
  { intros m Hm. unfold Municipio_findAll_by_nombre in Hm.
    rewrite order_by_Permutation in Hm.
    destruct (Municipio_findByPk_listed s m Hm) as [m' Hm'].
    destruct (evaluation_details_returns s (m_id m) filtros m' Hm') as (ev & Hev & Hid & _).
    exists ev. split; [exact Hev|]. split; [exact Hev | exact Hid]. }
  rewrite Hys. cbn [mbind outcome_bind].
  eexists. exists ys. split; [reflexivity|]. split; [exact Hall|].
  split; [apply order_by_Permutation|]. split.
  - unfold Array_sort. rewrite (Permutation_length (order_by_Permutation _ _)).
    apply Forall2_length in Hall. rewrite <- Hall.
    unfold Municipio_findAll_by_nombre. apply Permutation_length, order_by_Permutation.
  - apply Array_sort_descending.
Qed.

(** X8. The evaluation of all units never throws: it returns one
    evaluation per unit of the store, each the evaluation of that unit under
    the same filter, arranged by final score from the highest to the
    lowest. *)
Theorem getAll_one_per_unit_sorted (s : Store) (filtros : option Filtros) :
  exists evs porUnidad,
    getAllMunicipalitiesComprehensiveEvaluation s filtros = Ok evs /\
    Forall2 (fun m ev =>
               getMunicipalityComprehensiveEvaluation s (m_id m) filtros = Ok ev /\
               municipioId ev = m_id m)
            (Municipio_findAll_by_nombre s) porUnidad /\
    evs ≡ₚ porUnidad /\
    length evs = length (tabla_municipios s) /\
    StronglySorted (fun a b => (puntuacionFinal b <= puntuacionFinal a)%Q) evs.
Proof. exact (getAll_returns s filtros). Qed.









End Rankings.

(** ** Order and colours of the coverage report *)

Section CoverageOrder.
Import Performance.

Lemma coverage_report_units (generateColor : nat -> string) (s : Store) :
  exists report,
    getMunicipalityPerformanceData generateColor s = Ok report /\
    Forall2 (fun m u => municipioId u = m_id m /\ municipioNombre u = m_nombre m)
            (Municipio_findAll_by_nombre s) report.
Proof.
  unfold getMunicipalityPerformanceData. apply for_indexed_Forall2. intros i m.
  destruct (desempeno_returns generateColor s i m) as (u & Hu & Hid & _).
  exists u. split; [exact Hu|]. split; [exact Hid|].
  unfold desempeno in Hu.
  destruct (fold_left paso_actividad _ _) as [ids acts].
  destruct (if 0 <? _ then _ else _) as [q| |]; cbn [mbind outcome_bind] in Hu;
    try discriminate.
  injection Hu as <-. reflexivity.
Qed.

Lemma for_indexed_lookup {A B : Type} (f : nat -> A -> outcome B) (l : list A) :
  forall i ys,
    for_indexed f i l = Ok ys ->
    length ys = length l /\
    forall k x, l !! k = Some x -> exists y, ys !! k = Some y /\ f (i + k)%nat x = Ok y.
Proof.
  induction l as [|x l IH]; intros i ys H.
  - cbn in H. injection H as <-. split; [reflexivity|]. intros k x Hk. discriminate.
  - cbn [for_indexed] in H.
    destruct (f i x) as [y| |] eqn:Hy; cbn [mbind outcome_bind] in H; try discriminate.
    destruct (for_indexed f (S i) l) as [ys'| |] eqn:Hys;
      cbn [mbind outcome_bind] in H; try discriminate.
    injection H as <-. destruct (IH (S i) ys' Hys) as [Hlen Hlook].
    split; [cbn; lia|].
    intros [|k] x' Hk; cbn in Hk.
    + injection Hk as <-. exists y. rewrite Nat.add_0_r. split; [reflexivity | exact Hy].
    + destruct (Hlook k x' Hk) as (y' & Hy1 & Hy2). exists y'.
      split; [exact Hy1|]. rewrite <- Hy2. f_equal. lia.
Qed.

Lemma String_leb_total (a b : string) : String.leb a b = false -> String.leb b a = true.
Proof. intros H. destruct (String.leb_total a b) as [H'|H']; congruence. Qed.

Lemma coverage_report_color_at (generateColor : nat -> string) (s : Store)
    (report : list MunicipalityPerformance) :
  getMunicipalityPerformanceData generateColor s = Ok report ->
  forall k u, report !! k = Some u -> color u = generateColor k.
Proof.
  intros Hrep k u Hk. unfold getMunicipalityPerformanceData in Hrep.
  destruct (for_indexed_lookup _ _ _ _ Hrep) as [Hlen Hlook].
  destruct (Municipio_findAll_by_nombre s !! k) as [m|] eqn:Hm.
  - destruct (Hlook k m Hm) as (u' & Hu' & Hf). rewrite Hk in Hu'. injection Hu' as <-.
    cbn [Nat.add] in Hf. unfold desempeno in Hf.
    destruct (fold_left paso_actividad _ _) as [ids acts].
    destruct (if 0 <? _ then _ else _) as [q| |]; cbn [mbind outcome_bind] in Hf;
      try discriminate.
    injection Hf as <-. reflexivity.
  - apply lookup_ge_None in Hm. apply lookup_lt_Some in Hk. lia.
Qed.

(** X11. The coverage report lists the units of the store by name in
    ascending order, one entry per unit, and the entry at position k
    (counting from 0) carries the colour that generateColor gives for k. *)
Theorem coverage_report_order (generateColor : nat -> string) (s : Store) :
  exists report,
    getMunicipalityPerformanceData generateColor s = Ok report /\
    map (fun u => (municipioId u, municipioNombre u)) report
    ≡ₚ map (fun m => (m_id m, m_nombre m)) (tabla_municipios s) /\
    Sorted (fun a b => String.leb a b = true) (map municipioNombre report) /\
    (forall k u, report !! k = Some u -> color u = generateColor k).
Proof.
  destruct (coverage_report_units generateColor s) as (report & Hrep & Hall).
  exists report. split; [exact Hrep|].
  assert (Hnames : map (fun u => (municipioId u, municipioNombre u)) report
                   = map (fun m => (m_id m, m_nombre m)) (Municipio_findAll_by_nombre s)).
  { clear Hrep. induction Hall as [|m u ms us [H1 H2] _ IH]; [reflexivity|].
    cbn [map]. rewrite IH, H1, H2. reflexivity. }
  split; [|split].
  - rewrite Hnames. unfold Municipio_findAll_by_nombre.
    apply Permutation_map, order_by_Permutation.
  - replace (map municipioNombre report)
      with (map m_nombre (Municipio_findAll_by_nombre s)).
    + apply Sorted_map. unfold Municipio_findAll_by_nombre.
      apply order_by_Sorted. intros u v. apply String_leb_total.
    + transitivity (map snd (map (fun m => (m_id m, m_nombre m))
                                 (Municipio_findAll_by_nombre s)));
        [rewrite map_map; reflexivity|].
      rewrite <- Hnames, map_map. reflexivity.
  - intros k u Hk. exact (coverage_report_color_at generateColor s report Hrep k u Hk).
Qed.

Lemma CHART_COLORS_NoDup : NoDup ColorGenerator.CHART_COLORS.
Proof. apply (bool_decide_unpack _). vm_compute. reflexivity. Qed.

Lemma generateColor_lookup (i : nat) :
  ColorGenerator.CHART_COLORS !! (i mod 15)%nat = Some (ColorGenerator.generateColor i).
Proof.
  unfold ColorGenerator.generateColor.
  change (length ColorGenerator.CHART_COLORS) with 15%nat.
  destruct (nth_lookup_or_length ColorGenerator.CHART_COLORS (i mod 15)%nat "")
    as [H|H]; [exact H|].
  change (length ColorGenerator.CHART_COLORS) with 15%nat in H.
  pose proof (Nat.mod_upper_bound i 15). lia.
Qed.

Lemma generateColor_eq (i j : nat) :
  ColorGenerator.generateColor i = ColorGenerator.generateColor j <->
  (i mod 15 = j mod 15)%nat.
Proof.
  split.
  - intros H. pose proof (generateColor_lookup i) as Hi.
    pose proof (generateColor_lookup j) as Hj. rewrite <- H in Hj.
    exact (proj1 (NoDup_alt _) CHART_COLORS_NoDup _ _ _ Hi Hj).
  - intros H. pose proof (generateColor_lookup i) as Hi.
    pose proof (generateColor_lookup j) as Hj. rewrite H in Hi. congruence.
Qed.

(** X12. generateColor always returns a colour of the palette; it gives two
    positions the same colour exactly when they are equal modulo 15, so the
    first fifteen positions get fifteen different colours and position
    k + 15 gets the colour of position k. *)
Theorem generateColor_cycle (i j : nat) :
  ColorGenerator.generateColor i ∈ ColorGenerator.CHART_COLORS /\
  (ColorGenerator.generateColor i = ColorGenerator.generateColor j <->
   (i mod 15 = j mod 15)%nat) /\
  ColorGenerator.generateColor (i + 15) = ColorGenerator.generateColor i /\
  NoDup (map ColorGenerator.generateColor (seq 0 15)).
Proof.
  split; [|split; [|split]].
  - eapply list_elem_of_lookup_2. apply generateColor_lookup.
  - apply generateColor_eq.
  - apply generateColor_eq.
    rewrite <- (Nat.Div0.add_mod_idemp_r i 15 15), Nat.Div0.mod_same, Nat.add_0_r.
    reflexivity.
  - apply (bool_decide_unpack _). vm_compute. reflexivity.
Qed.

Lemma coverage_report_colors_seq (s : Store) (report : list MunicipalityPerformance) :
  getMunicipalityPerformanceData ColorGenerator.generateColor s = Ok report ->
  map color report = map ColorGenerator.generateColor (seq 0 (length report)).
Proof.
  intros Hrep. apply list_eq. intros k.
  change (map color report) with (color <$> report).
  change (map ColorGenerator.generateColor (seq 0 (length report)))
    with (ColorGenerator.generateColor <$> seq 0 (length report)).
  rewrite !list_lookup_fmap.
  destruct (report !! k) as [u|] eqn:Hk.
  - rewrite (lookup_seq_lt _ _ _ (lookup_lt_Some _ _ _ Hk)). cbn.
    rewrite (coverage_report_color_at _ s report Hrep k u Hk). reflexivity.
  - rewrite lookup_seq_ge by (apply lookup_ge_None; exact Hk). reflexivity.
Qed.

Lemma colores_distintos (n : nat) :
  NoDup (map ColorGenerator.generateColor (seq 0 n)) <-> (n <= 15)%nat.
Proof.
  split.
  - intros Hnd. destruct (le_lt_dec n 15) as [Hle|Hgt]; [exact Hle|]. exfalso.
    assert (H0 : (ColorGenerator.generateColor <$> seq 0 n) !! 0%nat
                 = Some (ColorGenerator.generateColor 0)).
    { rewrite list_lookup_fmap, lookup_seq_lt by lia. reflexivity. }
    assert (H15 : (ColorGenerator.generateColor <$> seq 0 n) !! 15%nat
                  = Some (ColorGenerator.generateColor 0)).
    { rewrite list_lookup_fmap, lookup_seq_lt by lia. reflexivity. }
    pose proof (proj1 (NoDup_alt _) Hnd _ _ _ H0 H15). discriminate.
  - intros Hle. apply (NoDup_fmap_2_strong ColorGenerator.generateColor).
    + intros i j Hi Hj H. apply elem_of_seq in Hi, Hj. apply generateColor_eq in H.
      rewrite !Nat.mod_small in H by lia. exact H.
    + apply NoDup_seq.
Qed.

(** X13. With the colour generator of the application the units of the
    coverage report have pairwise different colours exactly when the store
    has at most fifteen units; from the sixteenth unit on, a unit gets the
    colour of the unit fifteen positions before it. *)
Theorem coverage_report_colors (s : Store) :
  exists report,
    Performance.getMunicipalityPerformanceData ColorGenerator.generateColor s = Ok report /\
    length report = length (tabla_municipios s) /\
    (NoDup (map color report) <-> (length (tabla_municipios s) <= 15)%nat) /\
    (forall k u u', report !! k = Some u -> report !! (k + 15)%nat = Some u' ->
                    color u' = color u).
Proof.
  destruct (coverage_report_units ColorGenerator.generateColor s) as (report & Hrep & Hall).
  exists report. split; [exact Hrep|].
  assert (Hlen : length report = length (tabla_municipios s)).
  { rewrite <- (Forall2_length _ _ _ Hall). unfold Municipio_findAll_by_nombre.
    apply Permutation_length, order_by_Permutation. }
  split; [exact Hlen|]. split.
  - rewrite (coverage_report_colors_seq s report Hrep), Hlen. apply colores_distintos.
  - intros k u u' Hk Hk'.
    rewrite (coverage_report_color_at _ s report Hrep _ _ Hk),
            (coverage_report_color_at _ s report Hrep _ _ Hk').
    apply generateColor_eq.
    rewrite <- (Nat.Div0.add_mod_idemp_r k 15 15), Nat.Div0.mod_same, Nat.add_0_r.
    reflexivity.
Qed.

End CoverageOrder.

(** ** The division breakdown of the monthly report *)

Section MonthlyBreakdownProperties.
Import Monthly MonthlyBreakdown.

Lemma fold_contar_completada (m : Municipio) (l : list (Tarea * list Entrega)) :
  forall n,
    fold_left (contar_completada m) l n
    = n + Z.of_nat (length (List.filter (entregada_por m) l)).
Proof.
  induction l as [|fila l IH]; intros n; [cbn; lia|].
  cbn [fold_left List.filter]. rewrite IH. unfold contar_completada, entregada_por.
  destruct (existsb _ fila.2); cbn [length]; lia.
Qed.

Lemma paso_division_breakdown (filas : list (Tarea * list Entrega)) (m : Municipio)
    (dd : list DivisionPerformanceData) (a c : Z) (d : Division) :
  exists nuevos,
    paso_division filas m (dd, a, c) d
    = Ok (dd ++ nuevos,
          a + suma (map tareasAsignadas nuevos),
          c + suma (map tareasCompletadas nuevos)) /\
    Forall2 (entrada_de filas m) (con_tareas filas [d]) nuevos.
Proof.
  unfold paso_division, con_tareas. cbn [List.filter].
  rewrite fold_contar_completada, Z.add_0_l.
  fold (de_division d). fold (asignadas filas d). fold (completadas filas m d).
  destruct (Z.ltb_spec 0 (asignadas filas d)) as [Hpos|Hzero].
  - rewrite js_div_Z_ok by lia. cbn [mbind outcome_bind].
    match goal with |- context [dd ++ [?e]] => exists [e] end. split.
    + cbn [map suma foldr tareasAsignadas tareasCompletadas]. rewrite !Z.add_0_r.
      reflexivity.
    + constructor; [|constructor]. repeat split; reflexivity.
  - exists []. cbn. rewrite app_nil_r, !Z.add_0_r. split; [reflexivity | constructor].
Qed.

Lemma foldM_paso_division_breakdown (filas : list (Tarea * list Entrega)) (m : Municipio)
    (divs : list Division) :
  forall (dd : list DivisionPerformanceData) (a c : Z),
  exists nuevos,
    foldM (paso_division filas m) divs (dd, a, c)
    = Ok (dd ++ nuevos,
          a + suma (map tareasAsignadas nuevos),
          c + suma (map tareasCompletadas nuevos)) /\
    Forall2 (entrada_de filas m) (con_tareas filas divs) nuevos.
Proof.
  induction divs as [|d divs IH]; intros dd a c.
  - exists []. cbn. rewrite app_nil_r, !Z.add_0_r. split; [reflexivity | constructor].
  - cbn [foldM].
    destruct (paso_division_breakdown filas m dd a c d) as (n1 & -> & H1).
    cbn [mbind outcome_bind].
    destruct (IH (dd ++ n1) (a + suma (map tareasAsignadas n1))
                 (c + suma (map tareasCompletadas n1))) as (n2 & -> & H2).
    exists (n1 ++ n2). split.
    + rewrite !map_app, !suma_app, <- app_assoc. do 2 f_equal; [f_equal|]; lia.
    + change (d :: divs) with ([d] ++ divs). unfold con_tareas in *.
      rewrite List.filter_app. apply Forall2_app; assumption.
Qed.

Lemma desempeno_mensual_breakdown (filas : list (Tarea * list Entrega))
    (divs : list Division) (m : Municipio) :
  exists u,
    desempeno_mensual filas divs m = Ok u /\
    municipioId u = m_id m /\
    municipioNombre u = m_nombre m /\
    Forall2 (entrada_de filas m) (con_tareas filas divs) (divisionData u) /\
    totalTareasAsignadas u = suma (map tareasAsignadas (divisionData u)) /\
    totalTareasCompletadas u = suma (map tareasCompletadas (divisionData u)) /\
    porcentajeTotal u
    = round2 (if 0 <? totalTareasAsignadas u
              then js_mul (js_quot (inject_Z (totalTareasCompletadas u))
                                   (inject_Z (totalTareasAsignadas u))) 100
              else 0%Q).
Proof.
  unfold desempeno_mensual.
  destruct (foldM_paso_division_breakdown filas m divs [] 0 0) as (nuevos & -> & Hall).
  cbn [mbind outcome_bind app]. rewrite !Z.add_0_l.
  rewrite porcentaje_guardado. cbn [mbind outcome_bind].
  eexists. split; [reflexivity|]. cbn. repeat split; try reflexivity. exact Hall.
Qed.

Lemma monthly_report_returns (tza : Z) (s : Store) (year month : Z) :
  exists us,
    getMonthlyPerformance tza s year month
    = Ok {| mes := pretty year +:+ "-" +:+ padStart2 (pretty month); municipios := us |} /\
    Forall2 (fun m u =>
      municipioId u = m_id m /\
      municipioNombre u = m_nombre m /\
      Forall2 (entrada_de (Tarea_findAll s (startDate tza year month)
                                         (endDate tza year month)) m)
              (con_tareas (Tarea_findAll s (startDate tza year month)
                                         (endDate tza year month))
                          (Division_findAll_by_nombre s))
              (divisionData u) /\
      totalTareasAsignadas u = suma (map tareasAsignadas (divisionData u)) /\
      totalTareasCompletadas u = suma (map tareasCompletadas (divisionData u)) /\
      porcentajeTotal u
      = round2 (if 0 <? totalTareasAsignadas u
                then js_mul (js_quot (inject_Z (totalTareasCompletadas u))
                                     (inject_Z (totalTareasAsignadas u))) 100
                else 0%Q))
      (Municipio_findAll_by_nombre s) us.
Proof.
  unfold getMonthlyPerformance.
  destruct (mapM_Forall2 _ _
              (fun m => desempeno_mensual_breakdown
                          (Tarea_findAll s (startDate tza year month)
                                         (endDate tza year month))
                          (Division_findAll_by_nombre s) m)
              (Municipio_findAll_by_nombre s)) as (us & Hus & Hall).
  exists us. rewrite Hus. cbn [mbind outcome_bind]. split; [reflexivity | exact Hall].
Qed.

Lemma completadas_le_asignadas (filas : list (Tarea * list Entrega)) (m : Municipio)
    (d : Division) :
  0 <= completadas filas m d <= asignadas filas d.
Proof.
  unfold completadas, asignadas. split; [lia|]. apply inj_le.
  generalize (List.filter (de_division d) filas). intros l.
  induction l as [|x l IH]; [reflexivity|].
  cbn [List.filter]. destruct (entregada_por m x); cbn [length]; lia.
Qed.




Lemma List_filter_length_le {A : Type} (f : A -> bool) (l : list A) :
  (length (List.filter f l) <= length l)%nat.
Proof.
  induction l as [|x l IH]; [reflexivity|].
  cbn [List.filter]. destruct (f x); cbn [length]; lia.
Qed.




(** January 2024, UTC, with 23 of 160 tasks delivered: the exact
    percentage is 14.375 and the report gives 14.37, in the one division
    and in the total. *)
Example monthly_23_de_160 :
  exists e u,
    getMonthlyPerformance 0 (Ejemplos.entregadas 160 23) 2024 1
    = Ok {| mes := "2024-01"; municipios := [u] |} /\
    divisionData u = [e] /\
    tareasAsignadas e = 160 /\ tareasCompletadas e = 23 /\
    porcentaje e = centesimas 1437 /\
    totalTareasAsignadas u = 160 /\ totalTareasCompletadas u = 23 /\
    porcentajeTotal u = centesimas 1437 /\
    (inject_Z 23 / inject_Z 160 * 100 == 14.375)%Q /\
    (decimal2 (inject_Z 23 / inject_Z 160 * 100) == 14.38)%Q /\
    (centesimas 1437 < 14.375)%Q.
Proof.
  do 2 eexists.
  split; [vm_compute; reflexivity|].
  split; [reflexivity|].
  repeat (split; [first [reflexivity | vm_compute; reflexivity
                        | apply Qeq_bool_eq; vm_compute; reflexivity]|]).
  vm_compute. reflexivity.
Qed.

Lemma suma_cons (x : Z) (l : list Z) : suma (x :: l) = x + suma l.
Proof. reflexivity. Qed.

Lemma suma_map_add {A : Type} (f g : A -> Z) (l : list A) :
  suma (map (fun x => f x + g x) l) = suma (map f l) + suma (map g l).
Proof.
  unfold suma. induction l as [|x l IH]; cbn; [reflexivity | rewrite IH; lia].
Qed.

Lemma suma_map_ext {A : Type} (f g : A -> Z) (l : list A) :
  (forall x, x ∈ l -> f x = g x) -> suma (map f l) = suma (map g l).
Proof.
  unfold suma. induction l as [|x l IH]; intros H; cbn; [reflexivity|].
  rewrite (H x) by left. rewrite IH; [reflexivity|].
  intros y Hy. apply H. right. exact Hy.
Qed.

(** A division id that is listed once is matched by one division. *)
Lemma una_division (divs : list Division) (x : Z) :
  NoDup (map d_id divs) ->
  suma (map (fun d => if x =? d_id d then 1 else 0) divs)
  = if decide (x ∈ map d_id divs) then 1 else 0.
Proof.
  induction divs as [|d divs IH]; intros Hnd; [reflexivity|].
  cbn [map] in *. apply NoDup_cons in Hnd. destruct Hnd as [Hnot Hnd].
  cbn [suma foldr]. fold (suma (map (fun d => if x =? d_id d then 1 else 0) divs)).
  rewrite (IH Hnd).
  destruct (Z.eqb_spec x (d_id d)) as [->|Hne];
    destruct (decide (_ ∈ map d_id divs)) as [Hin|Hin];
    destruct (decide (_ ∈ _ :: map d_id divs)) as [Hin'|Hin'];
    try reflexivity; try contradiction.
  - exfalso. apply Hin'. left.
  - exfalso. apply Hin'. right. exact Hin.
  - exfalso. apply elem_of_cons in Hin'. destruct Hin'; contradiction.
Qed.

(** Counting the rows division by division counts every row once. *)
Lemma suma_por_division (divs : list Division) (l : list (Tarea * list Entrega)) :
  NoDup (map d_id divs) ->
  Forall (fun fila => t_divisionId fila.1 ∈ map d_id divs) l ->
  suma (map (fun d => Z.of_nat (length (List.filter (de_division d) l))) divs)
  = Z.of_nat (length l).
Proof.
  intros Hnd. induction 1 as [|fila l Hfila _ IH].
  - cbn [List.filter length]. clear. induction divs; cbn; [reflexivity | assumption].
  - rewrite (suma_map_ext _
      (fun d => (if t_divisionId fila.1 =? d_id d then 1 else 0)
                + Z.of_nat (length (List.filter (de_division d) l)))).
    + rewrite suma_map_add, IH, (una_division divs _ Hnd).
      rewrite decide_True by exact Hfila. cbn [length]. lia.
    + intros d _. cbn [List.filter]. unfold de_division at 1.
      destruct (t_divisionId fila.1 =? d_id d); cbn [length]; lia.
Qed.

Lemma List_filter_comm {A : Type} (f g : A -> bool) (l : list A) :
  List.filter f (List.filter g l) = List.filter g (List.filter f l).
Proof.
  induction l as [|x l IH]; [reflexivity|].
  cbn [List.filter]. destruct (f x) eqn:Ef; destruct (g x) eqn:Eg;
    cbn [List.filter]; rewrite ?Ef, ?Eg, IH; reflexivity.
Qed.

Lemma suma_con_tareas (filas : list (Tarea * list Entrega)) (m : Municipio)
    (divs : list Division) :
  suma (map (asignadas filas) (con_tareas filas divs)) = suma (map (asignadas filas) divs) /\
  suma (map (completadas filas m) (con_tareas filas divs))
  = suma (map (completadas filas m) divs).
Proof.
  unfold con_tareas. induction divs as [|d divs [IH1 IH2]]; [split; reflexivity|].
  cbn [List.filter]. pose proof (completadas_le_asignadas filas m d) as Hle.
  destruct (Z.ltb_spec 0 (asignadas filas d)).
  - rewrite !map_cons, !suma_cons, IH1, IH2. split; reflexivity.
  - rewrite !map_cons, !suma_cons, IH1, IH2. split; lia.
Qed.

Lemma suma_entradas (filas : list (Tarea * list Entrega)) (m : Municipio)
    (ds : list Division) (dd : list DivisionPerformanceData) :
  Forall2 (entrada_de filas m) ds dd ->
  suma (map tareasAsignadas dd) = suma (map (asignadas filas) ds) /\
  suma (map tareasCompletadas dd) = suma (map (completadas filas m) ds).
Proof.
  induction 1 as [|d e ds dd (_ & _ & E3 & E4 & _) _ [IH1 IH2]]; [split; reflexivity|].
  rewrite !map_cons, !suma_cons, IH1, IH2, E3, E4.
  split; reflexivity.
Qed.

(** X16. When the division ids are distinct and every task names a
    division of the store, the assigned total of every unit is the number of
    tasks of the month and its completed total is the number of those tasks
    with a delivery of the unit: no task is left out or counted twice. *)
Theorem monthly_totals_cover_all_tasks (tza : Z) (s : Store) (year month : Z) :
  NoDup (map d_id (tabla_divisiones s)) ->
  (forall t, t ∈ tabla_tareas s ->
             exists d, d ∈ tabla_divisiones s /\ d_id d = t_divisionId t) ->
  exists r,
    getMonthlyPerformance tza s year month = Ok r /\
    Forall2 (fun m u =>
      totalTareasAsignadas u
      = Z.of_nat (length (Tarea_findAll s (startDate tza year month)
                                          (endDate tza year month))) /\
      totalTareasCompletadas u
      = Z.of_nat (length (List.filter (entregada_por m)
                            (Tarea_findAll s (startDate tza year month)
                                             (endDate tza year month)))))
      (Municipio_findAll_by_nombre s) (municipios r).
Proof.
  intros Hnd Hfk.
  destruct (monthly_report_returns tza s year month) as (us & Hr & Hall).
  eexists. split; [exact Hr|]. cbn [municipios].
  set (filas := Tarea_findAll s (startDate tza year month) (endDate tza year month)) in *.
  set (divs := Division_findAll_by_nombre s) in *.
  assert (Hperm : divs ≡ₚ tabla_divisiones s) by apply order_by_Permutation.
  assert (Hnd' : NoDup (map d_id divs)).
  { assert (Hm : map d_id divs ≡ₚ map d_id (tabla_divisiones s))
      by (apply Permutation_map; exact Hperm).
    rewrite Hm. exact Hnd. }
  assert (Hin : forall l, Forall (fun fila => fila ∈ filas) l ->
                          Forall (fun fila => t_divisionId fila.1 ∈ map d_id divs) l).
  { intros l Hl. induction Hl as [|fila l Hfila _ IH]; constructor; [|exact IH].
    unfold filas, Tarea_findAll in Hfila.
    apply list_elem_of_fmap in Hfila. destruct Hfila as (t & -> & Ht).
    apply list_elem_of_filter in Ht. destruct Ht as [_ Ht].
    cbn [fst]. destruct (Hfk t Ht) as (d & Hd & <-).
    apply list_elem_of_fmap. exists d. split; [reflexivity|]. rewrite Hperm. exact Hd. }
  eapply Forall2_impl; [exact Hall|].
  intros m u (_ & _ & H3 & H4 & H5 & _).
  destruct (suma_entradas _ _ _ _ H3) as [S1 S2].
  destruct (suma_con_tareas filas m divs) as [C1 C2].
  rewrite H4, H5, S1, S2, C1, C2. split.
  - unfold asignadas. apply suma_por_division; [exact Hnd'|].
    apply Hin, Forall_forall. auto.
  - rewrite (suma_map_ext _
      (fun d => Z.of_nat (length (List.filter (de_division d)
                                    (List.filter (entregada_por m) filas))))).
    + apply suma_por_division; [exact Hnd'|].
      apply Hin, Forall_forall. intros fila Hfila.
      apply list_elem_of_In, filter_In in Hfila. apply list_elem_of_In, Hfila.
    + intros d _. unfold completadas. rewrite List_filter_comm. reflexivity.
Qed.

Lemma monthly_totals_cover_all_tasks_witness :
  exists r,
    getMonthlyPerformance 0 Ejemplos.entrega_doble 1970 1 = Ok r /\
    Forall2 (fun m u =>
      totalTareasAsignadas u
      = Z.of_nat (length (Tarea_findAll Ejemplos.entrega_doble (startDate 0 1970 1)
                                          (endDate 0 1970 1))) /\
      totalTareasCompletadas u
      = Z.of_nat (length (List.filter (entregada_por m)
                            (Tarea_findAll Ejemplos.entrega_doble (startDate 0 1970 1)
                                             (endDate 0 1970 1)))))
      (Municipio_findAll_by_nombre Ejemplos.entrega_doble) (municipios r).
Proof.
  apply (monthly_totals_cover_all_tasks 0 Ejemplos.entrega_doble 1970 1).
  - cbn. repeat constructor. intros H. inversion H.
  - intros t Ht. exists {| d_id := 1; d_nombre := "Deportes" |}.
    split; [cbn; left|].
    unfold Ejemplos.entrega_doble in Ht. cbn in Ht.
    repeat (apply elem_of_cons in Ht; destruct Ht as [-> | Ht]); try reflexivity.
    inversion Ht.
Defined.

End MonthlyBreakdownProperties.

Section LifecycleComposition.
Import Lifecycle.

Lemma Tarea_update_lte_compose (t1 t2 : Z) (tareas : list Tarea) :
  (Tarea_update_finalizada
     (fun t => en_proceso_b t && (t_fechaCulminacion t <=? t2))
     (Tarea_update_finalizada
        (fun t => en_proceso_b t && (t_fechaCulminacion t <=? t1)) tareas).2).2
  = (Tarea_update_finalizada
       (fun t => en_proceso_b t && (t_fechaCulminacion t <=? Z.max t1 t2)) tareas).2.
Proof.
  unfold Tarea_update_finalizada. cbn [snd]. rewrite map_map.
  apply map_ext. intros [i n d fi fc e]. unfold en_proceso_b, finalizar. cbn.
  destruct e; cbn;
    destruct (Z.leb_spec fc t1); cbn; destruct (Z.leb_spec fc t2); cbn;
    destruct (Z.leb_spec fc (Z.max t1 t2)); cbn; try reflexivity; lia.
Qed.

(** X17. Running the status update at a time t1 and then at a time t2, in
    either order of the two times, leaves the tasks table as one run at the
    later of the two times does: a run never undoes a transition and a late
    run catches up with all the tasks that became due. *)
Theorem actualizarEstadoTareas_compose (t1 t2 : Z) (w : Mundo) :
  mundo_tareas (actualizarEstadoTareas t2 (actualizarEstadoTareas t1 w).2).2
  = mundo_tareas (actualizarEstadoTareas (Z.max t1 t2) w).2.
Proof.
  unfold actualizarEstadoTareas. cbn [snd mundo_tareas].
  apply Tarea_update_lte_compose.
Qed.

Lemma Tarea_update_lt_lte (ahora : Z) (tareas : list Tarea) :
  Tarea_update_finalizada
    (fun t => en_proceso_b t && (t_fechaCulminacion t <? ahora)) tareas
  = Tarea_update_finalizada
      (fun t => en_proceso_b t && (t_fechaCulminacion t <=? ahora - 1)) tareas.
Proof.
  assert (E : forall t, en_proceso_b t && (t_fechaCulminacion t <? ahora)
                        = en_proceso_b t && (t_fechaCulminacion t <=? ahora - 1)).
  { intros t. f_equal.
    destruct (Z.ltb_spec (t_fechaCulminacion t) ahora);
      destruct (Z.leb_spec (t_fechaCulminacion t) (ahora - 1)); try reflexivity; lia. }
  unfold Tarea_update_finalizada. f_equal.
  - do 2 f_equal. apply List.filter_ext. exact E.
  - apply map_ext. intros t. rewrite E. reflexivity.
Qed.

(** X18. On the tasks table the earlier copy of the update, which compares
    the deadline with [Op.lt], does at a time what the current copy does one
    millisecond earlier; the two copies differ at a time exactly on the tasks
    in progress whose deadline is that time, which the earlier copy leaves in
    progress and the current one finishes. *)
Theorem anterior_one_millisecond_late (ahora : Z) (w : Mundo) :
  mundo_tareas (Anterior.actualizarEstadoTareas ahora w).2
  = mundo_tareas (actualizarEstadoTareas (ahora - 1) w).2 /\
  Forall2 (fun t par =>
             (t_estado t = en_proceso /\ t_fechaCulminacion t = ahora ->
              par.1 = t /\ par.2 = finalizar t) /\
             (~ (t_estado t = en_proceso /\ t_fechaCulminacion t = ahora) ->
              par.1 = par.2))
          (mundo_tareas w)
          (zip (mundo_tareas (Anterior.actualizarEstadoTareas ahora w).2)
               (mundo_tareas (actualizarEstadoTareas ahora w).2)).
Proof.
  split.
  - unfold Anterior.actualizarEstadoTareas, actualizarEstadoTareas.
    cbn [snd mundo_tareas]. rewrite Tarea_update_lt_lte. reflexivity.
  - unfold Anterior.actualizarEstadoTareas, actualizarEstadoTareas,
      Tarea_update_finalizada. cbn [snd mundo_tareas].
    induction (mundo_tareas w) as [|t l IH]; [constructor|].
    cbn [map zip zip_with]. constructor; [|exact IH]. cbn [fst snd].
    destruct t as [i n d fi fc e]. unfold en_proceso_b, finalizar. cbn.
    destruct e; cbn.
    + destruct (Z.ltb_spec fc ahora); destruct (Z.leb_spec fc ahora); try lia.
      * split; [intros [_ ?]; lia | reflexivity].
      * assert (fc = ahora) as -> by lia.
        split; [intros _; split; reflexivity | intros Hn; exfalso; apply Hn; split; reflexivity].
      * split; [intros [_ ?]; lia | reflexivity].
    + split; [intros [? _]; discriminate | reflexivity].
Qed.

End LifecycleComposition.

Section DeliveryService.
Import Delivery.

Lemma agrupa_size (g : list Z -> list Z) (ids : list Z) :
  agrupa g -> length (g ids) = size (list_to_set ids : gset Z).
Proof.
  intros Hg. destruct (Hg ids) as [Hnd Hin].
  rewrite <- (size_list_to_set (C:=gset Z)) by exact Hnd.
  f_equal. apply set_eq. intros x. rewrite !elem_of_list_to_set. apply Hin.
Qed.

Lemma primeras_apariciones_agrupa : agrupa Performance.primeras_apariciones.
Proof.
  intros ids. split.
  - apply primeras_apariciones_NoDup.
  - apply primeras_apariciones_elem.
Qed.

Lemma de_tarea_elem (s : Store) (tareaId : Z) (e : Entrega) :
  e ∈ de_tarea s tareaId <-> e ∈ tabla_entregas s /\ e_tareaId e = tareaId.
Proof. unfold de_tarea. rewrite list_elem_of_filter. tauto. Qed.

Lemma unidades_de_tarea (s : Store) (tareaId m : Z) :
  m ∈ map e_municipioId (de_tarea s tareaId) <->
  exists e, e ∈ tabla_entregas s /\ e_tareaId e = tareaId /\ e_municipioId e = m.
Proof.
  split.
  - intros H. apply list_elem_of_fmap in H. destruct H as (e & -> & He).
    apply de_tarea_elem in He. exists e. tauto.
  - intros (e & He & Ht & <-). apply list_elem_of_fmap. exists e.
    split; [reflexivity|]. apply de_tarea_elem. tauto.
Qed.

(** X19. Whatever order the database gives the groups, the count of a task
    lists each unit that has a delivery of the task once, however many
    deliveries the unit made, and no other unit; the total is the number of
    distinct units among the deliveries of the task, it is at most the number
    of those deliveries, and it is 0 exactly when the task has no delivery. *)
Theorem countUnique_distinct_units (g : list Z -> list Z) (s : Store) (tareaId : Z) :
  agrupa g ->
  let r := countUniqueMunicipalitiesForTask g s tareaId in
  NoDup (uniqueMunicipalityIds r) /\
  (forall m, m ∈ uniqueMunicipalityIds r <->
             exists e, e ∈ tabla_entregas s /\ e_tareaId e = tareaId /\
                       e_municipioId e = m) /\
  totalMunicipalities r = Z.of_nat (length (uniqueMunicipalityIds r)) /\
  totalMunicipalities r
  = Z.of_nat (size (list_to_set (map e_municipioId (de_tarea s tareaId)) : gset Z)) /\
  totalMunicipalities r <= Z.of_nat (length (de_tarea s tareaId)) /\
  (totalMunicipalities r = 0 <-> de_tarea s tareaId = []).
Proof.
  intros Hg r. subst r. unfold countUniqueMunicipalitiesForTask.
  cbn [uniqueMunicipalityIds totalMunicipalities]. rewrite !map_id.
  destruct (Hg (map e_municipioId (de_tarea s tareaId))) as [Hnd Hin].
  split; [exact Hnd|].
  split; [intros m; rewrite Hin; apply unidades_de_tarea|].
  split; [reflexivity|].
  rewrite (agrupa_size g _ Hg).
  split; [reflexivity|].
  split.
  - rewrite <- (length_map e_municipioId (de_tarea s tareaId)).
    rewrite <- (primeras_apariciones_size (map e_municipioId (de_tarea s tareaId))).
    generalize (map e_municipioId (de_tarea s tareaId)). intros l.
    induction l as [|y l IH]; [cbn; lia|].
    cbn [Performance.primeras_apariciones length].
    pose proof (length_filter (fun z => z <> y) (Performance.primeras_apariciones l)). lia.
  - destruct (de_tarea s tareaId) as [|e l]; [split; reflexivity|].
    split; [|discriminate]. intros H. exfalso.
    assert (Hs : size (list_to_set (map e_municipioId (e :: l)) : gset Z) = 0%nat) by lia.
    apply size_empty_inv in Hs. specialize (Hs (e_municipioId e)).
    rewrite elem_of_list_to_set in Hs.
    eapply (not_elem_of_empty (C:=gset Z)), (proj1 Hs). cbn [map]. left.
Qed.

Lemma countUnique_distinct_units_witness :
  let r := countUniqueMunicipalitiesForTask Performance.primeras_apariciones
             Ejemplos.entrega_doble 2 in
  NoDup (uniqueMunicipalityIds r) /\
  (forall m, m ∈ uniqueMunicipalityIds r <->
             exists e, e ∈ tabla_entregas Ejemplos.entrega_doble /\ e_tareaId e = 2 /\
                       e_municipioId e = m) /\
  totalMunicipalities r = Z.of_nat (length (uniqueMunicipalityIds r)) /\
  totalMunicipalities r
  = Z.of_nat (size (list_to_set (map e_municipioId (de_tarea Ejemplos.entrega_doble 2))
                    : gset Z)) /\
  totalMunicipalities r <= Z.of_nat (length (de_tarea Ejemplos.entrega_doble 2)) /\
  (totalMunicipalities r = 0 <-> de_tarea Ejemplos.entrega_doble 2 = []).
Proof.
  apply (countUnique_distinct_units Performance.primeras_apariciones
           Ejemplos.entrega_doble 2).
  exact primeras_apariciones_agrupa.
Defined.

Lemma entregada_por_existe (s : Store) (m : Municipio) (t : Tarea) :
  MonthlyBreakdown.entregada_por m (t, entregas_de_tarea s t) = true <->
  exists e, e ∈ tabla_entregas s /\ e_tareaId e = t_id t /\ e_municipioId e = m_id m.
Proof.
  unfold MonthlyBreakdown.entregada_por. cbn [snd]. rewrite existsb_exists.
  unfold entregas_de_tarea. split.
  - intros (e & He & Hm). apply list_elem_of_In, list_elem_of_filter in He.
    exists e. apply Z.eqb_eq in Hm. tauto.
  - intros (e & He & Ht & Hm). exists e. split.
    + apply list_elem_of_In, list_elem_of_filter. tauto.
    + apply Z.eqb_eq. exact Hm.
Qed.

Lemma tareas_entregadas_existe (s : Store) (municipioId tareaId : Z) :
  tareaId ∈ Performance.tareas_entregadas s municipioId <->
  exists e, e ∈ tabla_entregas s /\ e_tareaId e = tareaId /\ e_municipioId e = municipioId.
Proof.
  unfold Performance.tareas_entregadas. split.
  - intros H. apply list_elem_of_fmap in H. destruct H as (e & -> & He).
    apply list_elem_of_filter in He. exists e. tauto.
  - intros (e & He & <- & Hm). apply list_elem_of_fmap. exists e.
    split; [reflexivity|]. apply list_elem_of_filter. tauto.
Qed.

Lemma evaluacion_existe (s : Store) (municipioId : Z) (t : Tarea) :
  filter (fun e => e_municipioId e = municipioId) (entregas_de_tarea s t) <> [] <->
  exists e, e ∈ tabla_entregas s /\ e_tareaId e = t_id t /\ e_municipioId e = municipioId.
Proof.
  unfold entregas_de_tarea. split.
  - intros H.
    destruct (filter _ (filter _ (tabla_entregas s))) as [|e l] eqn:E; [contradiction|].
    assert (He : e ∈ e :: l) by left. rewrite <- E in He.
    apply list_elem_of_filter in He. destruct He as [Hm He].
    apply list_elem_of_filter in He. exists e. tauto.
  - intros (e & He & Ht & Hm) H.
    assert (Hin : e ∈ filter (fun e => e_municipioId e = municipioId)
                    (filter (fun e => e_tareaId e = t_id t) (tabla_entregas s))).
    { apply list_elem_of_filter. split; [exact Hm|]. apply list_elem_of_filter. tauto. }
    rewrite H in Hin. inversion Hin.
Qed.

(** X20. The services agree on who has delivered a task: a unit is among the
    unit ids that the delivery count of the task returns exactly when the
    monthly report finds a delivery of the unit on the row of the task,
    exactly when the task id is among the task ids of the deliveries of the
    unit that the coverage report reads, and exactly when the evaluation
    loads at least one delivery of the unit with the task. *)
Theorem services_agree_on_delivery (g : list Z -> list Z) (s : Store)
    (m : Municipio) (t : Tarea) :
  agrupa g ->
  let entregada :=
    m_id m ∈ uniqueMunicipalityIds (countUniqueMunicipalitiesForTask g s (t_id t)) in
  (entregada <-> MonthlyBreakdown.entregada_por m (t, entregas_de_tarea s t) = true) /\
  (entregada <-> t_id t ∈ Performance.tareas_entregadas s (m_id m)) /\
  (entregada <->
   filter (fun e => e_municipioId e = m_id m) (entregas_de_tarea s t) <> []).
Proof.
  intros Hg entregada.
  assert (E : entregada <->
              exists e, e ∈ tabla_entregas s /\ e_tareaId e = t_id t /\
                        e_municipioId e = m_id m).
  { subst entregada. unfold countUniqueMunicipalitiesForTask.
    cbn [uniqueMunicipalityIds]. rewrite map_id.
    rewrite (proj2 (Hg _)). apply unidades_de_tarea. }
  rewrite E, entregada_por_existe, tareas_entregadas_existe, evaluacion_existe.
  tauto.
Qed.

Lemma services_agree_on_delivery_witness :
  let m := {| m_id := 1; m_nombre := "Alfa" |} in
  let t := {| t_id := 2; t_nombre := "Tarea 2"; t_divisionId := 1;
              t_fechaInicio := 1000; t_fechaCulminacion := 2000;
              t_estado := en_proceso |} in
  let entregada :=
    m_id m ∈ uniqueMunicipalityIds
      (countUniqueMunicipalitiesForTask Performance.primeras_apariciones
         Ejemplos.entrega_doble (t_id t)) in
  (entregada <->
   MonthlyBreakdown.entregada_por m (t, entregas_de_tarea Ejemplos.entrega_doble t) = true) /\
  (entregada <-> t_id t ∈ Performance.tareas_entregadas Ejemplos.entrega_doble (m_id m)) /\
  (entregada <->
   filter (fun e => e_municipioId e = m_id m)
     (entregas_de_tarea Ejemplos.entrega_doble t) <> []).
Proof.
  intros m t.
  apply (services_agree_on_delivery Performance.primeras_apariciones
           Ejemplos.entrega_doble m t).
  exact primeras_apariciones_agrupa.
Defined.

Lemma Sorted_HdRel_Forall {A : Type} (R : A -> A -> Prop) (x : A) (l : list A) :
  (forall u v w, R u v -> R v w -> R u w) ->
  Sorted R (x :: l) -> Forall (R x) l.
Proof.
  intros Htr H. apply Sorted_StronglySorted in H; [|exact Htr].
  apply StronglySorted_inv in H. apply List.Forall_forall. intros y Hy.
  destruct H as [_ H]. rewrite List.Forall_forall in H. apply H. exact Hy.
Qed.

(** X21. The sorted deliveries of a task are the deliveries of the task,
    each once and each with the unit its id names, put in an order in which
    no delivery comes before an earlier one: the first row is an earliest
    delivery of the task, and every row is a delivery of that task. *)
Theorem getSortedDeliveriesForTask_chronological (s : Store) (tareaId : Z) :
  let filas := getSortedDeliveriesForTask s tareaId in
  filas ≡ₚ getDeliveriesForTask s tareaId /\
  map fst filas ≡ₚ de_tarea s tareaId /\
  Sorted Z.le (map (fun fila => e_fechaHoraEntrega fila.1) filas) /\
  (forall fila resto, filas = fila :: resto ->
     forall e, e ∈ de_tarea s tareaId ->
               e_fechaHoraEntrega fila.1 <= e_fechaHoraEntrega e) /\
  Forall (fun fila => fila.1 ∈ tabla_entregas s /\ e_tareaId fila.1 = tareaId /\
                      fila.2 = Municipio_findByPk s (e_municipioId fila.1)) filas.
Proof.
  intros filas.
  assert (Hperm : filas ≡ₚ getDeliveriesForTask s tareaId) by apply order_by_Permutation.
  assert (Hfst : map fst filas ≡ₚ de_tarea s tareaId).
  { transitivity (map fst (getDeliveriesForTask s tareaId)).
    - apply Permutation_map. exact Hperm.
    - unfold getDeliveriesForTask. rewrite map_map. cbn [fst]. rewrite map_id. reflexivity. }
  assert (Hsorted : Sorted (fun a b : Entrega * option Municipio =>
                              e_fechaHoraEntrega a.1 <= e_fechaHoraEntrega b.1) filas).
  { eapply Sorted_impl; [|apply order_by_Sorted].
    - intros u v H. apply Z.leb_le. exact H.
    - intros u v H. apply Z.leb_gt in H. apply Z.leb_le. lia. }
  split; [exact Hperm|]. split; [exact Hfst|].
  split; [apply Sorted_map; exact Hsorted|].
  split.
  - intros fila resto Hf e He.
    rewrite <- Hfst, Hf in He. cbn [map] in He.
    apply elem_of_cons in He. destruct He as [->|He]; [lia|].
    rewrite Hf in Hsorted. apply Sorted_HdRel_Forall in Hsorted; [|intros; lia].
    apply list_elem_of_fmap in He. destruct He as (fila' & -> & Hin).
    rewrite List.Forall_forall in Hsorted. apply Hsorted, list_elem_of_In. exact Hin.
  - apply Forall_forall. intros fila Hfila. rewrite Hperm in Hfila.
    unfold getDeliveriesForTask in Hfila. apply list_elem_of_fmap in Hfila.
    destruct Hfila as (e & -> & He). apply de_tarea_elem in He. cbn [fst snd]. tauto.
Qed.

End DeliveryService.

Section Dashboard.
Import EvaluacionController.

Lemma entregada_por_length (m : Municipio) (fila : Tarea * list Entrega) :
  MonthlyBreakdown.entregada_por m fila = (0 <? Z.of_nat (length (entregas_de m fila))).
Proof.
  unfold MonthlyBreakdown.entregada_por, entregas_de.
  induction fila.2 as [|e l IH]; [reflexivity|].
  cbn [existsb List.filter]. destruct (e_municipioId e =? m_id m); cbn [orb length].
  - symmetry. apply Z.ltb_lt. lia.
  - exact IH.
Qed.

Lemma fold_paso_tarea (m : Municipio) (tareas : list (Tarea * list Entrega)) :
  forall c n,
    fold_left (paso_tarea m) tareas (c, n)
    = (c + cumplidas tareas m, n + entregas_contadas tareas m).
Proof.
  unfold cumplidas, entregas_contadas.
  induction tareas as [|fila tareas IH]; intros c n.
  - cbn. f_equal; lia.
  - cbn [fold_left List.filter flat_map]. rewrite entregada_por_length.
    unfold paso_tarea at 2. fold (entregas_de m fila).
    rewrite length_app.
    destruct (Z.ltb_spec 0 (Z.of_nat (length (entregas_de m fila)))) as [Hpos|Hz].
    + rewrite IH. cbn [length]. f_equal; lia.
    + rewrite IH. f_equal; lia.
Qed.

Lemma cumplidas_bounds (tareas : list (Tarea * list Entrega)) (m : Municipio) :
  0 <= cumplidas tareas m <= Z.of_nat (length tareas) /\
  cumplidas tareas m <= entregas_contadas tareas m.
Proof.
  unfold cumplidas, entregas_contadas. split.
  - pose proof (List_filter_length_le (MonthlyBreakdown.entregada_por m) tareas). lia.
  - induction tareas as [|fila tareas IH]; [cbn; lia|].
    cbn [List.filter flat_map]. rewrite length_app, entregada_por_length.
    destruct (Z.ltb_spec 0 (Z.of_nat (length (entregas_de m fila)))); cbn [length]; lia.
Qed.

Lemma Math_round_percent (c t : Z) :
  0 < t -> 0 <= c <= t ->
  0 <= Math_round (js_mul (js_quot (inject_Z c) (inject_Z t)) 100) <= 100 /\
  Math_round (inject_Z c / inject_Z t * 100 - tolerancia)
  <= Math_round (js_mul (js_quot (inject_Z c) (inject_Z t)) 100)
  <= Math_round (inject_Z c / inject_Z t * 100 + tolerancia).
Proof.
  intros Ht Hc. destruct (porcentaje_near c t Hc Ht) as [[N1 N2] B]. split.
  - apply (Math_round_bounds 0 100). exact B.
  - apply Math_round_near. unfold Double.u, tolerancia in *. split; lra.
Qed.

Lemma desempeno_returns_fila (tareas : list (Tarea * list Entrega)) (m : Municipio) :
  exists r, desempeno tareas m = Ok r /\ fila_de tareas m r.
Proof.
  unfold desempeno. rewrite fold_paso_tarea. rewrite !Z.add_0_l.
  destruct (Z.ltb_spec 0 (Z.of_nat (length tareas))) as [Hpos|Hz].
  - rewrite js_div_Z_ok by lia.
    cbn [mbind outcome_bind]. eexists. split; [reflexivity|].
    unfold fila_de. cbn.
    destruct (Z.ltb_spec 0 (Z.of_nat (length tareas))); [|lia].
    split; [reflexivity|]. split; [reflexivity|]. split; [reflexivity|].
    split; reflexivity.
  - cbn [mbind outcome_bind]. eexists. split; [reflexivity|].
    unfold fila_de. cbn.
    destruct (Z.ltb_spec 0 (Z.of_nat (length tareas))); [lia|].
    split; [reflexivity|]. split; [reflexivity|]. split; [reflexivity|].
    split; reflexivity.
Qed.

Lemma StronglySorted_impl {A : Type} (R S : A -> A -> Prop) (l : list A) :
  (forall u v, R u v -> S u v) -> StronglySorted R l -> StronglySorted S l.
Proof.
  intros H. induction 1 as [|x l _ IH Hx]; constructor; [exact IH|].
  rewrite List.Forall_forall in *. intros y Hy. apply H, Hx, Hy.
Qed.

Lemma dashboard_returns (tza : Z) (s : Store) (anioNum mesNum divisionId : Z) :
  let tareas := Tarea_findAll s divisionId (Monthly.startDate tza anioNum mesNum)
                              (Monthly.endDate tza anioNum mesNum) in
  exists filas porUnidad,
    desempenoPorMunicipio tza s anioNum mesNum divisionId = Ok filas /\
    Forall2 (fila_de tareas) (Municipio_findAll_by_nombre s) porUnidad /\
    filas ≡ₚ porUnidad /\
    StronglySorted (fun a b => porcentaje b <= porcentaje a) filas.
Proof.
  intros tareas. unfold desempenoPorMunicipio.
  change (Tarea_findAll s divisionId _ _) with tareas.
  destruct (mapM_Forall2 (desempeno tareas) (fila_de tareas)
              (desempeno_returns_fila tareas) (Municipio_findAll_by_nombre s))
    as (porUnidad & Hmap & Hall).
  rewrite Hmap. cbn [mbind outcome_bind].
  eexists. exists porUnidad. split; [reflexivity|]. split; [exact Hall|].
  split; [apply order_by_Permutation|].
  eapply StronglySorted_impl;
    [|apply (Array_sort_descending (fun r => inject_Z (porcentaje r)))].
  intros u v H. cbn beta in H. rewrite <- Zle_Qle in H. exact H.
Qed.

(** X22. The page of a division and a month shows one row per unit of the
    store, ordered by percentage from the highest to the lowest: the row of
    a unit carries the number of tasks of the division in the month, the
    number of them the unit has delivered, the number of its deliveries on
    them, and as percentage Math.round of the binary64 product of their
    binary64 ratio by 100 (0 when the division has no task in the month);
    the delivered tasks are at most the tasks and at most the deliveries,
    the percentage is between 0 and 100, and it lies between the half-up
    roundings of the exact percentage moved down and up by 10^-11. *)
Theorem calcularDesempeno_rows (tza : Z) (s : Store) (anioNum mesNum divisionId : Z) :
  let tareas := Tarea_findAll s divisionId (Monthly.startDate tza anioNum mesNum)
                              (Monthly.endDate tza anioNum mesNum) in
  exists filas porUnidad,
    desempenoPorMunicipio tza s anioNum mesNum divisionId = Ok filas /\
    Forall2 (fila_de tareas) (Municipio_findAll_by_nombre s) porUnidad /\
    filas ≡ₚ porUnidad /\
    length filas = length (tabla_municipios s) /\
    StronglySorted (fun a b => porcentaje b <= porcentaje a) filas /\
    Forall (fun r => 0 <= tareasCumplidas r <= totalTareas r /\
                     tareasCumplidas r <= totalEntregas r /\
                     0 <= porcentaje r <= 100 /\
                     (0 < totalTareas r ->
                      Math_round (inject_Z (tareasCumplidas r) / inject_Z (totalTareas r)
                                  * 100 - tolerancia)
                      <= porcentaje r
                      <= Math_round (inject_Z (tareasCumplidas r) / inject_Z (totalTareas r)
                                     * 100 + tolerancia))) filas.
Proof.
  intros tareas.
  destruct (dashboard_returns tza s anioNum mesNum divisionId)
    as (filas & porUnidad & Hr & Hall & Hperm & Hsort).
  fold tareas in Hall.
  exists filas, porUnidad. split; [exact Hr|]. split; [exact Hall|].
  split; [exact Hperm|]. split.
  - rewrite Hperm, <- (Forall2_length _ _ _ Hall). unfold Municipio_findAll_by_nombre.
    apply Permutation_length, order_by_Permutation.
  - split; [exact Hsort|]. rewrite Hperm. clear Hr Hperm Hsort.
    induction Hall as [|m r ms rs (_ & H2 & H3 & H4 & H5) _ IH]; constructor; [|exact IH].
    destruct (cumplidas_bounds tareas m) as [Hc He].
    rewrite H2, H3, H4, H5. split; [exact Hc|]. split; [exact He|].
    destruct (Z.ltb_spec 0 (Z.of_nat (length tareas))) as [Hpos|Hz]; [|split; lia].
    destruct (Math_round_percent (cumplidas tareas m) (Z.of_nat (length tareas)) Hpos Hc)
      as [Hb Hn].
    split; [exact Hb | intros _; exact Hn].
Qed.

(** January 2024, UTC, with 23 of the 40 tasks of the division delivered:
    the exact percentage is 57.5 and the row says 57. *)
Example calcularDesempeno_23_de_40 :
  exists r,
    desempenoPorMunicipio 0 (Ejemplos.entregadas 40 23) 2024 1 1 = Ok [r] /\
    totalTareas r = 40 /\ tareasCumplidas r = 23 /\ porcentaje r = 57 /\
    (inject_Z 23 / inject_Z 40 * 100 == 57.5)%Q /\
    Math_round (inject_Z 23 / inject_Z 40 * 100) = 58.
Proof.
  eexists. split; [vm_compute; reflexivity|].
  repeat (split; [first [reflexivity | apply Qeq_bool_eq; vm_compute; reflexivity]|]).
  vm_compute. reflexivity.
Qed.

Lemma Tarea_findAll_de_division (s : Store) (d : Division) (desde hasta : Z) :
  Tarea_findAll s (d_id d) desde hasta
  = List.filter (MonthlyBreakdown.de_division d) (Monthly.Tarea_findAll s desde hasta).
Proof.
  unfold Tarea_findAll, Monthly.Tarea_findAll.
  induction (tabla_tareas s) as [|t l IH]; [reflexivity|].
  rewrite !filter_cons.
  destruct (decide (date_clause desde hasta t)) as [Hd|Hd].
  - cbn [map List.filter]. unfold MonthlyBreakdown.de_division at 1. cbn [fst].
    destruct (Z.eqb_spec (t_divisionId t) (d_id d)) as [He|He].
    + rewrite decide_True by (split; assumption). cbn [map]. rewrite IH. reflexivity.
    + rewrite decide_False by (intros [? _]; contradiction). exact IH.
  - rewrite decide_False by (intros [_ ?]; contradiction). exact IH.
Qed.

(** X23. The page of a division and a month and the monthly report count
    alike: for every unit, the tasks and the delivered tasks on the row of
    the page are the assigned and the completed tasks that the monthly
    report of the same month gives the unit for that division. *)
Theorem calcularDesempeno_matches_monthly (tza : Z) (s : Store) (anioNum mesNum : Z)
    (d : Division) :
  let filas_mes := Monthly.Tarea_findAll s (Monthly.startDate tza anioNum mesNum)
                                         (Monthly.endDate tza anioNum mesNum) in
  exists filas porUnidad,
    desempenoPorMunicipio tza s anioNum mesNum (d_id d) = Ok filas /\
    filas ≡ₚ porUnidad /\
    Forall2 (fun m r =>
               municipio r = m_nombre m /\
               totalTareas r = MonthlyBreakdown.asignadas filas_mes d /\
               tareasCumplidas r = MonthlyBreakdown.completadas filas_mes m d)
            (Municipio_findAll_by_nombre s) porUnidad.
Proof.
  intros filas_mes.
  destruct (dashboard_returns tza s anioNum mesNum (d_id d))
    as (filas & porUnidad & Hr & Hall & Hperm & _).
  exists filas, porUnidad. split; [exact Hr|]. split; [exact Hperm|].
  rewrite Tarea_findAll_de_division in Hall. fold filas_mes in Hall.
  eapply Forall2_impl; [exact Hall|].
  intros m r (H1 & H2 & H3 & _). split; [exact H1|]. split; [exact H2|]. exact H3.
Qed.

End Dashboard.

Section PagesAgree.

Lemma filter_municipio_eqb (id : Z) (l : list Entrega) :
  filter (fun e => e_municipioId e = id) l
  = List.filter (fun e => e_municipioId e =? id) l.
Proof.
  induction l as [|e l IH]; [reflexivity|].
  rewrite filter_cons. cbn [List.filter].
  destruct (Z.eqb_spec (e_municipioId e) id) as [He|He].
  - rewrite decide_True by exact He. rewrite IH. reflexivity.
  - rewrite decide_False by exact He. exact IH.
Qed.

(** The rows of the evaluation of a unit, filtered by a window and a
    division, are the rows of the page of the division, each with the
    deliveries of the unit only. *)
Lemma filas_evaluacion (s : Store) (d desde hasta : Z) (m : Municipio) :
  d <> 0 ->
  AdvancedEvaluation.Tarea_findAll s
    (Some {| AdvancedEvaluation.f_fechaInicio := Some desde;
             AdvancedEvaluation.f_fechaFin := Some hasta;
             AdvancedEvaluation.f_divisionId := Some d |}) (m_id m)
  ≡ₚ map (fun fila => (fila.1, EvaluacionController.entregas_de m fila))
         (EvaluacionController.Tarea_findAll s d desde hasta).
Proof.
  intros Hd. unfold AdvancedEvaluation.Tarea_findAll. rewrite order_by_Permutation.
  unfold EvaluacionController.Tarea_findAll. rewrite map_map.
  rewrite (list_filter_iff _
             (fun t => t_divisionId t = d /\ date_clause desde hasta t)).
  - erewrite map_ext; [reflexivity|]. intros t.
    unfold EvaluacionController.entregas_de. cbn [fst snd].
    rewrite filter_municipio_eqb. reflexivity.
  - intros t. unfold AdvancedEvaluation.whereClause.
    cbn [AdvancedEvaluation.f_divisionId AdvancedEvaluation.f_fechaInicio
         AdvancedEvaluation.f_fechaFin].
    destruct (Z.eqb_spec d 0) as [|_]; [contradiction|].
    destruct (Z.eqb_spec (t_divisionId t) d) as [He|He];
      destruct (date_clause desde hasta t); cbn; tauto.
Qed.

Lemma n_completadas_Permutation (l1 l2 : list (Tarea * list Entrega)) :
  l1 ≡ₚ l2 ->
  Z.of_nat (length l1) = Z.of_nat (length l2) /\
  EvaluationTotals.n_completadas l1 = EvaluationTotals.n_completadas l2 /\
  EvaluationTotals.n_entregas l1 = EvaluationTotals.n_entregas l2.
Proof.
  intros H. unfold EvaluationTotals.n_completadas, EvaluationTotals.n_entregas,
    EvaluationTotals.entregas_evaluadas.
  split; [|split]; f_equal; apply Permutation_length.
  - exact H.
  - clear -H. induction H; cbn [List.filter].
    + reflexivity.
    + destruct (0 <? _); [constructor|]; exact IHPermutation.
    + destruct (0 <? Z.of_nat (length x.2)); destruct (0 <? Z.of_nat (length y.2));
        try reflexivity. constructor.
    + etransitivity; eassumption.
  - apply Permutation_flat_map. exact H.
Qed.

Lemma totales_de_pagina (m : Municipio) (tareas : list (Tarea * list Entrega)) :
  let filas := map (fun fila => (fila.1, EvaluacionController.entregas_de m fila)) tareas in
  Z.of_nat (length filas) = Z.of_nat (length tareas) /\
  EvaluationTotals.n_completadas filas = EvaluacionController.cumplidas tareas m /\
  EvaluationTotals.n_entregas filas = EvaluacionController.entregas_contadas tareas m.
Proof.
  intros filas. subst filas. split; [rewrite length_map; reflexivity|].
  unfold EvaluationTotals.n_completadas, EvaluacionController.cumplidas,
    EvaluationTotals.n_entregas, EvaluacionController.entregas_contadas,
    EvaluationTotals.entregas_evaluadas.
  split; f_equal.
  - induction tareas as [|fila tareas IH]; [reflexivity|].
    cbn [map List.filter snd]. rewrite entregada_por_length.
    destruct (0 <? _); cbn [length]; rewrite IH; reflexivity.
  - induction tareas as [|fila tareas IH]; [reflexivity|].
    cbn [map flat_map fst snd]. rewrite !length_app, length_map, IH. reflexivity.
Qed.

(** X24. The evaluation of a unit with the filters that the controller
    builds for a month and a division (other than 0) counts what the page
    of that division and month shows on the row of the unit: the same
    number of tasks, of delivered tasks and of deliveries. *)
Theorem evaluation_matches_division_page (tza : Z) (s : Store) (m m' : Municipio)
    (mes anio d : Z) :
  Municipio_findByPk s (m_id m) = Some m' -> d <> 0 ->
  let tareas :=
    EvaluacionController.Tarea_findAll s d (Monthly.startDate tza anio mes)
                                       (Monthly.endDate tza anio mes) in
  exists ev,
    AdvancedEvaluation.getMunicipalityComprehensiveEvaluation s (m_id m)
      (EvaluacionController.construir_filtros tza (Some mes) (Some anio) (Some d)) = Ok ev /\
    AdvancedEvaluation.totalTareas ev = Z.of_nat (length tareas) /\
    AdvancedEvaluation.tareasCompletadas ev = EvaluacionController.cumplidas tareas m /\
    AdvancedEvaluation.totalEntregas ev = EvaluacionController.entregas_contadas tareas m.
Proof.
  intros Hm Hd tareas.
  destruct (evaluation_returns s (m_id m)
              (EvaluacionController.construir_filtros tza (Some mes) (Some anio) (Some d))
              m' Hm) as (ev & Hev & H1 & H2 & H3 & _).
  exists ev. split; [exact Hev|].
  pose proof (filas_evaluacion s d (Monthly.startDate tza anio mes)
                (Monthly.endDate tza anio mes) m Hd) as Hperm.
  destruct (n_completadas_Permutation _ _ Hperm) as (P1 & P2 & P3).
  destruct (totales_de_pagina m tareas) as (T1 & T2 & T3).
  unfold EvaluacionController.construir_filtros in H1, H2, H3.
  cbn [fmap option_fmap option_map fst snd] in H1, H2, H3.
  fold (Monthly.startDate tza anio mes) in H1, H2, H3.
  fold (Monthly.endDate tza anio mes) in H1, H2, H3.
  rewrite H1, H2, H3, P1, P2, P3. fold tareas. rewrite T1, T2, T3.
  split; [reflexivity|]. split; reflexivity.
Qed.

Lemma evaluation_matches_division_page_witness :
  let m := {| m_id := 1; m_nombre := "Alfa" |} in
  let tareas :=
    EvaluacionController.Tarea_findAll Ejemplos.entrega_doble 1
      (Monthly.startDate 0 1970 1) (Monthly.endDate 0 1970 1) in
  exists ev,
    AdvancedEvaluation.getMunicipalityComprehensiveEvaluation Ejemplos.entrega_doble (m_id m)
      (EvaluacionController.construir_filtros 0 (Some 1) (Some 1970) (Some 1)) = Ok ev /\
    AdvancedEvaluation.totalTareas ev = Z.of_nat (length tareas) /\
    AdvancedEvaluation.tareasCompletadas ev = EvaluacionController.cumplidas tareas m /\
    AdvancedEvaluation.totalEntregas ev = EvaluacionController.entregas_contadas tareas m.
Proof.
  intros m.
  apply (evaluation_matches_division_page 0 Ejemplos.entrega_doble m m 1 1970 1).
  - reflexivity.
  - discriminate.
Defined.

End PagesAgree.
